(** * Resume-Parser: a shallow embedding of the extraction pipeline

    The definitions below follow [src/resume_parser.py],
    [src/advanced_parser.py], [src/utils.py] and [src/main.py] function by
    function.  Python strings are sequences of Unicode code points, so a
    character is a number and a text is a list of them; dictionaries keep
    their insertion order and are association lists; code that can raise
    returns a [result]. *)

From Stdlib Require Import List NArith ZArith Bool Arith Lia String Ascii.
From Stdlib Require Import Permutation Sorted DecimalString.
From Stdlib Require Import Floats Uint63 QArith Qabs.
#[local] Close Scope Q_scope.
Import ListNotations.

Set Implicit Arguments.

(* ================================================================== *)
(** * Characters and texts *)
(* ================================================================== *)

Definition char := N.
Definition text := list char.

Module Utf8.

(** Source literals are written as Rocq strings, which hold UTF-8 bytes;
    [decode] turns them into the code points Python sees. *)
Fixpoint decode (bs : list N) : text :=
  match bs with
  | [] => []
  | b :: r =>
      if (b <? 128)%N then b :: decode r
      else if (b <? 224)%N then
        match r with
        | b1 :: r1 => ((b - 192) * 64 + (b1 - 128))%N :: decode r1
        | _ => []
        end
      else if (b <? 240)%N then
        match r with
        | b1 :: b2 :: r2 =>
            ((b - 224) * 4096 + (b1 - 128) * 64 + (b2 - 128))%N :: decode r2
        | _ => []
        end
      else
        match r with
        | b1 :: b2 :: b3 :: r3 =>
            ((b - 240) * 262144 + (b1 - 128) * 4096
             + (b2 - 128) * 64 + (b3 - 128))%N :: decode r3
        | _ => []
        end
  end.

End Utf8.

(** [py "abc"] is the Python string literal ['abc']. *)
Definition py (s : string) : text :=
  Utf8.decode (map N_of_ascii (list_ascii_of_string s)).

Definition NL : char := 10%N.

Fixpoint text_eqb (a b : text) : bool :=
  match a, b with
  | [], [] => true
  | x :: a', y :: b' => (x =? y)%N && text_eqb a' b'
  | _, _ => false
  end.

(** The Unicode character database, as far as the program consults it:
    through [str.strip], [str.split], [str.lower], [str.upper],
    [str.title], the [str.is*] tests, and the classes and case folding of
    the [re] module.  The general theorems hold for any tables. *)
Class Unicode := {
  isspace : char -> bool;       (* str.isspace, and \s *)
  isdecimal : char -> bool;     (* \d *)
  isalnum : char -> bool;       (* \w is isalnum or '_' *)
  isdigit : char -> bool;       (* str.isdigit *)
  isalpha : char -> bool;       (* str.isalpha *)
  isupper : char -> bool;       (* str.isupper on one character *)
  str_lower : text -> text;     (* str.lower *)
  str_upper : text -> text;     (* str.upper *)
  str_title : text -> text;     (* str.title *)
  sre_lower : char -> char;     (* case folding of re.IGNORECASE *)
  sre_upper : char -> char
}.

(** The tables on the ASCII letters and digits, with the full list of
    Unicode white space; exact on every text whose letters and digits are
    ASCII. *)
Module Ascii7.

Local Open Scope N_scope.

Definition between (lo hi c : char) : bool := (lo <=? c) && (c <=? hi).

Definition is_upper (c : char) := between 65 90 c.
Definition is_lower (c : char) := between 97 122 c.
Definition is_alpha (c : char) := is_upper c || is_lower c.
Definition is_digit (c : char) := between 48 57 c.
Definition is_alnum (c : char) := is_alpha c || is_digit c.

Definition is_space (c : char) : bool :=
  between 9 13 c || between 28 32 c || (c =? 133) || (c =? 160)
  || (c =? 5760) || between 8192 8202 c || (c =? 8232)
  || (c =? 8233) || (c =? 8239) || (c =? 8287) || (c =? 12288).

Definition lower (c : char) : char := if is_upper c then c + 32 else c.
Definition upper (c : char) : char := if is_lower c then c - 32 else c.

(** [str.title]: a letter that follows a letter is lowered, any other
    letter is raised. *)
Fixpoint title_from (after_letter : bool) (s : text) : text :=
  match s with
  | [] => []
  | c :: r =>
      (if is_alpha c then (if after_letter then lower c else upper c) else c)
        :: title_from (is_alpha c) r
  end.

Definition tables : Unicode := {|
  isspace := is_space;
  isdecimal := is_digit;
  isalnum := is_alnum;
  isdigit := is_digit;
  isalpha := is_alpha;
  isupper := is_upper;
  str_lower := map lower;
  str_upper := map upper;
  str_title := title_from false;
  sre_lower := lower;
  sre_upper := upper
|}.

End Ascii7.

(* ================================================================== *)
(** * The string methods the program calls *)
(* ================================================================== *)

Section Str.

Context {U : Unicode}.

(** [s.split(sep)] for a one-character separator. *)
Fixpoint split_on (sep : char) (s : text) : list text :=
  match s with
  | [] => [[]]
  | c :: r =>
      if (c =? sep)%N then [] :: split_on sep r
      else match split_on sep r with
           | h :: t => (c :: h) :: t
           | [] => [[c]]
           end
  end.

(** [sep.join(parts)]. *)
Fixpoint join (sep : text) (parts : list text) : text :=
  match parts with
  | [] => []
  | [p] => p
  | p :: rest => p ++ sep ++ join sep rest
  end.

Fixpoint lstrip (s : text) : text :=
  match s with
  | c :: r => if isspace c then lstrip r else s
  | [] => []
  end.

Definition rstrip (s : text) : text := rev (lstrip (rev s)).

Definition strip (s : text) : text := rstrip (lstrip s).

Fixpoint startswith (p s : text) : bool :=
  match p, s with
  | [], _ => true
  | x :: p', y :: s' => (x =? y)%N && startswith p' s'
  | _ :: _, [] => false
  end.

(** [p in s] on strings. *)
Fixpoint contains (p s : text) : bool :=
  startswith p s || match s with [] => false | _ :: s' => contains p s' end.

(** [s[a:b]] for non-negative bounds. *)
Definition slice (a b : nat) (s : text) : text := firstn (b - a) (skipn a s).

End Str.

(** A Python [dict] with string keys: insertion-ordered, an assignment to a
    key that is present replaces its value in place. *)
Section Dict.

Variable V : Type.

Definition dict := list (text * V).

Fixpoint dict_get (d : dict) (k : text) : option V :=
  match d with
  | [] => None
  | (k', v) :: d' => if text_eqb k' k then Some v else dict_get d' k
  end.

Fixpoint dict_set (d : dict) (k : text) (v : V) : dict :=
  match d with
  | [] => [(k, v)]
  | (k', v') :: d' =>
      if text_eqb k' k then (k', v) :: d' else (k', v') :: dict_set d' k v
  end.

Definition dict_keys (d : dict) : list text := map fst d.

Definition dict_has (d : dict) (k : text) : bool :=
  match dict_get d k with Some _ => true | None => false end.

End Dict.

(* ================================================================== *)
(** * ResumeParser: the tables set up by [__init__] *)
(* ================================================================== *)

Definition texts (l : list string) : list text := map py l.

(** [self.section_headers], in the order the dictionary declares them. *)
Definition section_headers : dict (list text) :=
  [ (py "experience",
      texts ["experience"; "employment"; "work history";
             "professional experience"; "career"]);
    (py "education",
      texts ["education"; "academic"; "qualifications";
             "academic background"]);
    (py "skills",
      texts ["skills"; "technical skills"; "competencies"; "expertise";
             "technologies"]);
    (py "projects", texts ["projects"; "portfolio"; "personal projects"]);
    (py "certifications", texts ["certifications"; "certificates"; "licenses"]);
    (py "summary",
      texts ["summary"; "objective"; "profile"; "about me";
             "professional summary"]) ]%string.

(** [_load_skills_database]: category, then the skills of the category. *)
Definition skills_db : dict (list text) :=
  [ (py "programming_languages",
      texts ["python"; "java"; "javascript"; "typescript"; "c++"; "c#";
             "ruby"; "go"; "rust"; "kotlin"; "swift"; "php"; "scala"; "r";
             "matlab"; "perl"; "shell"; "bash"; "powershell"; "sql"; "html";
             "css"]);
    (py "web_frameworks",
      texts ["react"; "angular"; "vue.js"; "node.js"; "express.js"; "django";
             "flask"; "spring"; "spring boot"; "asp.net"; "ruby on rails";
             "laravel"; "symfony"; "fastapi"; "next.js"; "nuxt.js"]);
    (py "databases",
      texts ["mysql"; "postgresql"; "mongodb"; "oracle"; "sql server";
             "sqlite"; "redis"; "cassandra"; "dynamodb"; "elasticsearch";
             "neo4j"; "couchdb"]);
    (py "cloud_platforms",
      texts ["aws"; "azure"; "google cloud"; "gcp"; "heroku"; "digitalocean";
             "alibaba cloud"; "ibm cloud"; "oracle cloud"]);
    (py "devops_tools",
      texts ["docker"; "kubernetes"; "jenkins"; "gitlab"; "github actions";
             "terraform"; "ansible"; "puppet"; "chef"; "circleci";
             "travis ci"]);
    (py "data_science",
      texts ["machine learning"; "deep learning"; "tensorflow"; "pytorch";
             "scikit-learn"; "pandas"; "numpy"; "keras"; "opencv"; "nlp";
             "computer vision"; "data analysis"; "statistics"; "tableau";
             "power bi"]);
    (py "mobile",
      texts ["android"; "ios"; "react native"; "flutter"; "xamarin"; "ionic";
             "swift"; "objective-c"; "kotlin"; "android studio"; "xcode"]);
    (py "tools",
      texts ["git"; "svn"; "mercurial"; "jira"; "confluence"; "slack";
             "microsoft office"; "excel"; "powerpoint"; "word"; "outlook"]);
    (py "soft_skills",
      texts ["leadership"; "communication"; "teamwork"; "problem solving";
             "project management"; "agile"; "scrum"; "kanban"; "analytical";
             "critical thinking"; "time management"; "collaboration"]) ]%string.

(** Every skill of the taxonomy, in the order the nested loops
    [for category, skills in ...: for skill in skills] visit them. *)
Definition all_skills : list text := flat_map snd skills_db.

(* ================================================================== *)
(** * The section segmenter: [extract_sections] *)
(* ================================================================== *)

Section Segmenter.

Context {U : Unicode}.

(** The inner [for section_name, keywords in ...] loop with its [break]:
    the first section one of whose keywords occurs in the line. *)
Definition header_of (line : text) : option text :=
  let line_lower := strip (str_lower line) in
  option_map fst
    (find (fun sk => existsb (fun keyword => contains keyword line_lower)
                             (snd sk))
          section_headers).

(** The state of the [for line in lines] loop. *)
Record seg_state := {
  sections : dict text;
  current_section : text;
  section_text : list text
}.

Definition seg_flush (st : seg_state) : dict text :=
  match section_text st with
  | [] => sections st
  | _ :: _ =>
      dict_set (sections st) (current_section st)
               (join [NL] (section_text st))
  end.

Definition seg_step (st : seg_state) (line : text) : seg_state :=
  match header_of line with
  | Some section_name =>
      {| sections := seg_flush st;
         current_section := section_name;
         section_text := [] |}
  | None =>
      {| sections := sections st;
         current_section := current_section st;
         section_text := section_text st ++ [line] |}
  end.

Definition seg_init : seg_state :=
  {| sections := []; current_section := py "header"; section_text := [] |}.

Definition extract_sections (t : text) : dict text :=
  seg_flush (fold_left seg_step (split_on NL t) seg_init).

(** The lines the blocks of a section map hold, and the lines of a text
    that are not section headers. *)
Definition block_lines (d : dict text) : list text :=
  flat_map (fun kv => split_on NL (snd kv)) d.

Definition is_trigger (line : text) : bool :=
  match header_of line with Some _ => true | None => false end.

Definition content_lines (t : text) : list text :=
  filter (fun l => negb (is_trigger l)) (split_on NL t).

End Segmenter.

Definition unlines (l : list string) : text := join [NL] (texts l).

(* ================================================================== *)
(** * The [re] module: patterns, their syntax, and backtracking search *)
(* ================================================================== *)

Module Re.

(** An element of a bracketed class. *)
Inductive item :=
| IChar (c : char)
| IRange (lo hi : char)
| ISpace                  (* \s *)
| IDigit                  (* \d *)
| IWord                   (* \w *)
| INot (i : item).        (* \S \D \W *)

Inductive regex :=
| REmpty
| RLit (c : char)
| RAny                                         (* . *)
| RIn (negated : bool) (items : list item)     (* [...] and [^...] *)
| RSeq (r1 r2 : regex)
| RAlt (r1 r2 : regex)
| RRep (lo : nat) (hi : option nat) (greedy : bool) (r : regex)
| RGroup (index : nat) (r : regex)             (* ( ... ) *)
| RAhead (r : regex)                           (* (?= ... ) *)
| RBound                                       (* \b *)
| RBol                                         (* ^ *)
| REol.                                        (* $ *)

(** The number of capturing groups, which decides what [findall]
    returns. *)
Fixpoint groups (r : regex) : nat :=
  match r with
  | RSeq a b | RAlt a b => groups a + groups b
  | RRep _ _ _ a | RAhead a => groups a
  | RGroup _ a => S (groups a)
  | _ => 0
  end.

(** ** Pattern syntax *)

Definition ch (a : ascii) : char := N_of_ascii a.

Definition is_ch (a : ascii) (c : char) : bool := (c =? ch a)%N.

Fixpoint strip_prefix (p s : text) : option text :=
  match p, s with
  | [], _ => Some s
  | x :: p', y :: s' => if (x =? y)%N then strip_prefix p' s' else None
  | _ :: _, [] => None
  end.

(** The escapes that stand for a class, inside and outside brackets. *)
Definition class_escape (c : char) : option item :=
  if is_ch "s" c then Some ISpace
  else if is_ch "d" c then Some IDigit
  else if is_ch "w" c then Some IWord
  else if is_ch "S" c then Some (INot ISpace)
  else if is_ch "D" c then Some (INot IDigit)
  else if is_ch "W" c then Some (INot IWord)
  else None.

(** The escapes that stand for one character: \n, \t, \r, and a
    punctuation character standing for itself. *)
Definition char_escape (c : char) : char :=
  if is_ch "n" c then 10%N
  else if is_ch "t" c then 9%N
  else if is_ch "r" c then 13%N
  else c.

Definition digit_val (c : char) : option nat :=
  if ((48 <=? c) && (c <=? 57))%N then Some (N.to_nat (c - 48)) else None.

(** A decimal number at the head of the text, if there is one. *)
Fixpoint number (acc : option nat) (s : text) : option nat * text :=
  match s with
  | c :: s' =>
      match digit_val c with
      | Some d =>
          number (Some (10 * match acc with Some a => a | None => 0 end + d))
                 s'
      | None => (acc, s)
      end
  | [] => (acc, s)
  end.

(** The quantifier after an atom: [*], [+], [?], [{m}], [{m,}], [{m,n}],
    each made lazy by a following [?]. *)
Definition lazy_suffix (s : text) : bool * text :=
  match s with
  | c :: s' => if is_ch "?" c then (false, s') else (true, s)
  | [] => (true, s)
  end.

Definition braces (s : text) : option (nat * option nat * text) :=
  match number None s with
  | (Some lo, c :: s1) =>
      if is_ch "}" c then Some (lo, Some lo, s1)
      else if is_ch "," c then
        match number None s1 with
        | (hi, c2 :: s2) => if is_ch "}" c2 then Some (lo, hi, s2) else None
        | _ => None
        end
      else None
  | _ => None
  end.

Definition quantified (a : regex) (s : text) : regex * text :=
  match s with
  | c :: s1 =>
      if is_ch "*" c then
        let (g, s2) := lazy_suffix s1 in (RRep 0 None g a, s2)
      else if is_ch "+" c then
        let (g, s2) := lazy_suffix s1 in (RRep 1 None g a, s2)
      else if is_ch "?" c then
        let (g, s2) := lazy_suffix s1 in (RRep 0 (Some 1) g a, s2)
      else if is_ch "{" c then
        match braces s1 with
        | Some (lo, hi, s2) =>
            let (g, s3) := lazy_suffix s2 in (RRep lo hi g a, s3)
        | None => (a, s)
        end
      else (a, s)
  | [] => (a, s)
  end.

(** The items of a bracketed class, up to the closing bracket. *)
Fixpoint class_items (fuel : nat) (s : text) : option (list item * text) :=
  match fuel with
  | 0 => None
  | S fuel' =>
      match s with
      | [] => None
      | c :: s1 =>
          if is_ch "]" c then Some ([], s1)
          else
            let first :=
              if is_ch "\" c then
                match s1 with
                | e :: s2 =>
                    match class_escape e with
                    | Some i => Some (inl i, s2)
                    | None => Some (inr (char_escape e), s2)
                    end
                | [] => None
                end
              else Some (inr c, s1) in
            match first with
            | None => None
            | Some (inl i, s2) =>
                option_map (fun r => (i :: fst r, snd r))
                           (class_items fuel' s2)
            | Some (inr lo, s2) =>
                match s2 with
                | d :: hi :: s3 =>
                    if is_ch "-" d && negb (is_ch "]" hi) then
                      let (hi', s4) :=
                        if is_ch "\" hi then
                          match s3 with
                          | e :: s4 => (char_escape e, s4)
                          | [] => (hi, s3)
                          end
                        else (hi, s3) in
                      option_map (fun r => (IRange lo hi' :: fst r, snd r))
                                 (class_items fuel' s4)
                    else
                      option_map (fun r => (IChar lo :: fst r, snd r))
                                 (class_items fuel' s2)
                | _ =>
                    option_map (fun r => (IChar lo :: fst r, snd r))
                               (class_items fuel' s2)
                end
            end
      end
  end.

Definition closes (s : text) : option text :=
  match s with
  | c :: s' => if is_ch ")" c then Some s' else None
  | [] => None
  end.

(** Alternatives, sequences and atoms; [n] is the index the next
    capturing group gets (groups are numbered by their opening
    parenthesis). *)
Fixpoint parse_alt (fuel n : nat) (s : text) {struct fuel}
  : option (regex * nat * text) :=
  match fuel with
  | 0 => None
  | S fuel' =>
      match parse_seq fuel' n s with
      | Some (r1, n1, s1) =>
          match s1 with
          | c :: s2 =>
              if is_ch "|" c then
                match parse_alt fuel' n1 s2 with
                | Some (r2, n2, s3) => Some (RAlt r1 r2, n2, s3)
                | None => None
                end
              else Some (r1, n1, s1)
          | [] => Some (r1, n1, s1)
          end
      | None => None
      end
  end

with parse_seq (fuel n : nat) (s : text) {struct fuel}
  : option (regex * nat * text) :=
  match fuel with
  | 0 => None
  | S fuel' =>
      match s with
      | [] => Some (REmpty, n, s)
      | c :: _ =>
          if is_ch "|" c || is_ch ")" c then Some (REmpty, n, s)
          else
            match parse_atom fuel' n s with
            | Some (a, n1, s1) =>
                let (q, s2) := quantified a s1 in
                match parse_seq fuel' n1 s2 with
                | Some (REmpty, n2, s3) => Some (q, n2, s3)
                | Some (r, n2, s3) => Some (RSeq q r, n2, s3)
                | None => None
                end
            | None => None
            end
      end
  end

with parse_atom (fuel n : nat) (s : text) {struct fuel}
  : option (regex * nat * text) :=
  match fuel with
  | 0 => None
  | S fuel' =>
      match s with
      | [] => None
      | c :: s1 =>
          if is_ch "(" c then
            match strip_prefix (py "?:") s1, strip_prefix (py "?=") s1 with
            | Some s2, _ =>
                match parse_alt fuel' n s2 with
                | Some (r, n1, s3) =>
                    option_map (fun s4 => (r, n1, s4)) (closes s3)
                | None => None
                end
            | None, Some s2 =>
                match parse_alt fuel' n s2 with
                | Some (r, n1, s3) =>
                    option_map (fun s4 => (RAhead r, n1, s4)) (closes s3)
                | None => None
                end
            | None, None =>
                match parse_alt fuel' (S n) s1 with
                | Some (r, n1, s3) =>
                    option_map (fun s4 => (RGroup n r, n1, s4)) (closes s3)
                | None => None
                end
            end
          else if is_ch "[" c then
            let (neg, s2) :=
              match s1 with
              | x :: s2 => if is_ch "^" x then (true, s2) else (false, s1)
              | [] => (false, s1)
              end in
            option_map (fun r => (RIn neg (fst r), n, snd r))
                       (class_items (S (List.length s2)) s2)
          else if is_ch "\" c then
            match s1 with
            | e :: s2 =>
                if is_ch "b" e then Some (RBound, n, s2)
                else match class_escape e with
                     | Some i => Some (RIn false [i], n, s2)
                     | None => Some (RLit (char_escape e), n, s2)
                     end
            | [] => None
            end
          else if is_ch "." c then Some (RAny, n, s1)
          else if is_ch "^" c then Some (RBol, n, s1)
          else if is_ch "$" c then Some (REol, n, s1)
          else Some (RLit c, n, s1)
      end
  end.

(** [re.compile]: [None] when the pattern is not in the syntax above
    (Python raises [re.error], or the construct is not one the program
    uses). *)
Definition compile (p : text) : option regex :=
  match parse_alt (3 * List.length p + 3) 1 p with
  | Some (r, _, []) => Some r
  | _ => None
  end.

(** ** Matching *)

Section Matching.

Context {U : Unicode}.

Definition is_word (c : char) : bool := isalnum c || (c =? 95)%N.

Fixpoint item_mem (i : item) (c : char) : bool :=
  match i with
  | IChar x => (c =? x)%N
  | IRange lo hi => ((lo <=? c) && (c <=? hi))%N
  | ISpace => isspace c
  | IDigit => isdecimal c
  | IWord => is_word c
  | INot j => negb (item_mem j c)
  end.

(** Under IGNORECASE a character is in a class when one of its case
    variants is. *)
Definition in_items (ic : bool) (items : list item) (c : char) : bool :=
  existsb (fun i => item_mem i c) items
  || (ic && (existsb (fun i => item_mem i (sre_lower c)) items
             || existsb (fun i => item_mem i (sre_upper c)) items)).

Definition lit_eq (ic : bool) (x c : char) : bool :=
  if ic then (sre_lower c =? sre_lower x)%N else (c =? x)%N.

(** Where the matcher stands in the subject: the offset, the character
    before it, and what is left. *)
Record cursor := {
  pos : nat;
  prev : option char;
  rest : text
}.

Definition start_of (s : text) : cursor :=
  {| pos := 0; prev := None; rest := s |}.

Definition caps := list (nat * (nat * nat)).

Definition at_boundary (c : cursor) : bool :=
  xorb (match prev c with Some p => is_word p | None => false end)
       (match rest c with a :: _ => is_word a | [] => false end).

(** [$] without MULTILINE: at the end, or before a final newline. *)
Definition at_end (c : cursor) : bool :=
  match rest c with
  | [] => true
  | [a] => (a =? NL)%N
  | _ => false
  end.

(** One character, if it passes the test. *)
Definition eat (R : Type) (ok : char -> bool) (c : cursor)
           (k : cursor -> option R) : option R :=
  match rest c with
  | a :: t =>
      if ok a then k {| pos := S (pos c); prev := Some a; rest := t |}
      else None
  | [] => None
  end.

Definition below (n : nat) (hi : option nat) : bool :=
  match hi with Some h => n <? h | None => true end.

(** The rounds of a repetition that has matched [n] times: [step] matches
    the repeated pattern once and [k] is what follows the repetition.  A
    greedy repetition tries one more round before it tries to stop, a
    lazy one the other way round; a round that consumes nothing ends the
    repetition.  The fuel is the number of characters left, plus one. *)
Fixpoint rounds (R : Type)
         (step : cursor -> caps -> (cursor -> caps -> option R) -> option R)
         (lo : nat) (hi : option nat) (greedy : bool)
         (k : cursor -> caps -> option R)
         (fuel n : nat) (c : cursor) (g : caps) {struct fuel} : option R :=
  match fuel with
  | 0 => None
  | S fuel' =>
      let more (_ : unit) :=
        if below n hi then
          step c g (fun c' g' =>
                      if pos c' =? pos c then None
                      else rounds step lo hi greedy k fuel' (S n) c' g')
        else None in
      let stop (_ : unit) := if lo <=? n then k c g else None in
      if greedy then
        match more tt with Some x => Some x | None => stop tt end
      else
        match stop tt with Some x => Some x | None => more tt end
  end.

(** The backtracking matcher, in continuation-passing style: [k] is what
    remains to match after [r].  Alternatives are tried left to right. *)
Fixpoint run (R : Type) (ic : bool) (r : regex) (c : cursor) (g : caps)
         (k : cursor -> caps -> option R) {struct r} : option R :=
  match r with
  | REmpty => k c g
  | RLit x => eat (lit_eq ic x) c (fun c' => k c' g)
  | RAny => eat (fun a => negb (a =? NL)%N) c (fun c' => k c' g)
  | RIn neg items =>
      eat (fun a => xorb neg (in_items ic items a)) c (fun c' => k c' g)
  | RSeq r1 r2 => run ic r1 c g (fun c' g' => run ic r2 c' g' k)
  | RAlt r1 r2 =>
      match run ic r1 c g k with
      | Some x => Some x
      | None => run ic r2 c g k
      end
  | RRep lo hi greedy r1 =>
      rounds (run ic r1) lo hi greedy k (S (List.length (rest c))) 0 c g
  | RGroup i r1 =>
      run ic r1 c g (fun c' g' => k c' ((i, (pos c, pos c')) :: g'))
  | RAhead r1 =>
      match run ic r1 c g (fun _ g' => Some g') with
      | Some g' => k c g'
      | None => None
      end
  | RBound => if at_boundary c then k c g else None
  | RBol => if pos c =? 0 then k c g else None
  | REol => if at_end c then k c g else None
  end.

(** A match object: where the match starts and ends in the subject,
    and the spans of the groups that took part. *)
Record rmatch := {
  m_start : nat;
  m_end : nat;
  m_caps : caps;
  m_after : cursor
}.

Definition match_here (ic : bool) (r : regex) (c : cursor)
  : option rmatch :=
  run ic r c []
      (fun c' g =>
         Some {| m_start := pos c; m_end := pos c'; m_caps := g;
                 m_after := c' |}).

(** The leftmost match at or after the cursor. *)
Fixpoint scan (ic : bool) (r : regex) (p : nat) (pv : option char)
         (s : text) {struct s} : option rmatch :=
  match match_here ic r {| pos := p; prev := pv; rest := s |} with
  | Some m => Some m
  | None =>
      match s with
      | [] => None
      | a :: s' => scan ic r (S p) (Some a) s'
      end
  end.

Definition scan_from (ic : bool) (r : regex) (c : cursor) :=
  scan ic r (pos c) (prev c) (rest c).

(** [re.search] and [re.match]. *)
Definition search (ic : bool) (r : regex) (s : text) : option rmatch :=
  scan_from ic r (start_of s).

Definition match_ (ic : bool) (r : regex) (s : text) : option rmatch :=
  match_here ic r (start_of s).

(** [re.finditer]: the successive matches, none overlapping another.
    After a match of no character the scan resumes one character
    further on. *)
Fixpoint iter_from (fuel : nat) (ic : bool) (r : regex) (c : cursor)
  : list rmatch :=
  match fuel with
  | 0 => []
  | S fuel' =>
      match scan_from ic r c with
      | None => []
      | Some m =>
          m :: (if m_end m =? m_start m then
                  match rest (m_after m) with
                  | [] => []
                  | a :: t =>
                      iter_from fuel' ic r
                        {| pos := S (m_end m); prev := Some a; rest := t |}
                  end
                else iter_from fuel' ic r (m_after m))
      end
  end.

Definition finditer (ic : bool) (r : regex) (s : text) : list rmatch :=
  iter_from (S (List.length s)) ic r (start_of s).

(** [m.group()] and [m.group(i)] ([None] when the group took no
    part). *)
Definition group0 (s : text) (m : rmatch) : text :=
  slice (m_start m) (m_end m) s.

Fixpoint span_of (i : nat) (g : caps) : option (nat * nat) :=
  match g with
  | [] => None
  | (j, sp) :: g' => if j =? i then Some sp else span_of i g'
  end.

Definition group (s : text) (m : rmatch) (i : nat) : option text :=
  option_map (fun sp => slice (fst sp) (snd sp) s) (span_of i (m_caps m)).

(** [re.findall] for a pattern with at most one group: the matches
    themselves when the pattern has no group, and otherwise what the
    group matched (the empty string when it took no part). *)
Definition findall (ic : bool) (r : regex) (s : text) : list text :=
  map (fun m =>
         match groups r with
         | 0 => group0 s m
         | _ => match group s m 1 with Some t => t | None => [] end
         end)
      (finditer ic r s).

(** [re.split] for a pattern without groups: the pieces between the
    matches. *)
Fixpoint pieces (from : nat) (ms : list rmatch) (s : text) : list text :=
  match ms with
  | [] => [skipn from s]
  | m :: ms' => slice from (m_start m) s :: pieces (m_end m) ms' s
  end.

Definition split (ic : bool) (r : regex) (s : text) : list text :=
  pieces 0 (finditer ic r s) s.

(** [re.sub(pattern, '', s)]. *)
Definition remove (ic : bool) (r : regex) (s : text) : text :=
  List.concat (split ic r s).

End Matching.

(** [re.escape]: a backslash before each special character. *)
Definition special (c : char) : bool :=
  existsb (fun x => (c =? x)%N)
          (py "()[]{}?*+-|^$\.&~# " ++ [9; 10; 13; 11; 12]%N).

Definition escape (s : text) : text :=
  flat_map (fun c => if special c then [ch "\"; c] else [c]) s.

End Re.

(** A pattern of the program, compiled.  Every pattern the program builds
    is in the syntax of [Re.compile] (lemma [patterns_compile] below); the
    default stands for no match. *)
Definition pattern (p : text) : Re.regex :=
  match Re.compile p with
  | Some r => r
  | None => Re.RIn false []
  end.

(** [self.patterns]. *)
Definition year_pattern : text := py "\b(19|20)\d{2}\b".

Definition date_pattern : text :=
  py "((?:Jan|Feb|Mar|Apr|May|Jun|Jul|Aug|Sep|Oct|Nov|Dec)[a-z]*\.?\s*\d{4})".

(** Truth of an optional string in a condition: [None] and [''] are
    false. *)
Definition truthy (o : option text) : bool :=
  match o with
  | Some (_ :: _) => true
  | _ => false
  end.

Definition nonempty (s : text) : bool :=
  match s with
  | [] => false
  | _ :: _ => true
  end.

(** [sections.get(name, '')], and the fallback taken when it is empty. *)
Definition section_or_empty (d : dict text) (name : text) : text :=
  match dict_get d name with
  | Some s => s
  | None => []
  end.

(** ** Numbers and their decimal notation *)

(** [int(s)] on a string of ASCII digits. *)
Definition py_int (s : text) : Z :=
  fold_left (fun acc c => (10 * acc + (Z.of_N c - 48))%Z) s 0%Z.

(** [str(n)] for a natural number. *)
Definition py_str (n : Z) : text :=
  py (NilEmpty.string_of_uint (N.to_uint (Z.to_N n))).

(** [max] of a non-empty list of integers. *)
Definition py_max (l : list Z) : Z :=
  match l with
  | [] => 0%Z
  | x :: l' => fold_left Z.max l' x
  end.

(** ** Ordering of strings, [sorted], and [set] *)

(** [a < b] on strings: lexicographic on the code points. *)
Fixpoint text_ltb (a b : text) : bool :=
  match a, b with
  | _, [] => false
  | [], _ :: _ => true
  | x :: a', y :: b' => (x <? y)%N || ((x =? y)%N && text_ltb a' b')
  end.

Fixpoint insert_sorted (x : text) (l : list text) : list text :=
  match l with
  | [] => [x]
  | y :: l' => if text_ltb y x then y :: insert_sorted x l' else x :: l
  end.

(** [sorted(l)] on a list of strings. *)
Definition sorted (l : list text) : list text :=
  fold_right insert_sorted [] l.

(** [s.add(x)] on a set of strings, kept as a list without repetition. *)
Definition set_add (s : list text) (x : text) : list text :=
  if existsb (text_eqb x) s then s else s ++ [x].

(* ================================================================== *)
(** * The field extractors *)
(* ================================================================== *)

Section Extractors.

Context {U : Unicode}.

(** ** [extract_skills] *)

Definition skill_pattern (skill : text) : text :=
  py "\b" ++ Re.escape (str_lower skill) ++ py "\b".

Definition canonical (skill : text) : text :=
  if 3 <? List.length skill then str_title skill else str_upper skill.

(** The set [found_skills] when the loops are over, in the order the
    elements were added. *)
Definition found_skills (t : text) : list text :=
  let text_lower := str_lower t in
  fold_left
    (fun found skill =>
       match Re.search false (pattern (skill_pattern skill)) text_lower with
       | Some _ => set_add found (canonical skill)
       | None => found
       end)
    all_skills [].

(** [sorted(list(found_skills))], for the enumeration of the set that
    follows the insertions (sorting makes the enumeration chosen
    immaterial). *)
Definition extract_skills (t : text) : list text :=
  sorted (found_skills t).

(** ** [extract_education] *)

Record EducationEntry := {
  degree : text;
  institution : option text;
  year : option text;
  gpa : option text
}.

Definition degree_patterns : list text :=
  texts
    [ "(?:Bachelor|B\.?S\.?|B\.?A\.?|BSc|BA)(?:'s)?(?:\s+(?:of|in))?\s+(?:[\w\s]+)?";
      "(?:Master|M\.?S\.?|M\.?A\.?|MSc|MA|MBA|M\.?Tech)(?:'s)?(?:\s+(?:of|in))?\s+(?:[\w\s]+)?";
      "(?:Ph\.?D\.?|Doctorate)(?:\s+(?:of|in))?\s+(?:[\w\s]+)?";
      "(?:Associate|Diploma|Certificate)(?:\s+(?:of|in))?\s+(?:[\w\s]+)?"
    ]%string.

Definition inst_patterns : list text :=
  texts ["University"; "College"; "Institute"; "School"; "Academy"]%string.

Definition inst_regex (inst_pattern : text) : text :=
  py "[\w\s]{1,50}" ++ inst_pattern ++ py "[\w\s]{0,20}".

Definition gpa_pattern : text :=
  py "(?:GPA|Grade|Score)[\s:]*(\d+\.?\d*)\s*(?:/\s*(\d+\.?\d*))?".

(** The loop over [inst_patterns], left at the first match. *)
Fixpoint find_institution (pats : list text) (context : text)
  : option text :=
  match pats with
  | [] => None
  | inst_pattern :: pats' =>
      match Re.search true (pattern (inst_regex inst_pattern)) context with
      | Some inst_match => Some (strip (Re.group0 context inst_match))
      | None => find_institution pats' context
      end
  end.

(** The graduation year read from the context. *)
Definition find_year (current_year : Z) (context : text) : option text :=
  let year_matches := Re.findall false (pattern year_pattern) context in
  match year_matches with
  | [] => None
  | _ :: _ =>
      let years := map py_int year_matches in
      let valid_years :=
        filter (fun y => (1950 <=? y)%Z && (y <=? current_year)%Z) years in
      match valid_years with
      | [] => None
      | _ :: _ => Some (py_str (py_max valid_years))
      end
  end.

Definition find_gpa (context : text) : option text :=
  match Re.search true (pattern gpa_pattern) context with
  | Some gpa_match => Re.group context gpa_match 1
  | None => None
  end.

(** The body of [for match in matches]. *)
Definition education_entry (current_year : Z) (edu_text : text)
           (m : Re.rmatch) : EducationEntry :=
  let degree_text := strip (Re.group0 edu_text m) in
  let start := Re.m_start m - 200 in
  let end_ := Nat.min (List.length edu_text) (Re.m_end m + 200) in
  let context := slice start end_ edu_text in
  {| degree := degree_text;
     institution := find_institution inst_patterns context;
     year := find_year current_year context;
     gpa := find_gpa context |}.

Definition option_text_eqb (a b : option text) : bool :=
  match a, b with
  | Some x, Some y => text_eqb x y
  | None, None => true
  | _, _ => false
  end.

Definition edu_key (e : EducationEntry) : text * option text :=
  (degree e, institution e).

Definition key_eqb (a b : text * option text) : bool :=
  text_eqb (fst a) (fst b) && option_text_eqb (snd a) (snd b).

(** The loop that removes duplicates: the state is [seen] and
    [unique_education]. *)
Definition unique_step (st : list (text * option text) * list EducationEntry)
           (edu : EducationEntry) :=
  let key := edu_key edu in
  if existsb (key_eqb key) (fst st) then st
  else (key :: fst st, snd st ++ [edu]).

Definition remove_duplicates (education : list EducationEntry)
  : list EducationEntry :=
  snd (fold_left unique_step education ([], [])).

(** The text the degrees are searched in: the education section, or the
    whole text when there is none. *)
Definition education_text (t : text) : text :=
  let edu_text := section_or_empty (extract_sections t) (py "education") in
  if nonempty edu_text then edu_text else t.

(** The list [education] before the duplicates are removed. *)
Definition education_matches (current_year : Z) (t : text)
  : list EducationEntry :=
  let edu_text := education_text t in
  flat_map
    (fun p =>
       map (education_entry current_year edu_text)
           (Re.finditer true (pattern p) edu_text))
    degree_patterns.

(** [current_year] is [datetime.now().year]. *)
Definition extract_education (current_year : Z) (t : text)
  : list EducationEntry :=
  remove_duplicates (education_matches current_year t).

(** ** [extract_experience] *)

Record ExperienceEntry := {
  position : option text;
  company : option text;
  duration : option text;
  location : option text;
  description : list text
}.

Definition experience_carve_out : text :=
  py "(?:experience|employment|work history)[\s:]*\n([\s\S]+?)(?=\n[A-Z]{2,}|education|skills|$)".

Definition job_split_pattern : text :=
  py "\n(?=\w+.*?(?:Engineer|Developer|Manager|Analyst|Consultant|Designer|Specialist|Director|Lead|Senior|Junior))".

Definition position_keywords : list text :=
  texts ["Engineer"; "Developer"; "Manager"; "Analyst"; "Consultant";
         "Designer"; "Specialist"; "Director"; "Lead"; "Architect";
         "Administrator"; "Coordinator"; "Executive"; "Officer";
         "Scientist"; "Researcher"; "Intern"; "Associate"]%string.

Definition position_regex (keyword : text) : text :=
  py "[\w\s]*" ++ keyword ++ py "[\w\s]*".

Definition company_pattern : text := py "(?:at|@|\|)\s*([^,\n|]+)".

Definition duration_pattern : text :=
  py "(?:" ++ date_pattern ++ py ")\s*[-–—]\s*(?:" ++ date_pattern
     ++ py "|Present|Current)".

Definition location_pattern : text :=
  py "(?:,\s*|in\s+)([\w\s]+,\s*\w{2,})".

Definition numbered_pattern : text := py "^\d+\.".

Definition bullet_prefix_pattern : text := py "^[•\-▪→\d.)\s]+".

Definition bullet_marks : list text := texts ["•"; "-"; "▪"; "→"]%string.

(** The text the jobs are read from: the experience section, else what
    the carve-out captures, else nothing. *)
Definition experience_text (t : text) : text :=
  let exp_text := section_or_empty (extract_sections t) (py "experience") in
  if nonempty exp_text then exp_text
  else
    match Re.search true (pattern experience_carve_out) t with
    | Some exp_match =>
        match Re.group t exp_match 1 with
        | Some g => g
        | None => []
        end
    | None => []
    end.

(** The loop over [position_keywords]; its [break] sits under
    [if pos_match]. *)
Fixpoint find_position (keywords : list text) (first_line : text)
  : option text :=
  match keywords with
  | [] => None
  | keyword :: keywords' =>
      if contains keyword first_line then
        match Re.search true (pattern (position_regex keyword)) first_line
        with
        | Some pos_match => Some (strip (Re.group0 first_line pos_match))
        | None => find_position keywords' first_line
        end
      else find_position keywords' first_line
  end.

Definition stripped_group1 (ic : bool) (p s : text) : option text :=
  match Re.search ic (pattern p) s with
  | Some m => option_map strip (Re.group s m 1)
  | None => None
  end.

(** [line.startswith(('•', '-', '▪', '→')) or re.match(r'^\d+\.', line)]. *)
Definition is_bullet (line : text) : bool :=
  existsb (fun b => startswith b line) bullet_marks
  || match Re.match_ false (pattern numbered_pattern) line with
     | Some _ => true
     | None => false
     end.

(** One round of [for line in lines[1:]], on the description gathered
    so far. *)
Definition describe_step (description : list text) (raw_line : text)
  : list text :=
  let line := strip raw_line in
  if nonempty line && is_bullet line then
    let desc := strip (Re.remove false (pattern bullet_prefix_pattern) line) in
    if nonempty desc then description ++ [desc] else description
  else if nonempty line && (List.length description <? 5) then
    description ++ [line]
  else description.

Definition describe (lines : list text) : list text :=
  fold_left describe_step lines [].

(** The entry built from one piece of the split ([lines] is never
    empty: [split] returns at least one string). *)
Definition experience_entry (job_text : text) : ExperienceEntry :=
  let lines := split_on NL (strip job_text) in
  let first_line := hd [] lines in
  {| position := find_position position_keywords first_line;
     company := stripped_group1 true company_pattern first_line;
     duration :=
       option_map (Re.group0 job_text)
                  (Re.search true (pattern duration_pattern) job_text);
     location := stripped_group1 false location_pattern first_line;
     description := describe (tl lines) |}.

Definition job_splits (t : text) : list text :=
  Re.split false (pattern job_split_pattern) (experience_text t).

Definition extract_experience (t : text) : list ExperienceEntry :=
  if nonempty (experience_text t) then
    filter (fun e => truthy (position e) || truthy (company e))
           (map experience_entry
                (filter (fun job_text => nonempty (strip job_text))
                        (job_splits t)))
  else [].

(** ** [extract_projects] *)

Record ProjectEntry := {
  name : text;
  proj_description : list text;
  technologies : list text
}.

Definition project_split_pattern : text :=
  py "\n(?=\w+.*?(?:Project|App|System|Platform|Tool|Website))".

Definition tech_markers : list text :=
  texts ["technologies:"; "tech stack:"; "built with:"; "using:"]%string.

(** [any(tech in line.lower() for tech in [...])]. *)
Definition mentions_technologies (line : text) : bool :=
  existsb (fun tech => contains tech (str_lower line)) tech_markers.

(** The skills appended for one technology line, in the order of the
    nested loops over the taxonomy. *)
Definition technologies_of (line : text) : list text :=
  let tech_text := str_lower line in
  filter (fun skill => contains (str_lower skill) tech_text) all_skills.

(** One round of [for line in lines[1:]], on the pair of the project's
    description and technologies. *)
Definition project_step (st : list text * list text) (raw_line : text)
  : list text * list text :=
  let line := strip raw_line in
  if nonempty line then
    if mentions_technologies line then
      (fst st, snd st ++ technologies_of line)
    else (fst st ++ [line], snd st)
  else st.

Definition project_entry (proj : text) : ProjectEntry :=
  let lines := split_on NL (strip proj) in
  let st := fold_left project_step (tl lines) ([], []) in
  {| name := strip (hd [] lines);
     proj_description := fst st;
     technologies := snd st |}.

Definition project_entries (t : text) : list text :=
  Re.split false (pattern project_split_pattern)
           (section_or_empty (extract_sections t) (py "projects")).

Definition extract_projects (t : text) : list ProjectEntry :=
  if nonempty (section_or_empty (extract_sections t) (py "projects")) then
    filter (fun p => nonempty (name p))
           (map project_entry
                (filter (fun proj => nonempty (strip proj))
                        (project_entries t)))
  else [].

(** ** [extract_certifications] *)

Record CertificationEntry := {
  cert_name : text;
  cert_year : option text;
  issuer : option text
}.

Definition certifications_carve_out : text :=
  py "(?:certifications?|certificates?)[\s:]*\n([\s\S]+?)(?=\n[A-Z]{2,}|$)".

Definition issuers : list text :=
  texts ["Microsoft"; "Google"; "Amazon"; "AWS"; "Oracle"; "Cisco";
         "CompTIA"; "PMI"; "Scrum"]%string.

(** [s.replace(old, new)] for a non-empty [old]; [skip] counts the
    characters of an occurrence still to pass over. *)
Fixpoint replace_from (old new : text) (skip : nat) (s : text) : text :=
  match s with
  | [] => []
  | c :: s' =>
      match skip with
      | S k => replace_from old new k s'
      | 0 =>
          if startswith old s then
            new ++ replace_from old new (List.length old - 1) s'
          else c :: replace_from old new 0 s'
      end
  end.

Definition replace (old new s : text) : text := replace_from old new 0 s.

Definition certifications_text (t : text) : text :=
  let cert_text :=
    section_or_empty (extract_sections t) (py "certifications") in
  if nonempty cert_text then cert_text
  else
    match Re.search true (pattern certifications_carve_out) t with
    | Some cert_match =>
        match Re.group t cert_match 1 with
        | Some g => g
        | None => []
        end
    | None => []
    end.

Definition certification_entry (line : text) : CertificationEntry :=
  let year_match := Re.search false (pattern year_pattern) line in
  {| cert_name :=
       match year_match with
       | Some m => strip (replace (Re.group0 line m) [] line)
       | None => line
       end;
     cert_year := option_map (Re.group0 line) year_match;
     issuer :=
       find (fun issuer => contains (str_lower issuer) (str_lower line))
            issuers |}.

Definition extract_certifications (t : text) : list CertificationEntry :=
  let cert_text := certifications_text t in
  if nonempty cert_text then
    map certification_entry
        (filter (fun line => nonempty line && negb (List.length line <? 5))
                (map strip (split_on NL (strip cert_text))))
  else [].

(** ** [extract_contact_info] and the extractors of its fields *)

(** [s.split()]: the runs of characters that are not white space. *)
Fixpoint words_from (cur : text) (s : text) : list text :=
  match s with
  | [] => match cur with [] => [] | _ :: _ => [rev cur] end
  | c :: s' =>
      if isspace c then
        match cur with
        | [] => words_from [] s'
        | _ :: _ => rev cur :: words_from [] s'
        end
      else words_from (c :: cur) s'
  end.

Definition words (s : text) : list text := words_from [] s.

Definition skip_words : list text :=
  texts ["resume"; "cv"; "curriculum"; "vitae"; "phone"; "email";
         "address"]%string.

(** The tests a line passes to be taken for the name. *)
Definition looks_like_name (line : text) : bool :=
  let ws := words line in
  (2 <=? List.length ws) && (List.length ws <=? 4)
  && forallb (fun word => match word with
                          | c :: _ => if isalpha c then isupper c else true
                          | [] => true
                          end) ws
  && negb (existsb isdigit line).

Definition skipped_line (line : text) : bool :=
  negb (nonempty line)
  || contains (py "@") line || contains (py "http") line
  || contains (py "www.") line
  || existsb (fun word => contains word (str_lower line)) skip_words.

Definition extract_name (t : text) : option text :=
  find (fun line => negb (skipped_line line) && looks_like_name line)
       (map strip (firstn 15 (split_on NL t))).

Definition email_pattern : text :=
  py "\b[A-Za-z0-9._%+-]+@[A-Za-z0-9.-]+\.[A-Z|a-z]{2,}\b".

Definition phone_patterns : list text :=
  texts
    [ "[\+]?[(]?[0-9]{3}[)]?[-\s\.]?[(]?[0-9]{3}[)]?[-\s\.]?[0-9]{4,6}";
      "[\+]?[0-9]{1,3}[-\s]?[(]?[0-9]{1,4}[)]?[-\s]?[0-9]{1,4}[-\s]?[0-9]{1,9}";
      "\b\d{3}[-.]?\d{3}[-.]?\d{4}\b" ]%string.

Definition linkedin_pattern : text := py "linkedin\.com/in/[\w-]+/?".
Definition github_pattern : text := py "github\.com/[\w-]+/?".

Definition url_pattern : text :=
  py "http[s]?://(?:[a-zA-Z]|[0-9]|[$-_@.&+]|[!*\$\$,]|(?:%[0-9a-fA-F][0-9a-fA-F]))+".

Definition extract_email (t : text) : option text :=
  hd_error (Re.findall false (pattern email_pattern) t).

(** [10 <= len(re.sub(r'\D', '', phone)) <= 15]. *)
Definition valid_phone (phone : text) : bool :=
  let digits := Re.remove false (pattern (py "\D")) phone in
  (10 <=? List.length digits) && (List.length digits <=? 15).

Fixpoint first_phone (pats : list text) (t : text) : option text :=
  match pats with
  | [] => None
  | p :: pats' =>
      match find valid_phone (Re.findall false (pattern p) t) with
      | Some phone => Some phone
      | None => first_phone pats' t
      end
  end.

Definition extract_phone (t : text) : option text :=
  first_phone phone_patterns t.

Definition extract_linkedin (t : text) : option text :=
  option_map (fun m => py "https://" ++ m)
             (hd_error (Re.findall true (pattern linkedin_pattern) t)).

Definition extract_github (t : text) : option text :=
  option_map (fun m => py "https://" ++ m)
             (hd_error (Re.findall true (pattern github_pattern) t)).

Definition social_domains : list text :=
  texts ["linkedin"; "github"; "facebook"; "twitter"]%string.

Definition extract_website (t : text) : option text :=
  find (fun url =>
          negb (existsb (fun domain => contains domain (str_lower url))
                        social_domains))
       (Re.findall false (pattern url_pattern) t).

Record ContactInfo := {
  contact_name : option text;
  email : option text;
  phone : option text;
  linkedin : option text;
  github : option text;
  website : option text
}.

Definition extract_contact_info (t : text) : ContactInfo :=
  {| contact_name := extract_name t;
     email := extract_email t;
     phone := extract_phone t;
     linkedin := extract_linkedin t;
     github := extract_github t;
     website := extract_website t |}.

End Extractors.

(* ================================================================== *)
(** * Python values, exceptions, and the results the program passes on *)
(* ================================================================== *)

#[local] Set Warnings "-register-all".

(** The values a parse result is made of (what [json.dump] can write). *)
Inductive pyval :=
| VNone
| VStr (s : text)
| VInt (z : Z)
| VFloat (f : float)
| VList (l : list pyval)
| VDict (d : list (text * pyval)).

Inductive exn :=
| ValueError (msg : text)
| NameError (name : text)
| AttributeError (msg : text)
| TypeError (msg : text)
| OSError (msg : text).

(** [str(e)]. *)
Definition exn_message (e : exn) : text :=
  match e with
  | ValueError m | AttributeError m | TypeError m | OSError m => m
  | NameError n => py "name '" ++ n ++ py "' is not defined"
  end.

Inductive result (A : Type) :=
| Ok (a : A)
| Raise (e : exn).

Arguments Ok {A} a.
Arguments Raise {A} e.

Definition bind {A B : Type} (m : result A) (f : A -> result B) : result B :=
  match m with
  | Ok a => f a
  | Raise e => Raise e
  end.

Notation "x <- m ;; k" := (bind m (fun x => k))
  (at level 61, m at next level, right associativity).

(** [d.get(key, default)]; only a dictionary has the method. *)
Definition py_get (d : pyval) (key : text) (default : pyval) : result pyval :=
  match d with
  | VDict kv =>
      Ok (match dict_get kv key with Some v => v | None => default end)
  | _ => Raise (AttributeError (py "object has no attribute 'get'"))
  end.

(** [len(v)]. *)
Definition py_len (v : pyval) : result Z :=
  match v with
  | VStr s => Ok (Z.of_nat (List.length s))
  | VList l => Ok (Z.of_nat (List.length l))
  | VDict d => Ok (Z.of_nat (List.length d))
  | _ => Raise (TypeError (py "object has no len()"))
  end.

(** The truth of a value in a condition. *)
Definition py_truth (v : pyval) : bool :=
  match v with
  | VNone => false
  | VStr s => nonempty s
  | VInt z => negb (z =? 0)%Z
  | VFloat f => negb (PrimFloat.eqb f 0%float)
  | VList l => match l with [] => false | _ :: _ => true end
  | VDict d => match d with [] => false | _ :: _ => true end
  end.

Definition opt_py (o : option text) : pyval :=
  match o with
  | Some s => VStr s
  | None => VNone
  end.

Definition strs_py (l : list text) : pyval := VList (map VStr l).

(** The conversion of an integer to a float, exact on the integers the
    scores range over (from 0 to 100). *)
Definition float_of_int (z : Z) : float := PrimFloat.of_uint63 (Uint63.of_Z z).

(* ================================================================== *)
(** * [calculate_score] *)
(* ================================================================== *)

Definition contact_fields : list text := texts ["name"; "email"; "phone"]%string.

(** [sum(1 for field in contact_fields
          if parsed_data.get('contact', {}).get(field))]. *)
Fixpoint count_present (parsed_data : pyval) (fields : list text) : result Z :=
  match fields with
  | [] => Ok 0%Z
  | field :: fields' =>
      contact <- py_get parsed_data (py "contact") (VDict []) ;;
      v <- py_get contact field VNone ;;
      n <- count_present parsed_data fields' ;;
      Ok (if py_truth v then 1 + n else n)%Z
  end.

(** [min(100, count * points)]. *)
Definition capped (count points : Z) : Z := Z.min 100 (count * points).

#[local] Set Warnings "-inexact-float".

(** One step of the compensated summation (Neumaier's) on the running
    total and the compensation. *)
Definition neumaier_step (st : float * float) (x : float) : float * float :=
  let t := (fst st + x)%float in
  (t,
   if PrimFloat.leb (PrimFloat.abs x) (PrimFloat.abs (fst st)) then
     (snd st + ((fst st - t) + x))%float
   else (snd st + ((x - t) + fst st))%float).

(** [sum(l)] on a list of floats.  The start value 0 is added to the first
    element; the others are added from left to right, by plain additions
    in CPython up to 3.11 and by the compensated summation from 3.12 on
    ([compensated] says which), where the compensation is added at the
    end when it is finite and not zero. *)
Definition py_sum (compensated : bool) (l : list float) : float :=
  match l with
  | [] => 0%float
  | first :: others =>
      if compensated then
        let st := fold_left neumaier_step others ((0 + first)%float, 0%float) in
        if negb (PrimFloat.is_zero (snd st)) && PrimFloat.is_finite (snd st)
        then (fst st + snd st)%float
        else fst st
      else fold_left PrimFloat.add others (0 + first)%float
  end.

(** The list summed for [overall].  The weights are the doubles nearest
    to 0.2 and 0.3. *)
Definition weighted_sum (compensated : bool) (contact_info : float)
           (experience education skills : Z) : float :=
  py_sum compensated
         [ (contact_info * 0.2)%float;
           (float_of_int experience * 0.3)%float;
           (float_of_int education * 0.2)%float;
           (float_of_int skills * 0.3)%float ].

Definition calculate_score (compensated : bool) (parsed_data : pyval)
  : result pyval :=
  contact_count <- count_present parsed_data contact_fields ;;
  let contact_info :=
    (float_of_int contact_count
     / float_of_int (Z.of_nat (List.length contact_fields)) * 100)%float in
  exp <- py_get parsed_data (py "experience") (VList []) ;;
  exp_count <- py_len exp ;;
  let experience := capped exp_count 25 in
  edu <- py_get parsed_data (py "education") (VList []) ;;
  edu_count <- py_len edu ;;
  let education := capped edu_count 50 in
  skl <- py_get parsed_data (py "skills") (VList []) ;;
  skills_count <- py_len skl ;;
  let skills := capped skills_count 5 in
  Ok (VDict [ (py "contact_info", VFloat contact_info);
              (py "experience", VInt experience);
              (py "education", VInt education);
              (py "skills", VInt skills);
              (py "overall",
                VFloat (weighted_sum compensated contact_info experience
                                     education skills))
            ]).

(* ================================================================== *)
(** * The orchestrator: [read_file] and [parse] *)
(* ================================================================== *)

(** The document readers ([pdfplumber], [docx], [open]) are outside the
    program: each returns the text of the file or raises. *)
Record Readers := {
  read_pdf : text -> result text;
  read_docx : text -> result text;
  read_txt : text -> result text
}.

(** What [datetime.now()] is asked for during one parse. *)
Record Clock := {
  now_year : Z;          (* datetime.now().year *)
  now_isoformat : text   (* datetime.now().isoformat() *)
}.

Section Orchestrator.

Context {U : Unicode}.
Variable io : Readers.
Variable clock : Clock.

(** Which summation the interpreter's [sum] does on floats. *)
Variable compensated : bool.

(** An exception of a reader is logged and raised again. *)
Definition read_file (file_path : text) : result text :=
  let file_ext := last (split_on (Re.ch ".") (str_lower file_path)) [] in
  if text_eqb file_ext (py "pdf") then read_pdf io file_path
  else if existsb (text_eqb file_ext) (texts ["docx"; "doc"]%string) then
    read_docx io file_path
  else if text_eqb file_ext (py "txt") then read_txt io file_path
  else Raise (ValueError (py "Unsupported file format: " ++ file_ext)).

Definition contact_py (c : ContactInfo) : pyval :=
  VDict [ (py "name", opt_py (contact_name c));
          (py "email", opt_py (email c));
          (py "phone", opt_py (phone c));
          (py "linkedin", opt_py (linkedin c));
          (py "github", opt_py (github c));
          (py "website", opt_py (website c)) ].

Definition education_py (e : EducationEntry) : pyval :=
  VDict [ (py "degree", VStr (degree e));
          (py "institution", opt_py (institution e));
          (py "year", opt_py (year e));
          (py "gpa", opt_py (gpa e)) ].

Definition experience_py (e : ExperienceEntry) : pyval :=
  VDict [ (py "position", opt_py (position e));
          (py "company", opt_py (company e));
          (py "duration", opt_py (duration e));
          (py "location", opt_py (location e));
          (py "description", strs_py (description e)) ].

Definition project_py (p : ProjectEntry) : pyval :=
  VDict [ (py "name", VStr (name p));
          (py "description", strs_py (proj_description p));
          (py "technologies", strs_py (technologies p)) ].

Definition certification_py (c : CertificationEntry) : pyval :=
  VDict [ (py "name", VStr (cert_name c));
          (py "year", opt_py (cert_year c));
          (py "issuer", opt_py (issuer c)) ].

(** The dictionary [parsed_data] before the scores are added. *)
Definition parsed_fields (file_path t : text) : list (text * pyval) :=
  [ (py "file", VStr file_path);
    (py "contact", contact_py (extract_contact_info t));
    (py "skills", strs_py (extract_skills t));
    (py "education",
      VList (map education_py (extract_education (now_year clock) t)));
    (py "experience", VList (map experience_py (extract_experience t)));
    (py "projects", VList (map project_py (extract_projects t)));
    (py "certifications",
      VList (map certification_py (extract_certifications t)));
    (py "sections", strs_py (dict_keys (extract_sections t)));
    (py "text_length", VInt (Z.of_nat (List.length t)));
    (py "parsed_date", VStr (now_isoformat clock)) ].

(** The body of the [try] of [parse]. *)
Definition parse_body (file_path : text) : result pyval :=
  t <- read_file file_path ;;
  if negb (nonempty t) then
    Ok (VDict [ (py "error",
                  VStr (py "No text could be extracted from the file")) ])
  else
    let parsed_data := parsed_fields file_path t in
    scores <- calculate_score compensated (VDict parsed_data) ;;
    Ok (VDict (dict_set parsed_data (py "scores") scores)).

(** [parse]: [except Exception as e] turns what the body raises into a
    result. *)
Definition parse (file_path : text) : pyval :=
  match parse_body file_path with
  | Ok parsed_data => parsed_data
  | Raise e =>
      VDict [ (py "error", VStr (exn_message e));
              (py "file", VStr file_path) ]
  end.

End Orchestrator.

(** ['key' in d], and [d[key]] read as an option. *)
Definition has_key (d : pyval) (key : text) : bool :=
  match d with
  | VDict kv => dict_has kv key
  | _ => false
  end.

Definition item_of (d : pyval) (key : text) : option pyval :=
  match d with
  | VDict kv => dict_get kv key
  | _ => None
  end.

(* ================================================================== *)
(** * [utils.save_parsed_resume] and [main.parse_single_resume] *)
(* ================================================================== *)

Section Saving.

(** The file system and the clock, as far as saving goes: [world] is
    their state. *)
Variable world : Type.
Variable makedirs : text -> world -> result world. (* os.makedirs(d, exist_ok=True) *)
Variable timestamp : world -> text.  (* datetime.now().strftime("%Y%m%d_%H%M%S") *)
Variable join_path : text -> text -> text.          (* os.path.join *)
Variable write_json : text -> pyval -> world -> result world.
                           (* open(filepath, 'w') and json.dump *)

(** [name.replace(' ', '_')]: only a string has the method. *)
Definition name_replace (name : pyval) : result text :=
  match name with
  | VStr s => Ok (replace (py " ") (py "_") s)
  | VNone =>
      Raise (AttributeError
               (py "'NoneType' object has no attribute 'replace'"))
  | _ => Raise (AttributeError (py "object has no attribute 'replace'"))
  end.

(** The path of the file written and the world after it, or the
    exception raised. *)
Definition save_parsed_resume (parsed_data : pyval) (output_dir : text)
           (w : world) : result (text * world) :=
  w1 <- makedirs output_dir w ;;
  contact <- py_get parsed_data (py "contact") (VDict []) ;;
  name <- py_get contact (py "name") (VStr (py "unknown")) ;;
  let timestamp := timestamp w1 in
  stem <- name_replace name ;;
  let filename := stem ++ py "_" ++ timestamp ++ py ".json" in
  let filepath := join_path output_dir filename in
  w2 <- write_json filepath parsed_data w1 ;;
  Ok (filepath, w2).

(** [parse_single_resume] with [use_advanced=False]: the result of
    [parse] is saved in the default directory, and an exception of
    [save_parsed_resume] is not caught.  (The summary printed afterwards
    changes neither the value returned nor the files.) *)
Definition parse_single_resume {U : Unicode} (io : Readers) (clock : Clock)
           (compensated : bool) (file_path : text) (w : world)
  : result (pyval * world) :=
  let parsed_data := parse io clock compensated file_path in
  saved <- save_parsed_resume parsed_data (py "output") w ;;
  Ok (parsed_data, snd saved).

End Saving.

(* ================================================================== *)
(** * [advanced_parser.analyze_experience_level] *)
(* ================================================================== *)

(** The names [advanced_parser.py] binds at module level: what its five
    import lines bring in, and the class it defines.  A name used in a
    function body and bound nowhere raises [NameError] when the line that
    uses it runs. *)
Definition advanced_parser_globals : list text :=
  texts ["spacy"; "Matcher"; "nltk"; "Dict"; "List"; "ResumeParser";
         "AdvancedResumeParser"]%string.

Definition load_global (globals : list text) (name : text) : result unit :=
  if existsb (text_eqb name) globals then Ok tt else Raise (NameError name).

Section ExperienceLevel.

Context {U : Unicode}.

(** [datetime.strptime(s, '%B %Y')] as (year, month), [None] for the
    [ValueError] of a string that is no month name and year; and the
    year and month of [datetime.now()].  Both belong to the [datetime]
    module. *)
Variable strptime : text -> option (Z * Z).
Variable now : Z * Z.

(** The module's global names. *)
Variable globals : list text.

Definition level_dates_pattern : text := py "(\w+\s+\d{4})".

(** [re.findall(pattern, duration)] raises [TypeError] unless the
    subject is a string. *)
Definition as_subject (duration : pyval) : result text :=
  match duration with
  | VStr s => Ok s
  | _ => Raise (TypeError (py "expected string or bytes-like object"))
  end.

(** The body of the [try]: the months from the first date to the second
    (or to now). *)
Definition months_between (duration : text) (dates : list text)
  : result Z :=
  _ <- load_global globals (py "datetime") ;;
  match strptime (nth 0 dates []) with
  | None => Raise (ValueError (py "time data does not match format"))
  | Some start_date =>
      end_date <-
        (if contains (py "present") (str_lower duration) then Ok now
         else match strptime (nth 1 dates []) with
              | Some d => Ok d
              | None =>
                  Raise (ValueError (py "time data does not match format"))
              end) ;;
      Ok ((fst end_date - fst start_date) * 12
          + (snd end_date - snd start_date))%Z
  end.

(** One round of [for exp in experience], on [total_months]. *)
Definition level_step (total_months : Z) (exp : pyval) : result Z :=
  duration <- py_get exp (py "duration") (VStr []) ;;
  _ <- load_global globals (py "re") ;;
  d <- as_subject duration ;;
  let dates := Re.findall false (pattern level_dates_pattern) d in
  if 2 <=? List.length dates then
    match months_between d dates with
    | Ok months => Ok (total_months + months)%Z
    | Raise _ => Ok total_months        (* except: pass *)
    end
  else Ok total_months.

Fixpoint level_loop (total_months : Z) (experience : list pyval)
  : result Z :=
  match experience with
  | [] => Ok total_months
  | exp :: rest =>
      total <- level_step total_months exp ;;
      level_loop total rest
  end.

(** [years = total_months / 12], compared with 2, 5 and 10. *)
Definition level_of (total_months : Z) : text :=
  if (total_months <? 2 * 12)%Z then py "Entry Level"
  else if (total_months <? 5 * 12)%Z then py "Mid Level"
  else if (total_months <? 10 * 12)%Z then py "Senior Level"
  else py "Expert/Executive Level".

(** What a [for] loop over the value runs through: the elements of a
    list, the characters of a string, the keys of a dictionary. *)
Definition py_iter (v : pyval) : result (list pyval) :=
  match v with
  | VList l => Ok l
  | VStr s => Ok (map (fun c => VStr [c]) s)
  | VDict d => Ok (map (fun kv => VStr (fst kv)) d)
  | _ => Raise (TypeError (py "object is not iterable"))
  end.

Definition analyze_experience_level (parsed_data : pyval) : result text :=
  experience <- py_get parsed_data (py "experience") (VList []) ;;
  if negb (py_truth experience) then Ok (py "Entry Level")
  else
    entries <- py_iter experience ;;
    total_months <- level_loop 0 entries ;;
    Ok (level_of total_months).

End ExperienceLevel.

(* ================================================================== *)
(** * [utils.export_to_csv] *)
(* ================================================================== *)

(** [key in v] for a string [key]: a key of a dictionary, a substring of
    a string, an element of a list. *)
Definition py_contains (v : pyval) (key : text) : result bool :=
  match v with
  | VDict d => Ok (dict_has d key)
  | VStr s => Ok (contains key s)
  | VList l =>
      Ok (existsb (fun x => match x with
                            | VStr s => text_eqb s key
                            | _ => false
                            end) l)
  | _ => Raise (TypeError (py "argument is not iterable"))
  end.

(** The items of [sep.join(v)] must all be strings. *)
Fixpoint all_strings (items : list pyval) : result (list text) :=
  match items with
  | [] => Ok []
  | VStr s :: rest =>
      strs <- all_strings rest ;;
      Ok (s :: strs)
  | _ :: _ => Raise (TypeError (py "sequence item: expected str instance"))
  end.

Definition py_join (sep : text) (v : pyval) : result text :=
  items <- py_iter v ;;
  strs <- all_strings items ;;
  Ok (join sep strs).

(** [v[:n]], as the list a [for] loop then runs through.  A dictionary
    takes no slice ([TypeError] up to CPython 3.11, [KeyError] from 3.12
    on). *)
Definition py_head (n : nat) (v : pyval) : result (list pyval) :=
  match v with
  | VList l => Ok (firstn n l)
  | VStr s => Ok (map (fun c => VStr [c]) (firstn n s))
  | VDict _ => Raise (TypeError (py "unhashable type: 'slice'"))
  | _ => Raise (TypeError (py "object is not subscriptable"))
  end.

(** [result.get('contact', {}).get(key, '')]. *)
Definition contact_column (r : pyval) (key : text) : result pyval :=
  contact <- py_get r (py "contact") (VDict []) ;;
  py_get contact key (VStr []).

(** [for i, exp in enumerate(...)], from index [i] on. *)
Fixpoint experience_columns (i : Z) (entries : list pyval)
         (row : dict pyval) : result (dict pyval) :=
  match entries with
  | [] => Ok row
  | exp :: rest =>
      position <- py_get exp (py "position") (VStr []) ;;
      let row :=
        dict_set row (py "Experience_" ++ py_str (i + 1) ++ py "_Position")
                 position in
      company <- py_get exp (py "company") (VStr []) ;;
      let row :=
        dict_set row (py "Experience_" ++ py_str (i + 1) ++ py "_Company")
                 company in
      experience_columns (i + 1) rest row
  end.

Fixpoint education_columns (i : Z) (entries : list pyval)
         (row : dict pyval) : result (dict pyval) :=
  match entries with
  | [] => Ok row
  | edu :: rest =>
      degree <- py_get edu (py "degree") (VStr []) ;;
      let row :=
        dict_set row (py "Education_" ++ py_str (i + 1) ++ py "_Degree")
                 degree in
      institution <- py_get edu (py "institution") (VStr []) ;;
      let row :=
        dict_set row (py "Education_" ++ py_str (i + 1) ++ py "_Institution")
                 institution in
      education_columns (i + 1) rest row
  end.

(** The row of one result. *)
Definition csv_row (r : pyval) : result (dict pyval) :=
  name <- contact_column r (py "name") ;;
  email <- contact_column r (py "email") ;;
  phone <- contact_column r (py "phone") ;;
  linkedin <- contact_column r (py "linkedin") ;;
  skills <- py_get r (py "skills") (VList []) ;;
  skills <- py_join (py ", ") skills ;;
  experience <- py_get r (py "experience") (VList []) ;;
  experience_count <- py_len experience ;;
  education <- py_get r (py "education") (VList []) ;;
  education_count <- py_len education ;;
  scores <- py_get r (py "scores") (VDict []) ;;
  overall <- py_get scores (py "overall") (VInt 0) ;;
  let row :=
    [ (py "Name", name);
      (py "Email", email);
      (py "Phone", phone);
      (py "LinkedIn", linkedin);
      (py "Skills", VStr skills);
      (py "Experience_Count", VInt experience_count);
      (py "Education_Count", VInt education_count);
      (py "Overall_Score", overall) ] in
  experience <- py_get r (py "experience") (VList []) ;;
  first3 <- py_head 3 experience ;;
  row <- experience_columns 0 first3 row ;;
  education <- py_get r (py "education") (VList []) ;;
  first2 <- py_head 2 education ;;
  education_columns 0 first2 row.

(** [rows] after the loop over [parsed_results]. *)
Fixpoint csv_rows (parsed_results : list pyval) : result (list (dict pyval)) :=
  match parsed_results with
  | [] => Ok []
  | r :: rest =>
      is_error <- py_contains r (py "error") ;;
      if is_error then csv_rows rest
      else
        row <- csv_row r ;;
        rows <- csv_rows rest ;;
        Ok (row :: rows)
  end.

Section CsvExport.

Variable world : Type.

(** [pd.DataFrame(rows).to_csv(output_file, index=False)]. *)
Variable to_csv : list (dict pyval) -> text -> world -> result world.

Definition export_to_csv (parsed_results : list pyval) (output_file : text)
           (w : world) : result (text * world) :=
  rows <- csv_rows parsed_results ;;
  w1 <- to_csv rows output_file w ;;
  Ok (output_file, w1).

End CsvExport.

(* ================================================================== *)
(** * [main.parse_multiple_resumes] *)
(* ================================================================== *)

(** [s.endswith(suffix)]. *)
Definition endswith (suffix s : text) : bool :=
  (List.length suffix <=? List.length s)
  && text_eqb (skipn (List.length s - List.length suffix) s) suffix.

(** [file.endswith(('.pdf', '.docx', '.txt'))]. *)
Definition is_resume_file (file : text) : bool :=
  existsb (fun suffix => endswith suffix file)
          (texts [".pdf"; ".docx"; ".txt"]%string).

Section Batch.

Context {U : Unicode}.

Variable world : Type.
Variable listdir : text -> world -> result (list text).   (* os.listdir *)
Variable makedirs : text -> world -> result world.
Variable timestamp : world -> text.
Variable join_path : text -> text -> text.
Variable write_json : text -> pyval -> world -> result world.
Variable to_csv : list (dict pyval) -> text -> world -> result world.

(** The files and the time as they are in a state of the world. *)
Variable io : world -> Readers.
Variable clock : world -> Clock.
Variable compensated : bool.

(** The world that a failed [parse_single_resume] leaves behind. *)
Variable after_failure : text -> world -> world.

(** One round of [for file_path in resume_files], with
    [use_advanced=False]: what [parse_single_resume] returns is appended,
    and for an exception an error entry. *)
Definition parse_each (st : list pyval * world) (file_path : text)
  : list pyval * world :=
  match parse_single_resume makedirs timestamp join_path write_json
                            (io (snd st)) (clock (snd st)) compensated
                            file_path (snd st) with
  | Ok (parsed_data, w') => (fst st ++ [parsed_data], w')
  | Raise e =>
      (fst st ++ [ VDict [ (py "error", VStr (exn_message e));
                           (py "file", VStr file_path) ] ],
       after_failure file_path (snd st))
  end.

Definition parse_multiple_resumes (directory : text) (w : world)
  : result (list pyval * world) :=
  files <- listdir directory w ;;
  let resume_files :=
    map (join_path directory) (filter is_resume_file files) in
  let st := fold_left parse_each resume_files ([], w) in
  match fst st with
  | [] => Ok (fst st, snd st)
  | _ :: _ =>
      saved <- export_to_csv to_csv (fst st) (py "parsed_resumes.csv")
                             (snd st) ;;
      Ok (fst st, snd saved)
  end.

End Batch.

(* ================================================================== *)
(** * [AdvancedResumeParser]: the functions on spaCy documents *)
(* ================================================================== *)

(** What the program reads of a spaCy document: of a token its text,
    part of speech, dependency label and the texts of its subtree; of a
    span (an entity or a noun chunk) its text, label and the texts of its
    tokens; of a document its entities, noun chunks, tokens and the texts
    of its sentences. *)
Record Token := {
  token_text : text;
  pos_ : text;
  dep_ : text;
  subtree : list text
}.

Record Span := {
  span_text : text;
  label_ : text;
  span_tokens : list text
}.

Record Doc := {
  ents : list Span;
  noun_chunks : list Span;
  doc_tokens : list Token;
  sents : list text
}.

(** The six lists of [extract_entities]. *)
Record Entities := {
  persons : list text;
  organizations : list text;
  locations : list text;
  dates : list text;
  money : list text;
  percentages : list text
}.

Definition no_entities : Entities :=
  {| persons := []; organizations := []; locations := []; dates := [];
     money := []; percentages := [] |}.

(** One round of [for ent in doc.ents]. *)
Definition entity_step (entities : Entities) (ent : Span) : Entities :=
  if text_eqb (label_ ent) (py "PERSON") then
    {| persons := persons entities ++ [span_text ent];
       organizations := organizations entities;
       locations := locations entities;
       dates := dates entities;
       money := money entities;
       percentages := percentages entities |}
  else if text_eqb (label_ ent) (py "ORG") then
    {| persons := persons entities;
       organizations := organizations entities ++ [span_text ent];
       locations := locations entities;
       dates := dates entities;
       money := money entities;
       percentages := percentages entities |}
  else if existsb (text_eqb (label_ ent)) (texts ["GPE"; "LOC"]%string) then
    {| persons := persons entities;
       organizations := organizations entities;
       locations := locations entities ++ [span_text ent];
       dates := dates entities;
       money := money entities;
       percentages := percentages entities |}
  else if text_eqb (label_ ent) (py "DATE") then
    {| persons := persons entities;
       organizations := organizations entities;
       locations := locations entities;
       dates := dates entities ++ [span_text ent];
       money := money entities;
       percentages := percentages entities |}
  else if text_eqb (label_ ent) (py "MONEY") then
    {| persons := persons entities;
       organizations := organizations entities;
       locations := locations entities;
       dates := dates entities;
       money := money entities ++ [span_text ent];
       percentages := percentages entities |}
  else if text_eqb (label_ ent) (py "PERCENT") then
    {| persons := persons entities;
       organizations := organizations entities;
       locations := locations entities;
       dates := dates entities;
       money := money entities;
       percentages := percentages entities ++ [span_text ent] |}
  else entities.

Definition entities_py (entities : Entities) : pyval :=
  VDict [ (py "persons", strs_py (persons entities));
          (py "organizations", strs_py (organizations entities));
          (py "locations", strs_py (locations entities));
          (py "dates", strs_py (dates entities));
          (py "money", strs_py (money entities));
          (py "percentages", strs_py (percentages entities)) ].

Definition achievement_keywords : list text :=
  texts ["achieved"; "accomplished"; "awarded"; "earned"; "recognized";
         "improved"; "increased"; "decreased"; "reduced"; "saved";
         "generated"; "developed"; "created"; "built"; "established";
         "led"; "managed"; "directed"; "spearheaded"; "initiated"]%string.

(** [parsed_data[key] = v]. *)
Definition py_set_item (d : pyval) (key : text) (v : pyval) : result pyval :=
  match d with
  | VDict kv => Ok (VDict (dict_set kv key v))
  | _ => Raise (TypeError (py "object does not support item assignment"))
  end.

Section Advanced.

Context {U : Unicode}.

(** [self.nlp(text)]: the document, or the exception spaCy raises (for a
    text longer than the model's [max_length]). *)
Variable nlp : text -> result Doc.

(** [self.stopwords]. *)
Variable stopwords : list text.

(** [list(set(l))]: the order in which a set of strings is run through
    depends on the hashes of the run. *)
Variable set_order : list text -> list text.

(** The tests of [extract_name_nlp] on a PERSON entity. *)
Definition person_ok (person : text) : bool :=
  let ws := words person in
  ((2 <=? List.length ws) && (List.length ws <=? 4))
  && forallb (fun w => match w with
                       | c :: _ => isupper c
                       | [] => false
                       end) (filter nonempty ws)
  && negb (existsb (fun skip => contains skip (str_lower person))
                   (texts ["university"; "college"; "company"]%string)).

Definition extract_name_nlp (t : text) : result (option text) :=
  let first_lines := join [NL] (firstn 10 (split_on NL t)) in
  doc <- nlp first_lines ;;
  let persons :=
    map span_text
        (filter (fun ent => text_eqb (label_ ent) (py "PERSON")) (ents doc)) in
  match find person_ok persons with
  | Some person => Ok (Some person)
  | None => Ok (extract_name t)       (* super().extract_name(text) *)
  end.

Definition extract_entities (t : text) : result pyval :=
  doc <- nlp t ;;
  Ok (entities_py (fold_left entity_step (ents doc) no_entities)).

(** The test on a noun chunk, and the phrase of a root verb. *)
Definition chunk_ok (chunk : Span) : bool :=
  (1 <? List.length (words (span_text chunk)))
  && negb (forallb (fun token =>
                      existsb (text_eqb (str_lower token)) stopwords)
                   (span_tokens chunk)).

Definition is_root_verb (token : Token) : bool :=
  text_eqb (pos_ token) (py "VERB") && text_eqb (dep_ token) (py "ROOT").

Definition verb_phrase (token : Token) : text :=
  join (py " ") (subtree token).

Definition phrase_ok (phrase : text) : bool :=
  (2 <? List.length (words phrase)) && (List.length (words phrase) <? 8).

Definition extract_key_phrases (t : text) : result (list text) :=
  doc <- nlp t ;;
  let key_phrases :=
    map span_text (filter chunk_ok (noun_chunks doc))
    ++ filter phrase_ok
         (map verb_phrase (filter is_root_verb (doc_tokens doc))) in
  Ok (firstn 20 (set_order key_phrases)).

(** The two tests of [extract_achievements] on a sentence. *)
Definition is_achievement (sentence : text) : bool :=
  existsb (fun keyword => contains keyword (str_lower sentence))
          achievement_keywords
  && (existsb isdigit sentence
      || existsb (fun symbol => contains symbol sentence)
                 (texts ["%"; "$"]%string)).

Definition extract_achievements (t : text) : result (list text) :=
  doc <- nlp t ;;
  Ok (firstn 10 (map strip (filter is_achievement (sents doc)))).

Variable io : Readers.
Variable clock : Clock.
Variable compensated : bool.
Variable strptime : text -> option (Z * Z).
Variable now : Z * Z.

(** [parse_advanced]: nothing is caught here, so what one of the five
    functions raises leaves the function. *)
Definition parse_advanced (file_path : text) : result pyval :=
  let parsed_data := parse io clock compensated file_path in
  if has_key parsed_data (py "error") then Ok parsed_data
  else
    t <- read_file io file_path ;;
    name_nlp <- extract_name_nlp t ;;
    entities <- extract_entities t ;;
    key_phrases <- extract_key_phrases t ;;
    achievements <- extract_achievements t ;;
    experience_level <-
      analyze_experience_level strptime now advanced_parser_globals
                               parsed_data ;;
    py_set_item parsed_data (py "advanced")
      (VDict [ (py "name_nlp", opt_py name_nlp);
               (py "entities", entities);
               (py "key_phrases", strs_py key_phrases);
               (py "achievements", strs_py achievements);
               (py "experience_level", VStr experience_level) ]).

End Advanced.

(* ================================================================== *)
(** * The readers: [_read_pdf], [_read_docx], [_read_txt] *)
(* ================================================================== *)

Section Documents.

Context {U : Unicode}.

(** What the libraries give for a path, or the exception they raise:
    [pdfplumber] the result of [extract_text()] for each page ([None]
    for a page without text); [docx] the texts of the paragraphs and, for
    each table, the texts of the cells of each row; [open] and [read]
    the characters of the file. *)
Variable open_pdf : text -> result (list (option text)).
Variable open_docx : text -> result (list text * list (list (list text))).
Variable open_txt : text -> result text.

Definition _read_pdf (file_path : text) : result text :=
  pages <- open_pdf file_path ;;
  Ok (fold_left (fun t page_text =>
                   match page_text with
                   | Some s => if nonempty s then t ++ s ++ [NL] else t
                   | None => t
                   end) pages []).

(** One round of [for row in table.rows]. *)
Definition row_step (t : text) (row : list text) : text :=
  let row_text :=
    join (py " | ")
         (map strip (filter (fun cell => nonempty (strip cell)) row)) in
  if nonempty row_text then t ++ row_text ++ [NL] else t.

Definition _read_docx (file_path : text) : result text :=
  doc <- open_docx file_path ;;
  let t :=
    fold_left (fun t paragraph =>
                 if nonempty (strip paragraph) then t ++ paragraph ++ [NL]
                 else t) (fst doc) [] in
  Ok (fold_left (fun t table => fold_left row_step table t) (snd doc) t).

Definition _read_txt (file_path : text) : result text := open_txt file_path.

Definition document_readers : Readers :=
  {| read_pdf := _read_pdf; read_docx := _read_docx; read_txt := _read_txt |}.

End Documents.

(* ================================================================== *)
(** * Properties *)
(* ================================================================== *)

(** ** Strings, dictionaries and sets *)

Lemma text_eqb_spec (a b : text) : text_eqb a b = true <-> a = b.
Proof.
  revert b; induction a as [|x a IH]; intros [|y b]; simpl; split;
    try congruence; try reflexivity.
  - rewrite andb_true_iff, N.eqb_eq, IH. intros [-> ->]; reflexivity.
  - intros E; injection E as -> ->. rewrite N.eqb_refl.
    apply IH; reflexivity.
Qed.

Lemma text_eqb_refl (a : text) : text_eqb a a = true.
Proof. apply text_eqb_spec; reflexivity. Qed.

Lemma text_eqb_neq (a b : text) : text_eqb a b = false <-> a <> b.
Proof.
  rewrite <- text_eqb_spec. destruct (text_eqb a b); split; congruence.
Qed.

Lemma existsb_text_eqb (x : text) (s : list text) :
  existsb (text_eqb x) s = true <-> In x s.
Proof.
  rewrite existsb_exists. split.
  - intros (y & Hy & E). apply text_eqb_spec in E. subst; assumption.
  - intros H. exists x. split; [assumption | apply text_eqb_refl].
Qed.

(** ** Removing duplicate education entries *)

Section Dedup.

Context {U : Unicode}.

Lemma option_text_eqb_spec (a b : option text) :
  option_text_eqb a b = true <-> a = b.
Proof.
  destruct a as [x|], b as [y|]; simpl; try (split; congruence).
  rewrite text_eqb_spec. split; congruence.
Qed.

Lemma key_eqb_spec (a b : text * option text) :
  key_eqb a b = true <-> a = b.
Proof.
  destruct a as [a1 a2], b as [b1 b2]. unfold key_eqb; simpl.
  rewrite andb_true_iff, text_eqb_spec, option_text_eqb_spec.
  split; [intros [-> ->]; reflexivity | intros E; injection E; auto].
Qed.

Lemma seen_spec (k : text * option text) (seen : list (text * option text)) :
  existsb (key_eqb k) seen = true <-> In k seen.
Proof.
  rewrite existsb_exists. split.
  - intros (y & Hy & E). apply key_eqb_spec in E. subst; assumption.
  - intros H. exists k. split; [assumption | apply key_eqb_spec; reflexivity].
Qed.

(** What the loop keeps true of [seen] and [unique_education]. *)
Definition unique_inv (st : list (text * option text) * list EducationEntry)
  : Prop :=
  NoDup (map edu_key (snd st))
  /\ forall k, In k (fst st) <-> In k (map edu_key (snd st)).

Lemma unique_step_inv st edu : unique_inv st -> unique_inv (unique_step st edu).
Proof.
  intros [Hnd Hseen]. unfold unique_step.
  destruct (existsb (key_eqb (edu_key edu)) (fst st)) eqn:E.
  - split; assumption.
  - assert (Hnot : ~ In (edu_key edu) (fst st)).
    { intros H. apply seen_spec in H. congruence. }
    split; simpl.
    + rewrite map_app; simpl.
      apply NoDup_app; [assumption | repeat constructor; intros [] | ].
      intros k Hk [<- | []]. apply Hnot, Hseen, Hk.
    + intros k. rewrite map_app, in_app_iff; simpl. rewrite <- Hseen.
      tauto.
Qed.

Lemma unique_loop_inv l st :
  unique_inv st -> unique_inv (fold_left unique_step l st).
Proof.
  revert st; induction l as [|e l IH]; intros st H; simpl; [assumption|].
  apply IH, unique_step_inv, H.
Qed.

(** A key that is in [unique_education] stays, and the key of every
    entry the loop passes is in it at the end. *)
Lemma unique_loop_keeps l st k :
  In k (map edu_key (snd st)) ->
  In k (map edu_key (snd (fold_left unique_step l st))).
Proof.
  revert st; induction l as [|e l IH]; intros st H; simpl; [assumption|].
  apply IH. unfold unique_step.
  destruct (existsb _ _); simpl; [assumption|].
  rewrite map_app, in_app_iff; left; assumption.
Qed.

Lemma unique_loop_covers l st e :
  unique_inv st -> In e l ->
  In (edu_key e) (map edu_key (snd (fold_left unique_step l st))).
Proof.
  revert st; induction l as [|x l IH]; intros st Hi [].
  - subst x. simpl. apply unique_loop_keeps. unfold unique_step.
    destruct (existsb _ _) eqn:E; simpl.
    + apply Hi, seen_spec, E.
    + rewrite map_app, in_app_iff; right; left; reflexivity.
  - simpl. apply IH; [apply unique_step_inv, Hi | assumption].
Qed.

(** The loop only keeps entries it was given. *)
Lemma unique_loop_sub l st e :
  In e (snd (fold_left unique_step l st)) -> In e (snd st) \/ In e l.
Proof.
  revert st; induction l as [|x l IH]; intros st H; simpl in *; [auto|].
  apply IH in H. destruct H as [H|H]; [|auto].
  unfold unique_step in H. destruct (existsb _ _); simpl in H; [auto|].
  apply in_app_iff in H. destruct H as [H|[<-|[]]]; auto.
Qed.

Lemma unique_init : unique_inv ([], []).
Proof. split; simpl; [constructor | tauto]. Qed.

(** The entries with a given key, in a list whose keys differ pairwise. *)
Lemma one_entry_per_key (l : list EducationEntry) (k : text * option text) :
  NoDup (map edu_key l) -> In k (map edu_key l) ->
  List.length (filter (fun e => key_eqb (edu_key e) k) l) = 1.
Proof.
  induction l as [|x l IH]; simpl; intros Hnd Hin; [contradiction|].
  inversion Hnd as [|? ? Hx Hl]; subst.
  destruct (key_eqb (edu_key x) k) eqn:E.
  - apply key_eqb_spec in E. subst k. simpl. f_equal.
    assert (F : filter (fun e => key_eqb (edu_key e) (edu_key x)) l = []).
    { clear -Hx. induction l as [|y l IH]; simpl; [reflexivity|].
      destruct (key_eqb (edu_key y) (edu_key x)) eqn:E.
      - apply key_eqb_spec in E. exfalso. apply Hx. left; assumption.
      - apply IH. intros H. apply Hx. right; assumption. }
    rewrite F; reflexivity.
  - apply IH; [assumption|]. destruct Hin as [Hin|Hin]; [|assumption].
    rewrite <- Hin in E.
    assert (key_eqb (edu_key x) (edu_key x) = true)
      by (apply key_eqb_spec; reflexivity).
    congruence.
Qed.

(** Every entry returned stems from a match. *)
Lemma extract_education_sub (current_year : Z) (t : text)
      (e : EducationEntry) :
  In e (extract_education current_year t) ->
  In e (education_matches current_year t).
Proof.
  unfold extract_education, remove_duplicates. intros He.
  apply unique_loop_sub in He. destruct He as [[]|He]. exact He.
Qed.

(** C8.  For every text, no two entries of the list the education
    extractor returns have the same (degree, institution) pair; and for
    every degree match found in the text, exactly one entry of the
    result has the (degree, institution) pair of that match, so that of
    two matches with the same pair one entry survives.  Every entry
    returned stems from a match. *)
Theorem education_keys_unique (current_year : Z) (t : text) :
  NoDup (map edu_key (extract_education current_year t))
  /\ (forall e, In e (education_matches current_year t) ->
        List.length
          (filter (fun e' => key_eqb (edu_key e') (edu_key e))
                  (extract_education current_year t)) = 1)
  /\ (forall e, In e (extract_education current_year t) ->
        In e (education_matches current_year t)).
Proof.
  unfold extract_education, remove_duplicates.
  pose proof (unique_loop_inv (education_matches current_year t)
                              unique_init) as [Hnd _].
  split; [exact Hnd | split].
  - intros e He. apply one_entry_per_key; [exact Hnd|].
    apply unique_loop_covers; [apply unique_init | exact He].
  - intros e He. apply unique_loop_sub in He. destruct He as [[]|He].
    exact He.
Qed.

End Dedup.

(** ** The order of strings and [sorted] *)

Lemma text_ltb_cons (x y : char) (a b : text) :
  text_ltb (x :: a) (y :: b) = true
  <-> (x < y)%N \/ (x = y /\ text_ltb a b = true).
Proof.
  simpl. rewrite orb_true_iff, andb_true_iff, N.ltb_lt, N.eqb_eq. tauto.
Qed.

Lemma text_ltb_irrefl (a : text) : text_ltb a a = false.
Proof.
  induction a as [|x a IH]; [reflexivity|].
  destruct (text_ltb (x :: a) (x :: a)) eqn:E; [|reflexivity].
  apply text_ltb_cons in E. destruct E as [E|[_ E]]; [lia | congruence].
Qed.

Lemma text_ltb_trans (a b c : text) :
  text_ltb a b = true -> text_ltb b c = true -> text_ltb a c = true.
Proof.
  revert b c; induction a as [|x a IH]; intros [|y b] [|z c];
    try (simpl; congruence).
  rewrite !text_ltb_cons. intros [H1|[-> H1]] [H2|[-> H2]].
  - left; lia.
  - left; lia.
  - left; lia.
  - right; split; [reflexivity | eapply IH; eassumption].
Qed.

(** Two strings neither of which is below the other are the same. *)
Lemma text_ltb_total (a b : text) :
  text_ltb a b = false -> text_ltb b a = false -> a = b.
Proof.
  revert b; induction a as [|x a IH]; intros [|y b]; simpl;
    try congruence.
  rewrite !orb_false_iff, !andb_false_iff, !N.ltb_ge, !N.eqb_neq.
  intros [H1 H1'] [H2 H2'].
  assert (x = y) by lia. subst y. f_equal.
  apply IH; [destruct H1' | destruct H2']; congruence.
Qed.

(** [a <= b] on strings. *)
Definition text_le (a b : text) : Prop := text_ltb b a = false.

Lemma text_le_trans (a b c : text) : text_le a b -> text_le b c -> text_le a c.
Proof.
  unfold text_le. intros Hab Hbc.
  destruct (text_ltb c a) eqn:Hca; [exfalso | reflexivity].
  destruct (text_ltb a b) eqn:Hlt.
  - rewrite (text_ltb_trans _ _ _ Hca Hlt) in Hbc. discriminate.
  - rewrite (text_ltb_total _ _ Hlt Hab) in Hca. congruence.
Qed.

Lemma insert_sorted_perm (x : text) (l : list text) :
  Permutation (insert_sorted x l) (x :: l).
Proof.
  induction l as [|y l IH]; simpl; [reflexivity|].
  destruct (text_ltb y x); [|reflexivity].
  rewrite IH. apply perm_swap.
Qed.

Lemma sorted_perm (l : list text) : Permutation (sorted l) l.
Proof.
  induction l as [|x l IH]; simpl; [constructor|].
  rewrite insert_sorted_perm. constructor; assumption.
Qed.

Lemma insert_sorted_ordered (x : text) (l : list text) :
  StronglySorted text_le l -> StronglySorted text_le (insert_sorted x l).
Proof.
  induction 1 as [|y l Hl IH Hy]; simpl; [repeat constructor|].
  destruct (text_ltb y x) eqn:E.
  - constructor; [assumption|].
    rewrite Forall_forall in *. intros z Hz.
    apply (Permutation_in _ (insert_sorted_perm x l)) in Hz.
    destruct Hz as [<-|Hz]; [|auto].
    unfold text_le. destruct (text_ltb x y) eqn:E'; [|reflexivity].
    pose proof (text_ltb_trans _ _ _ E E') as F.
    rewrite text_ltb_irrefl in F. discriminate.
  - constructor; [constructor; assumption|].
    constructor; [exact E|].
    rewrite Forall_forall in *. intros z Hz.
    eapply text_le_trans; [exact E | auto].
Qed.

Lemma sorted_ordered (l : list text) : StronglySorted text_le (sorted l).
Proof.
  induction l as [|x l IH]; simpl; [constructor|].
  apply insert_sorted_ordered, IH.
Qed.

(** An ordered list is determined by its elements. *)
Lemma ordered_unique (l1 l2 : list text) :
  StronglySorted text_le l1 -> StronglySorted text_le l2 ->
  Permutation l1 l2 -> l1 = l2.
Proof.
  intros H1; revert l2; induction H1 as [|a l1 Hl1 IH Ha]; intros l2 H2 HP.
  - apply Permutation_nil in HP; congruence.
  - destruct H2 as [|b l2 Hl2 Hb].
    + apply Permutation_sym, Permutation_nil in HP; discriminate.
    + assert (a = b).
      { rewrite Forall_forall in Ha, Hb.
        assert (Hab : In a (b :: l2))
          by (eapply Permutation_in; [exact HP | left; reflexivity]).
        assert (Hba : In b (a :: l1))
          by (eapply Permutation_in;
              [apply Permutation_sym; exact HP | left; reflexivity]).
        destruct Hab as [->|Hab]; [reflexivity|].
        destruct Hba as [->|Hba]; [reflexivity|].
        apply text_ltb_total; [apply Hb, Hab | apply Ha, Hba]. }
      subst b. f_equal. apply IH; [assumption|].
      eapply Permutation_cons_inv; exact HP.
Qed.

(** Without repetition the order is strict. *)
Lemma ordered_strict (l : list text) :
  NoDup l -> StronglySorted text_le l ->
  StronglySorted (fun a b => text_ltb a b = true) l.
Proof.
  intros Hnd Hs; induction Hs as [|a l Hl IH Ha]; [constructor|].
  inversion Hnd as [|? ? Hna Hndl]; subst.
  constructor; [apply IH; assumption|].
  rewrite Forall_forall in *. intros b Hb.
  destruct (text_ltb a b) eqn:E; [reflexivity|].
  exfalso. apply Hna.
  rewrite (text_ltb_total _ _ E (Ha b Hb)). exact Hb.
Qed.

Lemma set_add_nodup (s : list text) (x : text) :
  NoDup s -> NoDup (set_add s x).
Proof.
  intros H. unfold set_add. destruct (existsb (text_eqb x) s) eqn:E;
    [assumption|].
  apply NoDup_app; [assumption | repeat constructor; intros [] |].
  intros y Hy [<-|[]]. apply existsb_text_eqb in Hy. congruence.
Qed.

(** ** Skill extraction *)

Section Skills.

Context {U : Unicode}.

Lemma found_skills_nodup (t : text) : NoDup (found_skills t).
Proof.
  unfold found_skills.
  generalize (str_lower t) as tl. intros tl.
  assert (G : forall l acc, NoDup acc ->
            NoDup (fold_left
                     (fun found skill =>
                        match Re.search false (pattern (skill_pattern skill))
                                        tl with
                        | Some _ => set_add found (canonical skill)
                        | None => found
                        end) l acc)).
  { induction l as [|x l IH]; intros acc H; simpl; [assumption|].
    apply IH. destruct (Re.search _ _ _); [apply set_add_nodup|]; assumption. }
  apply G. constructor.
Qed.

(** C9.  Skill extraction is deterministic, and its result is free of
    duplicates and in lexicographic order: for every text, whatever the
    order in which [list(found_skills)] enumerates the set, sorting the
    enumeration gives the list [extract_skills] returns, so running the
    extraction again yields the same result; no string occurs twice in
    it; and every string in it is strictly below those after it. *)
Theorem skills_any_order (t : text) :
  (forall enumeration,
      Permutation enumeration (found_skills t) ->
      sorted enumeration = extract_skills t)
  /\ NoDup (extract_skills t)
  /\ StronglySorted (fun a b => text_ltb a b = true) (extract_skills t).
Proof.
  assert (Hnd : NoDup (extract_skills t)).
  { eapply Permutation_NoDup;
      [apply Permutation_sym, sorted_perm | apply found_skills_nodup]. }
  split; [|split].
  - intros enumeration HP. unfold extract_skills.
    apply ordered_unique; try apply sorted_ordered.
    rewrite !sorted_perm. exact HP.
  - exact Hnd.
  - apply ordered_strict; [exact Hnd | apply sorted_ordered].
Qed.

End Skills.

(** ** The scorer *)

(** The parsed data [calculate_score] is written for: a dictionary whose
    [contact], if present, is a dictionary, and whose [experience],
    [education] and [skills], if present, have a length. *)
Definition is_dict (v : pyval) : bool :=
  match v with
  | VDict _ => true
  | _ => false
  end.

Definition sized (v : pyval) : bool :=
  match v with
  | VStr _ | VList _ | VDict _ => true
  | _ => false
  end.

Definition field_ok (kv : list (text * pyval)) (key : text)
           (ok : pyval -> bool) : bool :=
  match dict_get kv key with
  | Some v => ok v
  | None => true
  end.

Definition well_shaped (kv : list (text * pyval)) : bool :=
  field_ok kv (py "contact") is_dict
  && field_ok kv (py "experience") sized
  && field_ok kv (py "education") sized
  && field_ok kv (py "skills") sized.

(** The real number a float stands for. *)
Definition exact (f : float) : Q :=
  match Prim2SF f with
  | S754_finite s m e =>
      ((if s then -1 else 1) * Z.pos m # 1) * Qpower 2 e
  | _ => 0
  end%Q.

(** The weighted sum over the reals, of the sub-scores over the reals. *)
Definition ideal_overall (contact_count experience education skills : Z) : Q :=
  ((2 # 10) * ((100 * contact_count # 3))
   + (3 # 10) * (experience # 1)
   + (2 # 10) * (education # 1)
   + (3 # 10) * (skills # 1))%Q.

Definition contact_score (contact_count : Z) : float :=
  (float_of_int contact_count / float_of_int 3 * 100)%float.

Definition within_0_100 (f : float) : bool :=
  PrimFloat.leb 0 f && PrimFloat.leb f 100.

(** What is checked of one combination of sub-scores. *)
Definition score_check (compensated : bool)
           (contact_count experience education skills : Z) : bool :=
  let c := contact_score contact_count in
  let o := weighted_sum compensated c experience education skills in
  within_0_100 c && within_0_100 o
  && Qle_bool (Qabs (exact o
                     - ideal_overall contact_count experience education skills))
              (1 # 1000000000000).

(** The values [min(100, count * points)] takes: the multiples of
    [points] up to the first one that reaches 100. *)
Definition steps (points : Z) : list Z :=
  map (fun k => Z.min 100 (Z.of_nat k * points))
      (seq 0 (2 + Z.to_nat (100 / points))).

Lemma capped_in_steps (count points : Z) :
  (0 <= count)%Z -> (0 < points)%Z ->
  In (capped count points) (steps points).
Proof.
  intros Hc Hp. unfold capped, steps. apply in_map_iff.
  assert (Hq : (0 <= 100 / points)%Z) by (apply Z.div_pos; lia).
  destruct (Z_le_gt_dec count (100 / points + 1)) as [Hle|Hgt].
  - exists (Z.to_nat count). split; [rewrite Z2Nat.id by lia; reflexivity|].
    apply in_seq. lia.
  - exists (S (Z.to_nat (100 / points))). split; [|apply in_seq; lia].
    rewrite Nat2Z.inj_succ, Z2Nat.id by lia.
    assert (100 < Z.succ (100 / points) * points)%Z.
    { pose proof (Z.mul_succ_div_gt 100 points Hp). lia. }
    assert (Z.succ (100 / points) * points <= count * points)%Z by nia.
    lia.
Qed.

(** Every combination the sub-scores can take passes the check, by
    evaluation of each. *)
Lemma all_scores_checked :
  forallb (fun compensated =>
    forallb (fun n =>
      forallb (fun e =>
        forallb (fun d =>
          forallb (fun s => score_check compensated n e d s) (steps 5))
          (steps 50))
        (steps 25))
      [0; 1; 2; 3]%Z)
    [false; true] = true.
Proof. vm_compute. reflexivity. Qed.

Lemma count_present_range (kv : list (text * pyval)) (fields : list text) :
  field_ok kv (py "contact") is_dict = true ->
  exists n, count_present (VDict kv) fields = Ok n
            /\ (0 <= n <= Z.of_nat (List.length fields))%Z.
Proof.
  intros Hc. induction fields as [|f fields (n & E & Hn)].
  - exists 0%Z. split; [reflexivity | simpl; lia].
  - cbn [count_present]. unfold py_get at 1. cbn [bind].
    unfold field_ok in Hc.
    destruct (dict_get kv (py "contact")) as [contact|].
    + destruct contact; try discriminate. cbn [py_get bind].
      rewrite E. cbn [bind].
      match goal with |- context [py_truth ?v] => destruct (py_truth v) end;
        eexists; (split; [reflexivity|]); cbn [List.length]; lia.
    + cbn [py_get bind]. rewrite E. cbn [bind].
      match goal with |- context [py_truth ?v] => destruct (py_truth v) end;
        eexists; (split; [reflexivity|]); cbn [List.length]; lia.
Qed.

Lemma sized_len (kv : list (text * pyval)) (key : text) :
  field_ok kv key sized = true ->
  exists v n, py_get (VDict kv) key (VList []) = Ok v
              /\ py_len v = Ok n /\ (0 <= n)%Z.
Proof.
  unfold field_ok, py_get. intros H.
  destruct (dict_get kv key) as [v|].
  - destruct v; try discriminate; eexists; eexists;
      (split; [reflexivity | split; [reflexivity | lia]]).
  - exists (VList []), 0%Z. repeat split; lia.
Qed.

(** C5.  For every parsed-data dictionary of the shape the scorer is
    written for (any fields may be missing or empty), [calculate_score]
    returns the five scores: the four sub-scores [contact_info],
    [experience], [education] and [skills] are each between 0 and 100, and
    [overall] is the weighted sum of the four with the weights 0.2, 0.3,
    0.2 and 0.3 as the floating-point operations compute it (with either
    summation), lies between 0 and 100, and differs from the weighted sum
    over the reals by less than 10^-12. *)
Theorem calculate_score_bounds (compensated : bool)
        (kv : list (text * pyval)) :
  well_shaped kv = true ->
  exists contact_count contact_info experience education skills overall,
    calculate_score compensated (VDict kv)
    = Ok (VDict [ (py "contact_info", VFloat contact_info);
                  (py "experience", VInt experience);
                  (py "education", VInt education);
                  (py "skills", VInt skills);
                  (py "overall", VFloat overall) ])
    /\ contact_info = contact_score contact_count
    /\ within_0_100 contact_info = true
    /\ (0 <= experience <= 100)%Z
    /\ (0 <= education <= 100)%Z
    /\ (0 <= skills <= 100)%Z
    /\ overall
       = weighted_sum compensated contact_info experience education skills
    /\ within_0_100 overall = true
    /\ (Qabs (exact overall
              - ideal_overall contact_count experience education skills)
        <= 1 # 1000000000000)%Q.
Proof.
  unfold well_shaped. rewrite !andb_true_iff.
  intros [[[Hc He] Hd] Hs].
  destruct (count_present_range kv contact_fields Hc) as (n & En & Hn).
  destruct (sized_len kv _ He) as (ve & ne & Ee & Le & Pe).
  destruct (sized_len kv _ Hd) as (vd & nd & Ed & Ld & Pd).
  destruct (sized_len kv _ Hs) as (vs & ns & Es & Ls & Ps).
  exists n, (contact_score n), (capped ne 25), (capped nd 50), (capped ns 5),
    (weighted_sum compensated (contact_score n) (capped ne 25) (capped nd 50)
                  (capped ns 5)).
  assert (Hcheck : score_check compensated n (capped ne 25) (capped nd 50)
                               (capped ns 5) = true).
  { pose proof all_scores_checked as A.
    rewrite forallb_forall in A.
    assert (Hmode : In compensated [false; true])
      by (destruct compensated; simpl; auto).
    specialize (A compensated Hmode).
    rewrite forallb_forall in A.
    assert (Hin : In n [0; 1; 2; 3]%Z).
    { change (Z.of_nat (List.length contact_fields)) with 3%Z in Hn.
      simpl. lia. }
    specialize (A n Hin). rewrite forallb_forall in A.
    specialize (A _ (@capped_in_steps ne 25 Pe ltac:(lia))).
    rewrite forallb_forall in A.
    specialize (A _ (@capped_in_steps nd 50 Pd ltac:(lia))).
    rewrite forallb_forall in A.
    exact (A _ (@capped_in_steps ns 5 Ps ltac:(lia))). }
  unfold score_check in Hcheck. cbv zeta in Hcheck.
  rewrite !andb_true_iff in Hcheck. destruct Hcheck as [[Hci Hov] Hq].
  apply Qle_bool_iff in Hq.
  split.
  - unfold calculate_score. rewrite En. cbn [bind].
    rewrite Ee. cbn [bind]. rewrite Le. cbn [bind].
    rewrite Ed. cbn [bind]. rewrite Ld. cbn [bind].
    rewrite Es. cbn [bind]. rewrite Ls. cbn [bind].
    reflexivity.
  - repeat split; try assumption; unfold capped; lia.
Qed.

(** ** The orchestrator boundary *)

Section ParseResults.

Context {U : Unicode}.
Variable io : Readers.
Variable clock : Clock.
Variable compensated : bool.

(** What [parse] returns when the reader raises: the message and the file. *)
Lemma parse_reader_failure (file_path : text) (e : exn) :
  read_file io file_path = Raise e ->
  parse io clock compensated file_path
  = VDict [ (py "error", VStr (exn_message e)); (py "file", VStr file_path) ].
Proof.
  intros H. unfold parse, parse_body. rewrite H. reflexivity.
Qed.

(** What [parse] returns when the reader returns the empty string: the
    message alone. *)
Lemma parse_no_text (file_path : text) :
  read_file io file_path = Ok [] ->
  parse io clock compensated file_path
  = VDict [ (py "error",
              VStr (py "No text could be extracted from the file")) ].
Proof.
  intros H. unfold parse, parse_body. rewrite H. reflexivity.
Qed.

End ParseResults.

(** A disk with one readable file, [empty.txt], which is empty. *)
Definition one_empty_file : Readers :=
  {| read_pdf := fun _ => Raise (OSError (py "No such file or directory"));
     read_docx := fun _ => Raise (OSError (py "No such file or directory"));
     read_txt := fun file_path =>
       if text_eqb file_path (py "empty.txt") then Ok []
       else Raise (OSError (py "No such file or directory")) |}.

(** C3, on the code.  [parse] of an empty text file returns a result with
    the [error] key and the message, and raises nothing; but the result
    has no [file] key, whereas the results [parse] makes of an exception
    (here an unsupported extension, and a file that cannot be read) carry
    both the message and the file. *)
Theorem parse_empty_text_has_no_file (clock : Clock) (compensated : bool) :
  let parse := @parse Ascii7.tables one_empty_file clock compensated in
  parse (py "empty.txt")
  = VDict [ (py "error",
              VStr (py "No text could be extracted from the file")) ]
  /\ has_key (parse (py "empty.txt")) (py "error") = true
  /\ has_key (parse (py "empty.txt")) (py "file") = false
  /\ parse (py "resume.odt")
     = VDict [ (py "error", VStr (py "Unsupported file format: odt"));
               (py "file", VStr (py "resume.odt")) ]
  /\ parse (py "missing.txt")
     = VDict [ (py "error", VStr (py "No such file or directory"));
               (py "file", VStr (py "missing.txt")) ].
Proof.
  cbv zeta.
  rewrite (@parse_no_text Ascii7.tables one_empty_file clock compensated
                          (py "empty.txt"))
    by reflexivity.
  repeat split; apply parse_reader_failure; reflexivity.
Qed.

(** ** The experience level *)

Section LevelResults.

Context {U : Unicode}.
Variable strptime : text -> option (Z * Z).
Variable now : Z * Z.

(** With no entry the level is returned at once, whatever the module
    binds. *)
Lemma level_without_experience (globals : list text)
      (kv : list (text * pyval)) :
  dict_get kv (py "experience") = None
  \/ dict_get kv (py "experience") = Some (VList []) ->
  analyze_experience_level strptime now globals (VDict kv)
  = Ok (py "Entry Level").
Proof.
  unfold analyze_experience_level, py_get.
  intros [-> | ->]; reflexivity.
Qed.

(** In a module that binds no [re], the first round of the loop raises. *)
Lemma level_loop_unbound_re (globals : list text) (total : Z)
      (entry : list (text * pyval)) (rest : list pyval) :
  existsb (text_eqb (py "re")) globals = false ->
  level_loop strptime now globals total (VDict entry :: rest)
  = Raise (NameError (py "re")).
Proof.
  intros H. cbn [level_loop]. unfold level_step, py_get. cbn [bind].
  unfold load_global. rewrite H. reflexivity.
Qed.

(** So [analyze_experience_level] of the module as it is raises
    [NameError] on every parse result with an experience entry. *)
Lemma level_raises_name_error (kv entry : list (text * pyval))
      (rest : list pyval) :
  dict_get kv (py "experience") = Some (VList (VDict entry :: rest)) ->
  analyze_experience_level strptime now advanced_parser_globals (VDict kv)
  = Raise (NameError (py "re")).
Proof.
  intros H. unfold analyze_experience_level, py_get. rewrite H.
  cbn [bind py_truth negb py_iter].
  rewrite level_loop_unbound_re by reflexivity. reflexivity.
Qed.

End LevelResults.

(** A parse result with one job of fourteen months. *)
Definition one_job : pyval :=
  VDict [ (py "experience",
            VList [ VDict [ (py "position", VStr (py "Software Engineer"));
                            (py "company", VStr (py "Acme Corp"));
                            (py "duration",
                              VStr (py "January 2020 - March 2021"));
                            (py "location", VNone);
                            (py "description", VList []) ] ]) ].

(** Had the module imported [re] and [datetime], the job would count 14
    months and the level would be "Entry Level". *)
Lemma level_if_imported (strptime : text -> option (Z * Z)) (now : Z * Z) :
  strptime (py "January 2020") = Some (2020, 1)%Z ->
  strptime (py "March 2021") = Some (2021, 3)%Z ->
  @analyze_experience_level Ascii7.tables strptime now
    (texts ["re"; "datetime"]%string ++ advanced_parser_globals) one_job
  = Ok (py "Entry Level").
Proof.
  intros H1 H2. vm_compute in H1, H2. vm_compute.
  rewrite H1, H2. reflexivity.
Qed.

(** C4, on the code.  With an empty experience list the function returns
    "Entry Level"; with one job, whatever [datetime] would answer, it
    raises [NameError] for the name [re], which the module never imports,
    instead of returning the label of the summed months. *)
Theorem experience_level_raises (strptime : text -> option (Z * Z))
        (now : Z * Z) :
  let analyze :=
    @analyze_experience_level Ascii7.tables strptime now
                              advanced_parser_globals in
  analyze (VDict [ (py "experience", VList []) ]) = Ok (py "Entry Level")
  /\ analyze one_job = Raise (NameError (py "re")).
Proof.
  cbv zeta. split.
  - apply level_without_experience. right; reflexivity.
  - eapply level_raises_name_error. reflexivity.
Qed.

(** ** Saving a parse result *)

Section SaveResults.

Variable world : Type.
Variable makedirs : text -> world -> result world.
Variable timestamp : world -> text.
Variable join_path : text -> text -> text.
Variable write_json : text -> pyval -> world -> result world.

Let save := save_parsed_resume makedirs timestamp join_path write_json.

(** C10.  Let a parse result have a [contact] dictionary.  If its [name]
    is null, [save_parsed_resume] raises and returns no path: once the
    output directory is there, the exception is the [AttributeError] of
    [None.replace], met while the file name is built.  If the [name] key
    is absent, the name used is 'unknown'.  So when [parse] returns a
    result whose name is null, [parse_single_resume] raises too, and the
    resume is not saved. *)
Theorem save_null_name_raises (parsed_data : pyval)
        (contact : list (text * pyval)) (output_dir : text) (w : world) :
  item_of parsed_data (py "contact") = Some (VDict contact) ->
  (dict_get contact (py "name") = Some VNone ->
     (exists e, save parsed_data output_dir w = Raise e)
     /\ (forall w1, makedirs output_dir w = Ok w1 ->
           save parsed_data output_dir w
           = Raise (AttributeError
                      (py "'NoneType' object has no attribute 'replace'")))
     /\ (forall (U : Unicode) io clock compensated file_path,
           parse io clock compensated file_path = parsed_data ->
           exists e,
             parse_single_resume makedirs timestamp join_path write_json
                                 io clock compensated file_path w = Raise e))
  /\ (dict_get contact (py "name") = None ->
      forall w1 w2,
        let filepath :=
          join_path output_dir
                    (py "unknown" ++ py "_" ++ timestamp w1 ++ py ".json") in
        makedirs output_dir w = Ok w1 ->
        write_json filepath parsed_data w1 = Ok w2 ->
        save parsed_data output_dir w = Ok (filepath, w2)).
Proof.
  intros Hc.
  destruct parsed_data as [| | | | |kv]; try discriminate.
  simpl in Hc.
  assert (Hraise : forall dir,
             dict_get contact (py "name") = Some VNone ->
             (exists e, save (VDict kv) dir w = Raise e)
             /\ (forall w1, makedirs dir w = Ok w1 ->
                   save (VDict kv) dir w
                   = Raise (AttributeError
                              (py "'NoneType' object has no attribute 'replace'")))).
  { intros dir Hn.
    destruct (makedirs dir w) as [w1|e] eqn:Em.
    - assert (E : save (VDict kv) dir w
                  = Raise (AttributeError
                             (py "'NoneType' object has no attribute 'replace'"))).
      { unfold save, save_parsed_resume. rewrite Em. cbn [bind].
        unfold py_get at 1. rewrite Hc. cbn [bind].
        unfold py_get. rewrite Hn. reflexivity. }
      split; [eexists; exact E | intros; exact E].
    - split; [|intros; discriminate].
      exists e. unfold save, save_parsed_resume. rewrite Em. reflexivity. }
  split.
  - intros Hn. destruct (Hraise output_dir Hn) as [H1 H2].
    split; [exact H1 | split; [exact H2|]].
    intros U io clock compensated file_path Hp.
    unfold parse_single_resume. rewrite Hp.
    destruct (Hraise (py "output") Hn) as [[e He] _].
    exists e. fold save. rewrite He. reflexivity.
  - intros Hn w1 w2 filepath Hm Hw. unfold save, save_parsed_resume.
    rewrite Hm. cbn [bind]. unfold py_get at 1. rewrite Hc. cbn [bind].
    unfold py_get. rewrite Hn. cbn [bind name_replace].
    change (replace (py " ") (py "_") (py "unknown")) with (py "unknown").
    fold filepath. rewrite Hw. reflexivity.
Qed.

End SaveResults.

(** ** The section segmenter *)

Lemma split_on_nonempty (sep : char) (s : text) : split_on sep s <> [].
Proof.
  destruct s as [|c r]; simpl; [discriminate|].
  destruct (c =? sep)%N; [discriminate|].
  destruct (split_on sep r); discriminate.
Qed.

Lemma split_on_app (sep : char) (l s : text) :
  ~ In sep l -> split_on sep (l ++ sep :: s) = l :: split_on sep s.
Proof.
  induction l as [|c l IH]; intros H; simpl.
  - rewrite N.eqb_refl. reflexivity.
  - destruct (c =? sep)%N eqn:E.
    + apply N.eqb_eq in E. exfalso. apply H. left; assumption.
    + rewrite IH; [reflexivity|]. intros F. apply H. right; assumption.
Qed.

Lemma split_on_whole (sep : char) (l : text) :
  ~ In sep l -> split_on sep l = [l].
Proof.
  induction l as [|c l IH]; intros H; simpl; [reflexivity|].
  destruct (c =? sep)%N eqn:E.
  - apply N.eqb_eq in E. exfalso. apply H. left; assumption.
  - rewrite IH; [reflexivity|]. intros F. apply H. right; assumption.
Qed.

(** No line of [s.split(sep)] holds the separator. *)
Lemma split_on_clean (sep : char) (s : text) :
  Forall (fun l => ~ In sep l) (split_on sep s).
Proof.
  induction s as [|c r IH]; simpl.
  - repeat constructor. intros [].
  - destruct (c =? sep)%N eqn:E.
    + constructor; [intros [] | assumption].
    + destruct (split_on sep r) as [|h t]; [repeat constructor|].
      * intros [F|[]]. subst c. rewrite N.eqb_refl in E. discriminate.
      * inversion IH as [|? ? Hh Ht]; subst.
        constructor; [|assumption].
        intros [F|F]; [|auto]. subst c. rewrite N.eqb_refl in E.
        discriminate.
Qed.

(** Joining lines and splitting the block again gives the lines back. *)
Lemma split_join (ls : list text) :
  ls <> [] -> Forall (fun l => ~ In NL l) ls ->
  split_on NL (join [NL] ls) = ls.
Proof.
  induction ls as [|l ls IH]; intros Hne Hc; [congruence|].
  inversion Hc as [|? ? Hl Hls]; subst.
  destruct ls as [|l2 ls].
  - simpl. apply split_on_whole, Hl.
  - change (join [NL] (l :: l2 :: ls)) with (l ++ NL :: join [NL] (l2 :: ls)).
    rewrite split_on_app by assumption.
    rewrite IH; [reflexivity | discriminate | assumption].
Qed.

Section SegmenterResults.

Context {U : Unicode}.

(** The runs of lines the loop saves, each under the section that is
    current when it is saved: a run ends at a header line or at the end
    of the text, and an empty run is not saved. *)
Definition run_of (cur : text) (acc : list text) : list (text * list text) :=
  match acc with
  | [] => []
  | _ :: _ => [(cur, acc)]
  end.

Fixpoint saved_runs (cur : text) (acc : list text) (lines : list text)
  : list (text * list text) :=
  match lines with
  | [] => run_of cur acc
  | line :: rest =>
      match header_of line with
      | Some section_name => run_of cur acc ++ saved_runs section_name [] rest
      | None => saved_runs cur (acc ++ [line]) rest
      end
  end.

Definition save_run (d : dict text) (r : text * list text) : dict text :=
  dict_set d (fst r) (join [NL] (snd r)).

Lemma seg_flush_run (st : seg_state) :
  seg_flush st
  = fold_left save_run (run_of (current_section st) (section_text st))
              (sections st).
Proof.
  unfold seg_flush, run_of. destruct (section_text st); reflexivity.
Qed.

(** The section map is the saved runs, written one after the other. *)
Lemma segment_as_runs (lines : list text) (st : seg_state) :
  seg_flush (fold_left seg_step lines st)
  = fold_left save_run
              (saved_runs (current_section st) (section_text st) lines)
              (sections st).
Proof.
  revert st; induction lines as [|line rest IH]; intros st; simpl.
  - apply seg_flush_run.
  - unfold seg_step at 2. destruct (header_of line) as [section_name|].
    + rewrite IH. simpl. rewrite fold_left_app, <- seg_flush_run.
      reflexivity.
    + rewrite IH. reflexivity.
Qed.

(** The saved runs hold the lines that are not headers, in order. *)
Lemma saved_runs_content (lines : list text) (cur : text) (acc : list text) :
  List.concat (map snd (saved_runs cur acc lines))
  = acc ++ filter (fun l => negb (is_trigger l)) lines.
Proof.
  revert cur acc; induction lines as [|line rest IH]; intros cur acc; simpl.
  - rewrite app_nil_r. destruct acc; simpl; [|rewrite app_nil_r]; reflexivity.
  - unfold is_trigger at 1. destruct (header_of line); simpl.
    + rewrite map_app, concat_app, IH. simpl.
      destruct acc; simpl; [|rewrite app_nil_r]; reflexivity.
    + rewrite IH, <- app_assoc. reflexivity.
Qed.

Lemma saved_runs_clean (lines : list text) (cur : text) (acc : list text) :
  Forall (fun l => ~ In NL l) acc -> Forall (fun l => ~ In NL l) lines ->
  Forall (fun r => snd r <> [] /\ Forall (fun l => ~ In NL l) (snd r))
         (saved_runs cur acc lines).
Proof.
  revert cur acc; induction lines as [|line rest IH]; intros cur acc Ha Hl;
    simpl.
  - destruct acc as [|a acc]; simpl; [constructor|].
    constructor; [|constructor]. split; [discriminate | assumption].
  - inversion Hl; subst. destruct (header_of line).
    + apply Forall_app. split; [|apply IH; [constructor | assumption]].
      destruct acc as [|a acc]; simpl; [constructor|].
      constructor; [|constructor]. split; [discriminate | assumption].
    + apply IH; [|assumption]. apply Forall_app. split; [assumption|].
      repeat constructor. assumption.
Qed.

Lemma dict_set_fresh (V : Type) (d : dict V) (k : text) (v : V) :
  ~ In k (dict_keys d) -> dict_set d k v = d ++ [(k, v)].
Proof.
  induction d as [|[k' v'] d IH]; simpl; intros H; [reflexivity|].
  destruct (text_eqb k' k) eqn:E.
  - apply text_eqb_spec in E. exfalso. apply H. left; assumption.
  - rewrite IH; [reflexivity|]. intros F. apply H. right; assumption.
Qed.

(** Runs saved under sections that differ pairwise are all kept. *)
Lemma save_runs_fresh (runs : list (text * list text)) (d : dict text) :
  NoDup (dict_keys d ++ map fst runs) ->
  fold_left save_run runs d
  = d ++ map (fun r => (fst r, join [NL] (snd r))) runs.
Proof.
  revert d; induction runs as [|r runs IH]; intros d H; simpl.
  - rewrite app_nil_r. reflexivity.
  - assert (Hf : ~ In (fst r) (dict_keys d)).
    { intros F. apply NoDup_remove_2 in H. apply H.
      apply in_app_iff. left; assumption. }
    unfold save_run at 2. rewrite dict_set_fresh by assumption.
    rewrite IH.
    + rewrite <- app_assoc. reflexivity.
    + unfold dict_keys in *. rewrite map_app. simpl.
      rewrite <- app_assoc. exact H.
Qed.

(** The partition the segmenter does give: when no section is saved twice,
    the blocks of the section map hold the lines of the text that are not
    headers, each once, in the order of the text. *)
Lemma sections_partition (t : text) :
  NoDup (map fst (saved_runs (py "header") [] (split_on NL t))) ->
  block_lines (extract_sections t) = content_lines t.
Proof.
  intros H. unfold extract_sections, content_lines.
  rewrite segment_as_runs. simpl.
  rewrite save_runs_fresh by exact H. simpl.
  pose proof (saved_runs_content (split_on NL t) (py "header") []) as R.
  rewrite app_nil_l in R. rewrite <- R. clear R.
  assert (Hc : Forall (fun r : text * list text =>
                         snd r <> [] /\ Forall (fun l => ~ In NL l) (snd r))
                      (saved_runs (py "header") [] (split_on NL t))).
  { apply saved_runs_clean; [constructor | apply split_on_clean]. }
  unfold block_lines. revert H Hc.
  generalize (saved_runs (py "header") [] (split_on NL t)) as runs.
  induction runs as [|r runs IH]; intros H Hc; simpl; [reflexivity|].
  inversion Hc as [|? ? [Hne Hr] Hrs]; subst.
  inversion H; subst.
  rewrite split_join by assumption. f_equal. apply IH; assumption.
Qed.

End SegmenterResults.

(** A text in which the experience section is opened twice. *)
Definition two_experience_headings : text :=
  unlines ["EXPERIENCE"; "Acme Corp"; "EDUCATION"; "State University";
           "WORK EXPERIENCE"; "Globex"]%string.

(** C2, on the code.  When a section is triggered a second time, the
    block saved for it the first time is overwritten: of the three content
    lines of this text the section map holds two, and the line
    "Acme Corp" is in no block. *)
Theorem sections_overwritten :
  let sections := @extract_sections Ascii7.tables two_experience_headings in
  sections = [ (py "experience", py "Globex");
               (py "education", py "State University") ]
  /\ @content_lines Ascii7.tables two_experience_headings
     = texts ["Acme Corp"; "State University"; "Globex"]%string
  /\ ~ In (py "Acme Corp") (block_lines sections)
  /\ ~ Permutation (block_lines sections)
                   (@content_lines Ascii7.tables two_experience_headings).
Proof.
  cbv zeta.
  assert (E : @extract_sections Ascii7.tables two_experience_headings
              = [ (py "experience", py "Globex");
                  (py "education", py "State University") ])
    by (vm_compute; reflexivity).
  assert (C : @content_lines Ascii7.tables two_experience_headings
              = texts ["Acme Corp"; "State University"; "Globex"]%string)
    by (vm_compute; reflexivity).
  rewrite E, C. repeat split.
  - vm_compute. intros [H|[H|[]]]; discriminate.
  - intros P. apply Permutation_length in P. vm_compute in P. discriminate.
Qed.

(** ** The matcher *)

Section MatcherResults.

Context {U : Unicode}.

(** The subject a cursor belongs to: what is left is the subject from the
    cursor's offset on. *)
Definition aligned (s : text) (c : Re.cursor) : Prop :=
  Re.rest c = skipn (Re.pos c) s.

Lemma skipn_step (A : Type) (n : nat) (s : list A) (a : A) (t : list A) :
  skipn n s = a :: t -> skipn (S n) s = t.
Proof.
  revert s; induction n as [|n IH]; intros [|b s]; simpl; try discriminate.
  - intros E; injection E as _ E; exact E.
  - intros E. specialize (IH s E). exact IH.
Qed.

Lemma aligned_start (s : text) : aligned s (Re.start_of s).
Proof. reflexivity. Qed.

Lemma aligned_step (s : text) (p : nat) (pv pv' : option char) (a : char)
      (t : text) :
  aligned s {| Re.pos := p; Re.prev := pv; Re.rest := a :: t |} ->
  aligned s {| Re.pos := S p; Re.prev := pv'; Re.rest := t |}.
Proof.
  unfold aligned; simpl. intros E. symmetry. eapply skipn_step.
  symmetry; exact E.
Qed.

(** What a continuation receives: a cursor of the same subject, and the
    groups it was started with when the pattern has no group. *)
Definition passes_on (s : text) (R : Type) (groups_kept : bool)
           (g : Re.caps) (k : Re.cursor -> Re.caps -> option R) (x : R)
  : Prop :=
  exists c' g', aligned s c' /\ k c' g' = Some x
                /\ (groups_kept = true -> g' = g).

Lemma eat_passes_on (s : text) (R : Type) (ok : char -> bool)
      (c : Re.cursor) (g : Re.caps) (k : Re.cursor -> Re.caps -> option R)
      (x : R) (b : bool) :
  aligned s c -> Re.eat ok c (fun c' => k c' g) = Some x ->
  passes_on s b g k x.
Proof.
  unfold Re.eat. intros Ha H. destruct c as [p pv rs]; simpl in *.
  destruct rs as [|a t]; [discriminate|].
  destruct (ok a); [|discriminate].
  exists {| Re.pos := S p; Re.prev := Some a; Re.rest := t |}, g.
  split; [eapply aligned_step; exact Ha | split; [exact H | reflexivity]].
Qed.

Lemma rounds_pass_on (s : text) (R : Type)
      (step : Re.cursor -> Re.caps -> (Re.cursor -> Re.caps -> option R)
              -> option R)
      (kept : bool) (lo : nat) (hi : option nat) (greedy : bool)
      (k : Re.cursor -> Re.caps -> option R) :
  (forall c g k' x, aligned s c -> step c g k' = Some x ->
                    passes_on s kept g k' x) ->
  forall fuel n c g x,
    aligned s c -> Re.rounds step lo hi greedy k fuel n c g = Some x ->
    passes_on s kept g k x.
Proof.
  intros Hstep. induction fuel as [|fuel IH]; intros n c g x Ha H;
    [discriminate|].
  cbn [Re.rounds] in H.
  assert (Hmore : forall x,
            (if Re.below n hi then
               step c g (fun c' g' =>
                           if Re.pos c' =? Re.pos c then None
                           else Re.rounds step lo hi greedy k fuel (S n) c' g')
             else None) = Some x -> passes_on s kept g k x).
  { intros y Hy. destruct (Re.below n hi); [|discriminate].
    apply Hstep in Hy; [|exact Ha].
    destruct Hy as (c' & g' & Ha' & Hk & Hg).
    destruct (Re.pos c' =? Re.pos c); [discriminate|].
    apply IH in Hk; [|exact Ha'].
    destruct Hk as (c2 & g2 & Ha2 & Hk2 & Hg2).
    exists c2, g2. repeat split; try assumption.
    intros E. rewrite Hg2, Hg by exact E. reflexivity. }
  assert (Hstop : forall x,
            (if lo <=? n then k c g else None) = Some x ->
            passes_on s kept g k x).
  { intros y Hy. destruct (lo <=? n); [|discriminate].
    exists c, g. auto. }
  destruct greedy.
  - destruct (if Re.below n hi then _ else None) as [y|].
    + injection H as <-. apply Hmore. reflexivity.
    + apply Hstop, H.
  - destruct (if lo <=? n then k c g else None) as [y|].
    + injection H as <-. apply Hstop. reflexivity.
    + apply Hmore, H.
Qed.

(** Whatever the matcher answers is an answer of its continuation, at a
    cursor of the same subject. *)
Lemma run_passes_on (s : text) (ic : bool) (r : Re.regex) :
  forall (R : Type) (c : Re.cursor) (g : Re.caps)
         (k : Re.cursor -> Re.caps -> option R) (x : R),
    aligned s c -> Re.run ic r c g k = Some x ->
    passes_on s (Re.groups r =? 0) g k x.
Proof.
  induction r as [ | x0 | | neg items | r1 IH1 r2 IH2 | r1 IH1 r2 IH2
                   | lo hi greedy r1 IH1 | i r1 IH1 | r1 IH1 | | | ];
    intros R c g k x Ha H; cbn [Re.run Re.groups] in *.
  - exists c, g. auto.
  - eapply eat_passes_on; eassumption.
  - eapply eat_passes_on; eassumption.
  - eapply eat_passes_on; eassumption.
  - apply IH1 in H; [|exact Ha]. destruct H as (c1 & g1 & Ha1 & H & Hg1).
    apply IH2 in H; [|exact Ha1]. destruct H as (c2 & g2 & Ha2 & H & Hg2).
    exists c2, g2. repeat split; try assumption.
    intros E. apply Nat.eqb_eq in E.
    rewrite Hg2, Hg1; [reflexivity | |]; apply Nat.eqb_eq; lia.
  - destruct (Re.run ic r1 c g k) as [y|] eqn:E.
    + injection H as <-. apply IH1 in E; [|exact Ha].
      destruct E as (c1 & g1 & Ha1 & E & Hg1).
      exists c1, g1. repeat split; try assumption.
      intros F. apply Hg1. apply Nat.eqb_eq in F. apply Nat.eqb_eq. lia.
    + apply IH2 in H; [|exact Ha].
      destruct H as (c1 & g1 & Ha1 & E' & Hg1).
      exists c1, g1. repeat split; try assumption.
      intros F. apply Hg1. apply Nat.eqb_eq in F. apply Nat.eqb_eq. lia.
  - eapply rounds_pass_on; [|exact Ha|exact H].
    intros c0 g0 k' y Ha0 Hy. eapply IH1; eassumption.
  - apply IH1 in H; [|exact Ha]. destruct H as (c1 & g1 & Ha1 & H & _).
    eexists; eexists. split; [exact Ha1|]. split; [exact H|].
    discriminate.
  - destruct (Re.run ic r1 c g (fun _ g' => Some g')) as [g1|] eqn:E;
      [|discriminate].
    apply IH1 in E; [|exact Ha]. destruct E as (c1 & g1' & _ & E & Hg1).
    injection E as ->.
    exists c, g1. repeat split; assumption.
  - destruct (Re.at_boundary c); [|discriminate]. exists c, g. auto.
  - destruct (Re.pos c =? 0); [|discriminate]. exists c, g. auto.
  - destruct (Re.at_end c); [|discriminate]. exists c, g. auto.
Qed.

End MatcherResults.

(** ** The graduation year *)

Section YearResults.

Context {U : Unicode}.

(** A match object records where the matcher stopped. *)
Lemma match_here_after (s : text) (ic : bool) (r : Re.regex) (c : Re.cursor)
      (m : Re.rmatch) :
  aligned s c -> Re.match_here ic r c = Some m ->
  aligned s (Re.m_after m) /\ Re.pos (Re.m_after m) = Re.m_end m.
Proof.
  unfold Re.match_here. intros Ha H.
  eapply run_passes_on in H; [|exact Ha].
  destruct H as (c' & g' & Ha' & E & _). injection E as <-. auto.
Qed.

(** What holds of every match the matcher can return at a cursor of the
    subject holds of every match of [finditer]. *)
Lemma scan_matches (s : text) (ic : bool) (r : Re.regex)
      (P : Re.rmatch -> Prop) :
  (forall c m, aligned s c -> Re.match_here ic r c = Some m -> P m) ->
  forall rs p pv m,
    aligned s {| Re.pos := p; Re.prev := pv; Re.rest := rs |} ->
    Re.scan ic r p pv rs = Some m ->
    P m /\ aligned s (Re.m_after m) /\ Re.pos (Re.m_after m) = Re.m_end m.
Proof.
  intros HP. induction rs as [|a rs IH]; intros p pv m Ha H;
    cbn [Re.scan] in H.
  - destruct (Re.match_here ic r _) as [m'|] eqn:E; [|discriminate].
    injection H as <-.
    split; [eapply HP; eassumption | eapply match_here_after; eassumption].
  - destruct (Re.match_here ic r _) as [m'|] eqn:E.
    + injection H as <-.
      split; [eapply HP; eassumption | eapply match_here_after; eassumption].
    + eapply IH; [|exact H]. eapply aligned_step; exact Ha.
Qed.

Lemma finditer_matches (s : text) (ic : bool) (r : Re.regex)
      (P : Re.rmatch -> Prop) :
  (forall c m, aligned s c -> Re.match_here ic r c = Some m -> P m) ->
  Forall P (Re.finditer ic r s).
Proof.
  intros HP. unfold Re.finditer.
  generalize (aligned_start s). generalize (Re.start_of s) as c.
  induction (S (List.length s)) as [|fuel IH]; intros c Ha; cbn [Re.iter_from];
    [constructor|].
  unfold Re.scan_from.
  destruct (Re.scan ic r (Re.pos c) (Re.prev c) (Re.rest c)) as [m|] eqn:E;
    [|constructor].
  eapply (@scan_matches s ic r P HP) in E; [|destruct c; exact Ha].
  destruct E as (Hm & Ha' & Hp).
  constructor; [exact Hm|].
  destruct (Re.m_end m =? Re.m_start m).
  - destruct (Re.rest (Re.m_after m)) as [|a t] eqn:Er; [constructor|].
    apply IH. rewrite <- Hp.
    apply (@aligned_step s _ None (Some a) a t).
    unfold aligned in *; simpl. rewrite <- Er. exact Ha'.
  - apply IH, Ha'.
Qed.

(** The year pattern: a word boundary, the group [(19|20)], and a tail
    with no group. *)
Definition year_head (tail : Re.regex) : Re.regex :=
  Re.RSeq Re.RBound
    (Re.RSeq
       (Re.RGroup 1
          (Re.RAlt (Re.RSeq (Re.RLit 49%N) (Re.RLit 57%N))
                   (Re.RSeq (Re.RLit 50%N) (Re.RLit 48%N))))
       tail).

Definition year_tail : Re.regex :=
  Re.RSeq (Re.RRep 2 (Some 2) true (Re.RIn false [Re.IDigit])) Re.RBound.

Lemma year_pattern_shape : pattern year_pattern = year_head year_tail.
Proof. vm_compute. reflexivity. Qed.

(** Group 1 of a match of such a pattern is the century, "19" or "20":
    what the tail matches is outside the group. *)
Lemma year_head_group (s : text) (tail : Re.regex) (c : Re.cursor)
      (m : Re.rmatch) :
  Re.groups tail = 0 -> aligned s c ->
  Re.match_here false (year_head tail) c = Some m ->
  Re.group s m 1 = Some (py "19") \/ Re.group s m 1 = Some (py "20").
Proof.
  unfold Re.match_here, year_head.
  intros HT Ha H. cbn [Re.run] in H.
  destruct (Re.at_boundary c); [|discriminate].
  destruct c as [p pv rs]. unfold aligned in Ha. simpl in Ha.
  assert (Hg : forall c' x,
             Re.run false tail c' [(1, (p, S (S p)))]
                    (fun c2 g =>
                       Some {| Re.m_start := p; Re.m_end := Re.pos c2;
                               Re.m_caps := g; Re.m_after := c2 |}) = Some x ->
             aligned s c' ->
             Re.group s x 1 = Some (firstn 2 rs)).
  { intros c' x Hx Hc'. eapply run_passes_on in Hx; [|exact Hc'].
    destruct Hx as (c2 & g2 & _ & E & Hkeep). injection E as <-.
    rewrite Hkeep by (rewrite HT; reflexivity). unfold Re.group; simpl.
    unfold slice. replace (S (S p) - p) with 2 by lia.
    rewrite <- Ha. reflexivity. }
  unfold Re.eat, Re.lit_eq in H; cbn [Re.rest Re.pos Re.prev] in H.
  destruct rs as [|a [|b t]].
  - discriminate.
  - destruct (a =? 49)%N, (a =? 50)%N; discriminate.
  - assert (Ha2 : aligned s {| Re.pos := S (S p); Re.prev := Some b;
                               Re.rest := t |}).
    { apply (@aligned_step s _ (Some a) (Some b) b t).
      apply (@aligned_step s _ pv (Some a) a (b :: t)).
      unfold aligned; simpl. exact Ha. }
    destruct (a =? 49)%N eqn:E1.
    + destruct (b =? 57)%N eqn:E2.
      * apply N.eqb_eq in E1, E2. subst a b.
        destruct (Re.run false tail _ _ _) as [y|] eqn:Ey.
        -- injection H as <-. left. apply (Hg _ _ Ey Ha2).
        -- discriminate H.
      * destruct (a =? 50)%N eqn:E3; [|discriminate].
        apply N.eqb_eq in E1, E3. congruence.
    + destruct (a =? 50)%N eqn:E3; [|discriminate].
      destruct (b =? 48)%N eqn:E4; [|discriminate].
      apply N.eqb_eq in E3, E4. subst a b.
      right. apply (Hg _ _ H Ha2).
Qed.

Lemma year_group (s : text) (c : Re.cursor) (m : Re.rmatch) :
  aligned s c -> Re.match_here false (pattern year_pattern) c = Some m ->
  Re.group s m 1 = Some (py "19") \/ Re.group s m 1 = Some (py "20").
Proof.
  rewrite year_pattern_shape. apply year_head_group. reflexivity.
Qed.

(** The year is never found: [findall] returns what the group matched, so
    every "year" read is 19 or 20, and none is in the valid range. *)
Lemma find_year_none (current_year : Z) (context : text) :
  find_year current_year context = None.
Proof.
  unfold find_year, Re.findall.
  pose proof (@finditer_matches context false (pattern year_pattern)
                (fun m => Re.group context m 1 = Some (py "19")
                          \/ Re.group context m 1 = Some (py "20"))
                (@year_group context)) as HF.
  replace (Re.groups (pattern year_pattern)) with 1
    by (vm_compute; reflexivity).
  induction HF as [|m ms Hm _ IH]; [reflexivity|].
  cbn [map] in *.
  destruct (map _ ms) as [|y ys].
  - destruct Hm as [-> | ->]; reflexivity.
  - cbn [map filter] in *.
    assert (E : forall t, Re.group context m 1 = Some t ->
                          t = py "19" \/ t = py "20").
    { intros t Ht. rewrite Ht in Hm. destruct Hm as [Hm|Hm];
        injection Hm as ->; auto. }
    destruct (Re.group context m 1) as [t|]; [|exact IH].
    destruct (E t eq_refl) as [-> | ->]; exact IH.
Qed.

(** So what [extract_education] returns does not depend on the current
    year, and no entry has a year. *)
Lemma education_entry_any_year (y1 y2 : Z) (edu_text : text) (m : Re.rmatch) :
  education_entry y1 edu_text m = education_entry y2 edu_text m.
Proof.
  unfold education_entry. rewrite !find_year_none. reflexivity.
Qed.

Lemma extract_education_any_year (y1 y2 : Z) (t : text) :
  extract_education y1 t = extract_education y2 t.
Proof.
  unfold extract_education, education_matches. f_equal.
  apply flat_map_ext. intros p. apply map_ext. intros m.
  apply education_entry_any_year.
Qed.

Lemma education_year_none (current_year : Z) (t : text) (e : EducationEntry) :
  In e (extract_education current_year t) -> year e = None.
Proof.
  intros H.
  apply extract_education_sub in H.
  unfold education_matches in H. apply in_flat_map in H.
  destruct H as (p & _ & H). apply in_map_iff in H.
  destruct H as (m & <- & _). apply find_year_none.
Qed.

End YearResults.

(** The worked example of the specification. *)
Definition worked_example : text :=
  unlines ["Jane Doe"; "jane.doe@email.com"; "(555) 123-4567"; "";
           "EXPERIENCE"; "Senior Software Engineer at Acme Corp";
           "Jan 2020 - Present"; "• Built scalable services"; "";
           "EDUCATION";
           "Bachelor of Science in Computer Science, State University, 2015";
           "GPA: 3.8"]%string.

(** C1, on the code.  Whatever the current year, the education extractor
    returns one entry for the worked example, with the degree, the
    institution and the GPA, and with no year, although the text around
    the degree holds the year 2015. *)
Theorem worked_example_year_missing (current_year : Z) :
  @extract_education Ascii7.tables current_year worked_example
  = [ {| degree := py "Bachelor of Science in Computer Science";
         institution := Some (py "State University");
         year := None;
         gpa := Some (py "3.8") |} ]
  /\ contains (py "2015")
              (@education_text Ascii7.tables worked_example) = true.
Proof.
  split; [|vm_compute; reflexivity].
  rewrite (@extract_education_any_year Ascii7.tables current_year 2026).
  vm_compute. reflexivity.
Qed.

(** ** The description of an experience entry *)

Section DescriptionResults.

Context {U : Unicode}.

(** The bullet-marked lines among the lines of an entry. *)
Definition bullet_lines (lines : list text) : list text :=
  filter (fun l => nonempty (strip l) && is_bullet (strip l)) lines.

Lemma describe_step_length (description : list text) (line : text) :
  List.length (describe_step description line)
  <= if nonempty (strip line) && is_bullet (strip line)
     then S (List.length description)
     else Nat.max (List.length description) 5.
Proof.
  unfold describe_step.
  destruct (nonempty (strip line) && is_bullet (strip line)).
  - destruct (nonempty _); [rewrite length_app; simpl|]; lia.
  - destruct (nonempty (strip line) && (List.length description <? 5)) eqn:E.
    + apply andb_true_iff in E. destruct E as [_ E]. apply Nat.ltb_lt in E.
      rewrite length_app; simpl. lia.
    + lia.
Qed.

(** Lines that are not bullets take the description up to 5 items at
    most; every bullet line can add one more. *)
Lemma describe_loop_length (lines : list text) (description : list text) :
  List.length (fold_left describe_step lines description)
  <= Nat.max (List.length description) 5 + List.length (bullet_lines lines).
Proof.
  revert description; induction lines as [|line lines IH]; intros description;
    simpl; [lia|].
  specialize (IH (describe_step description line)).
  pose proof (describe_step_length description line) as H.
  destruct (nonempty (strip line) && is_bullet (strip line)); simpl; lia.
Qed.

(** A line that is not bullet-marked is not added once 5 items are
    gathered, and a bullet-marked line is added whatever their number. *)
Lemma describe_step_plain (description : list text) (line : text) :
  nonempty (strip line) && is_bullet (strip line) = false ->
  5 <= List.length description ->
  describe_step description line = description.
Proof.
  intros Hb Hl. unfold describe_step. rewrite Hb.
  replace (List.length description <? 5) with false
    by (symmetry; apply Nat.ltb_ge; exact Hl).
  rewrite andb_false_r. reflexivity.
Qed.

Lemma describe_step_bullet (description : list text) (line : text) :
  nonempty (strip line) && is_bullet (strip line) = true ->
  let desc :=
    strip (Re.remove false (pattern bullet_prefix_pattern) (strip line)) in
  describe_step description line
  = if nonempty desc then description ++ [desc] else description.
Proof.
  intros Hb. unfold describe_step. rewrite Hb. reflexivity.
Qed.

(** C6, as amended.  Every experience entry the extractor returns is built
    from one piece of the split of the experience text; its description
    is gathered from the lines of the piece after the first, and has at
    most 5 items more than there are bullet-marked lines among them: at
    most 5 items when there is none, and no bound that holds for every
    entry. *)
Theorem description_bound (t : text) (e : ExperienceEntry) :
  In e (extract_experience t) ->
  exists job_text,
    let lines := tl (split_on NL (strip job_text)) in
    In job_text (job_splits t)
    /\ e = experience_entry job_text
    /\ description e = describe lines
    /\ List.length (description e) <= 5 + List.length (bullet_lines lines)
    /\ (bullet_lines lines = [] -> List.length (description e) <= 5).
Proof.
  unfold extract_experience. destruct (nonempty (experience_text t));
    [|intros []].
  intros H. apply filter_In in H. destruct H as [H _].
  apply in_map_iff in H. destruct H as (job_text & <- & H).
  apply filter_In in H. destruct H as [H _].
  exists job_text. cbv zeta.
  split; [exact H | split; [reflexivity | split; [reflexivity|]]].
  unfold experience_entry; cbn [description]. unfold describe.
  pose proof (describe_loop_length (tl (split_on NL (strip job_text))) [])
    as B.
  simpl in B. split; [exact B|].
  intros E. rewrite E in B. simpl in B. lia.
Qed.

End DescriptionResults.

(** An experience section with one job and six bullet lines. *)
Definition six_bullets : text :=
  unlines ["EXPERIENCE"; "Software Engineer at Acme Corp";
           "- one"; "- two"; "- three"; "- four"; "- five"; "- six"]%string.

Lemma describe_bullets (n : nat) (description : list text) :
  List.length (fold_left (@describe_step Ascii7.tables)
                         (repeat (py "- x") n) description)
  = List.length description + n.
Proof.
  revert description; induction n as [|n IH]; intros description; simpl;
    [lia|].
  rewrite IH.
  assert (E : @describe_step Ascii7.tables description (py "- x")
              = description ++ [py "x"]).
  { unfold describe_step.
    replace (@strip Ascii7.tables (py "- x")) with (py "- x")
      by (vm_compute; reflexivity).
    replace (nonempty (py "- x") && @is_bullet Ascii7.tables (py "- x"))
      with true by (vm_compute; reflexivity).
    replace (@strip Ascii7.tables
               (@Re.remove Ascii7.tables false (pattern bullet_prefix_pattern)
                           (py "- x")))
      with (py "x") by (vm_compute; reflexivity).
    reflexivity. }
  rewrite E, length_app. simpl. lia.
Qed.

(** C6, as stated, fails: the entry of a job with six bullet lines has a
    description of six items, and the loop that gathers the description
    exceeds every bound. *)
Lemma description_not_capped :
  map description (@extract_experience Ascii7.tables six_bullets)
  = [ texts ["one"; "two"; "three"; "four"; "five"; "six"]%string ]
  /\ forall bound, exists lines,
       bound < List.length (@describe Ascii7.tables lines).
Proof.
  split; [vm_compute; reflexivity|].
  intros bound. exists (repeat (py "- x") (S bound)).
  unfold describe. rewrite describe_bullets. simpl. lia.
Qed.

(** ** The technologies of a project *)

Section TechnologyResults.

Context {U : Unicode}.

Lemma technologies_of_sub (line skill : text) :
  In skill (technologies_of line) ->
  In skill all_skills
  /\ contains (str_lower skill) (str_lower line) = true.
Proof.
  unfold technologies_of. intros H. apply filter_In in H. exact H.
Qed.

(** Every technology gathered by the loop comes from a line that mentions
    technologies, or was there before. *)
Lemma project_loop_technologies (lines : list text)
      (st : list text * list text) (skill : text) :
  In skill (snd (fold_left project_step lines st)) ->
  In skill (snd st)
  \/ exists line,
       In line lines
       /\ mentions_technologies (strip line) = true
       /\ In skill (technologies_of (strip line)).
Proof.
  revert st; induction lines as [|line lines IH]; intros st H; simpl in *;
    [left; exact H|].
  apply IH in H. destruct H as [H | (l & Hl & Hm & Hs)].
  - unfold project_step in H.
    destruct (nonempty (strip line)); [|left; exact H].
    destruct (mentions_technologies (strip line)) eqn:Em;
      simpl in H; [|left; exact H].
    apply in_app_iff in H. destruct H as [H|H]; [left; exact H|].
    right. exists line. auto.
  - right. exists l. auto.
Qed.

(** C7, as amended.  Every project entry the extractor returns is built
    from one piece of the split of the projects block, and every element
    of its technologies is a skill name as the taxonomy stores it, found
    (lower-cased, as a substring) in the lower-cased text of a line of the
    piece after the first that contains a tech-stack marker. *)
Theorem technologies_from_marked_lines (t : text) (p : ProjectEntry)
        (skill : text) :
  In p (extract_projects t) -> In skill (technologies p) ->
  In skill all_skills
  /\ exists proj line,
       In proj (project_entries t)
       /\ p = project_entry proj
       /\ In line (tl (split_on NL (strip proj)))
       /\ mentions_technologies (strip line) = true
       /\ contains (str_lower skill) (str_lower (strip line)) = true.
Proof.
  unfold extract_projects.
  destruct (nonempty (section_or_empty _ _)); [|intros []].
  intros H Hs. apply filter_In in H. destruct H as [H _].
  apply in_map_iff in H. destruct H as (proj & <- & H).
  apply filter_In in H. destruct H as [H _].
  unfold project_entry in Hs; cbn [technologies] in Hs.
  apply project_loop_technologies in Hs.
  destruct Hs as [[] | (line & Hl & Hm & Hs)].
  apply technologies_of_sub in Hs. destruct Hs as [Hin Hc].
  split; [exact Hin|].
  exists proj, line. auto 6.
Qed.

End TechnologyResults.

(** A projects section whose second line mentions a tech stack in the
    middle of the line. *)
Definition ride_sharing : text :=
  unlines ["PROJECTS"; "Ride Sharing App";
           "Built the client using: Swift, Kotlin"]%string.

(** C7, as stated, fails: the technologies of this project are taxonomy
    entries in lower case, not the display forms "Swift" and "Kotlin";
    two of them occur twice; and the line they come from does not start
    with a marker. *)
Lemma technologies_not_canonical :
  let projects := @extract_projects Ascii7.tables ride_sharing in
  let found := texts ["kotlin"; "swift"; "swift"; "kotlin"]%string in
  projects = [ {| name := py "Ride Sharing App";
                  proj_description := [];
                  technologies := found |} ]
  /\ ~ NoDup found
  /\ @canonical Ascii7.tables (py "swift") = py "Swift"
  /\ ~ In (py "Swift") found
  /\ existsb (fun marker =>
                startswith marker
                  (@str_lower Ascii7.tables
                     (py "Built the client using: Swift, Kotlin")))
             tech_markers = false.
Proof.
  cbv zeta. split; [vm_compute; reflexivity|].
  split.
  - intros H. inversion H as [|? ? Hn _]; subst. apply Hn.
    right; right; left; reflexivity.
  - split; [vm_compute; reflexivity|].
    split; [|vm_compute; reflexivity].
    vm_compute. intros [H|[H|[H|[H|[]]]]]; discriminate.
Qed.

(** ** The theorems at concrete inputs *)

(** The theorem on the scorer, at a parse result with a name, no email,
    no phone, five jobs, and neither education nor skills. *)
Definition five_jobs : list (text * pyval) :=
  [ (py "contact", VDict [ (py "name", VStr (py "Jane Doe"));
                           (py "email", VNone) ]);
    (py "experience",
      VList [VDict []; VDict []; VDict []; VDict []; VDict []]) ].

Lemma calculate_score_bounds_witness :
  well_shaped five_jobs = true
  /\ exists overall,
       calculate_score true (VDict five_jobs)
       = Ok (VDict [ (py "contact_info", VFloat (contact_score 1));
                     (py "experience", VInt 100);
                     (py "education", VInt 0);
                     (py "skills", VInt 0);
                     (py "overall", VFloat overall) ])
       /\ within_0_100 overall = true.
Proof.
  split; [reflexivity|].
  destruct (calculate_score_bounds true five_jobs eq_refl)
    as (n & c & e & d & s & o & H & _ & _ & _ & _ & _ & _ & Ho & _).
  exists o. split; [|exact Ho].
  rewrite H. vm_compute in H. injection H as <- <- <- <- _.
  reflexivity.
Defined.

(** The theorem on duplicates, at a text in which the same degree is
    matched twice. *)
Definition same_degree_twice : text :=
  unlines ["EDUCATION"; "BA in Arts, 2001; BA in Arts, 2005"]%string.

Definition ba_in_arts : EducationEntry :=
  {| degree := py "BA in Arts"; institution := None; year := None;
     gpa := None |}.

Lemma education_keys_unique_witness :
  @education_matches Ascii7.tables 2026 same_degree_twice
  = [ba_in_arts; ba_in_arts]
  /\ @extract_education Ascii7.tables 2026 same_degree_twice = [ba_in_arts]
  /\ List.length
       (filter (fun e' => key_eqb (edu_key e') (edu_key ba_in_arts))
               (@extract_education Ascii7.tables 2026 same_degree_twice)) = 1.
Proof.
  split; [vm_compute; reflexivity|].
  split; [vm_compute; reflexivity|].
  apply (proj1 (proj2 (@education_keys_unique Ascii7.tables 2026
                                               same_degree_twice))).
  vm_compute. left; reflexivity.
Defined.

(** The theorem on skills, at a text with three skills, for the
    enumeration of the set in the reverse order. *)
Definition three_skills : text :=
  py "Python and SQL on AWS, python again".

Lemma skills_any_order_witness :
  @found_skills Ascii7.tables three_skills
  = texts ["Python"; "SQL"; "AWS"]%string
  /\ Permutation (rev (@found_skills Ascii7.tables three_skills))
                 (@found_skills Ascii7.tables three_skills)
  /\ sorted (rev (@found_skills Ascii7.tables three_skills))
     = @extract_skills Ascii7.tables three_skills
  /\ @extract_skills Ascii7.tables three_skills
     = texts ["AWS"; "Python"; "SQL"]%string.
Proof.
  split; [vm_compute; reflexivity|].
  split; [apply Permutation_sym, Permutation_rev|].
  split; [|vm_compute; reflexivity].
  apply (proj1 (@skills_any_order Ascii7.tables three_skills)).
  apply Permutation_sym, Permutation_rev.
Defined.

(** The amended theorem on descriptions, at the job with six bullets. *)
Definition six_bullets_entry : ExperienceEntry :=
  {| position := Some (py "Software Engineer at Acme Corp");
     company := Some (py "Acme Corp");
     duration := None;
     location := None;
     description := texts ["one"; "two"; "three"; "four"; "five"; "six"]%string
  |}.

Lemma description_bound_witness :
  In six_bullets_entry (@extract_experience Ascii7.tables six_bullets)
  /\ exists job_text,
       let lines := tl (split_on NL (@strip Ascii7.tables job_text)) in
       In job_text (@job_splits Ascii7.tables six_bullets)
       /\ six_bullets_entry = @experience_entry Ascii7.tables job_text
       /\ description six_bullets_entry = @describe Ascii7.tables lines
       /\ List.length (description six_bullets_entry)
          <= 5 + List.length (@bullet_lines Ascii7.tables lines)
       /\ (@bullet_lines Ascii7.tables lines = [] ->
           List.length (description six_bullets_entry) <= 5).
Proof.
  assert (H : In six_bullets_entry
                 (@extract_experience Ascii7.tables six_bullets))
    by (vm_compute; left; reflexivity).
  split; [exact H|].
  exact (@description_bound Ascii7.tables six_bullets six_bullets_entry H).
Defined.

(** The amended theorem on technologies, at the ride-sharing project. *)
Definition ride_sharing_entry : ProjectEntry :=
  {| name := py "Ride Sharing App";
     proj_description := [];
     technologies := texts ["kotlin"; "swift"; "swift"; "kotlin"]%string |}.

Lemma technologies_from_marked_lines_witness :
  In ride_sharing_entry (@extract_projects Ascii7.tables ride_sharing)
  /\ In (py "swift") (technologies ride_sharing_entry)
  /\ In (py "swift") all_skills
  /\ exists proj line,
       In proj (@project_entries Ascii7.tables ride_sharing)
       /\ ride_sharing_entry = @project_entry Ascii7.tables proj
       /\ In line (tl (split_on NL (@strip Ascii7.tables proj)))
       /\ @mentions_technologies Ascii7.tables (@strip Ascii7.tables line)
          = true
       /\ contains (@str_lower Ascii7.tables (py "swift"))
                   (@str_lower Ascii7.tables (@strip Ascii7.tables line))
          = true.
Proof.
  assert (H : In ride_sharing_entry
                 (@extract_projects Ascii7.tables ride_sharing))
    by (vm_compute; left; reflexivity).
  assert (Hs : In (py "swift") (technologies ride_sharing_entry))
    by (vm_compute; right; left; reflexivity).
  split; [exact H | split; [exact Hs|]].
  exact (@technologies_from_marked_lines Ascii7.tables ride_sharing
           ride_sharing_entry (py "swift") H Hs).
Defined.

(** The theorem on saving, at the parse of a text file without a name
    line, on a disk that takes every file. *)
Definition notes_only : Readers :=
  {| read_pdf := fun _ => Raise (OSError (py "No such file or directory"));
     read_docx := fun _ => Raise (OSError (py "No such file or directory"));
     read_txt := fun _ => Ok (py "hello world") |}.

Definition noon : Clock :=
  {| now_year := 2026; now_isoformat := py "2026-11-03T12:00:00" |}.

Definition nameless_result : pyval :=
  @parse Ascii7.tables notes_only noon true (py "notes.txt").

Definition nameless_contact : list (text * pyval) :=
  [ (py "name", VNone); (py "email", VNone); (py "phone", VNone);
    (py "linkedin", VNone); (py "github", VNone); (py "website", VNone) ].

Definition disk := list (text * pyval).

Definition disk_makedirs (dir : text) (w : disk) : result disk := Ok w.

Definition disk_timestamp (w : disk) : text := py "20261103_120000".

Definition disk_join (dir file : text) : text := dir ++ py "/" ++ file.

Definition disk_write (path : text) (v : pyval) (w : disk) : result disk :=
  Ok ((path, v) :: w).

Lemma save_null_name_raises_witness :
  has_key nameless_result (py "error") = false
  /\ item_of nameless_result (py "contact") = Some (VDict nameless_contact)
  /\ dict_get nameless_contact (py "name") = Some VNone
  /\ save_parsed_resume disk_makedirs disk_timestamp disk_join disk_write
                        nameless_result (py "output") []
     = Raise (AttributeError
                (py "'NoneType' object has no attribute 'replace'"))
  /\ exists e,
       @parse_single_resume disk disk_makedirs disk_timestamp disk_join
                            disk_write Ascii7.tables notes_only noon true
                            (py "notes.txt") [] = Raise e.
Proof.
  assert (Hc : item_of nameless_result (py "contact")
               = Some (VDict nameless_contact))
    by (vm_compute; reflexivity).
  assert (Hn : dict_get nameless_contact (py "name") = Some VNone)
    by reflexivity.
  split; [vm_compute; reflexivity|].
  split; [exact Hc | split; [exact Hn|]].
  destruct (proj1 (@save_null_name_raises disk disk_makedirs disk_timestamp
                     disk_join disk_write nameless_result nameless_contact
                     (py "output") [] Hc) Hn) as (_ & H2 & H3).
  split.
  - apply (H2 []). reflexivity.
  - apply (H3 Ascii7.tables notes_only noon true (py "notes.txt")).
    reflexivity.
Defined.

(** ** The patterns of the program *)

(** Every pattern the program compiles, the ones it builds from a keyword
    or a skill included. *)
Definition all_patterns : list text :=
  [ year_pattern; date_pattern; gpa_pattern; experience_carve_out;
    job_split_pattern; company_pattern; duration_pattern; location_pattern;
    numbered_pattern; bullet_prefix_pattern; project_split_pattern;
    certifications_carve_out; email_pattern; linkedin_pattern;
    github_pattern; url_pattern; level_dates_pattern; py "\D" ]
  ++ degree_patterns ++ phone_patterns
  ++ map inst_regex inst_patterns
  ++ map position_regex position_keywords
  ++ map (@skill_pattern Ascii7.tables) all_skills.

Lemma patterns_compile :
  forallb (fun p => match Re.compile p with Some _ => true | None => false end)
          all_patterns = true.
Proof. vm_compute. reflexivity. Qed.

(* ================================================================== *)
(** * Further properties of the extraction pipeline *)
(* ================================================================== *)

(** ** What the section map holds *)

Lemma join_split (t : text) : join [NL] (split_on NL t) = t.
Proof.
  induction t as [|c r IH]; [reflexivity|].
  cbn [split_on]. destruct (c =? NL)%N eqn:E.
  - apply N.eqb_eq in E. subst c.
    pose proof (split_on_nonempty NL r) as Hne.
    destruct (split_on NL r) as [|h tl]; [congruence|].
    change (join [NL] ([] :: h :: tl)) with (NL :: join [NL] (h :: tl)).
    rewrite IH. reflexivity.
  - pose proof (split_on_nonempty NL r) as Hne.
    destruct (split_on NL r) as [|h tl]; [congruence|].
    destruct tl as [|h2 tl].
    + simpl in *. rewrite IH. reflexivity.
    + change (join [NL] ((c :: h) :: h2 :: tl))
        with (c :: join [NL] (h :: h2 :: tl)).
      rewrite IH. reflexivity.
Qed.

Lemma dict_set_keys (V : Type) (d : dict V) (k : text) (v : V) :
  forall k', In k' (dict_keys (dict_set d k v)) <-> In k' (dict_keys d) \/ k' = k.
Proof.
  induction d as [|[k0 v0] d IH]; intros k'; simpl.
  - split; [intros [<-|[]]; auto | intros [[] | ->]; auto].
  - destruct (text_eqb k0 k) eqn:E; simpl.
    + apply text_eqb_spec in E. subst k0. split; [tauto|].
      intros [H | ->]; auto.
    + rewrite IH. tauto.
Qed.

Lemma dict_set_nodup (V : Type) (d : dict V) (k : text) (v : V) :
  NoDup (dict_keys d) -> NoDup (dict_keys (dict_set d k v)).
Proof.
  induction d as [|[k0 v0] d IH]; simpl; intros H.
  - repeat constructor. intros [].
  - inversion H as [|? ? Hn Hd]; subst.
    destruct (text_eqb k0 k) eqn:E; simpl.
    + constructor; assumption.
    + constructor; [|apply IH; assumption].
      intros F. apply dict_set_keys in F. destruct F as [F | ->].
      * apply Hn, F.
      * rewrite text_eqb_refl in E. discriminate.
Qed.

Lemma dict_set_values (V : Type) (d : dict V) (k : text) (v : V) :
  forall kv, In kv (dict_set d k v) -> In kv d \/ kv = (k, v).
Proof.
  induction d as [|[k0 v0] d IH]; intros kv; simpl.
  - intros [<-|[]]; auto.
  - destruct (text_eqb k0 k) eqn:E; simpl.
    + apply text_eqb_spec in E. subst k0. intros [<-|H]; auto.
    + intros [<-|H]; [auto|]. apply IH in H. tauto.
Qed.

Section SectionMapResults.

Context {U : Unicode}.

Lemma header_of_known (line section_name : text) :
  header_of line = Some section_name ->
  In section_name (dict_keys section_headers).
Proof.
  unfold header_of. destruct (find _ section_headers) as [sk|] eqn:E;
    [|discriminate].
  intros H; injection H as <-. apply find_some in E. destruct E as [E _].
  apply in_map. exact E.
Qed.

Lemma saved_runs_labels (lines : list text) (cur : text) (acc : list text) :
  forall r, In r (saved_runs cur acc lines) ->
            fst r = cur \/ In (fst r) (dict_keys section_headers).
Proof.
  revert cur acc; induction lines as [|line rest IH]; intros cur acc r H;
    simpl in H.
  - destruct acc; [destruct H | destruct H as [<-|[]]; left; reflexivity].
  - destruct (header_of line) as [section_name|] eqn:E.
    + apply in_app_iff in H. destruct H as [H|H].
      * destruct acc; [destruct H | destruct H as [<-|[]]; left; reflexivity].
      * apply IH in H. right. destruct H as [-> | H]; [|exact H].
        eapply header_of_known; exact E.
    + eapply IH; exact H.
Qed.

Lemma save_runs_keys (runs : list (text * list text)) (d : dict text) :
  NoDup (dict_keys d) ->
  NoDup (dict_keys (fold_left save_run runs d))
  /\ (forall k, In k (dict_keys (fold_left save_run runs d)) ->
                In k (dict_keys d) \/ In k (map fst runs))
  /\ (forall kv, In kv (fold_left save_run runs d) ->
                 In kv d
                 \/ exists r, In r runs /\ snd kv = join [NL] (snd r)).
Proof.
  revert d; induction runs as [|r runs IH]; intros d Hd; simpl.
  - repeat split; auto.
  - destruct (IH (save_run d r) (dict_set_nodup _ _ _ Hd)) as (H1 & H2 & H3).
    split; [exact H1 | split].
    + intros k Hk. apply H2 in Hk. destruct Hk as [Hk|Hk]; [|auto].
      apply dict_set_keys in Hk. destruct Hk as [Hk | ->]; auto.
    + intros kv Hkv. apply H3 in Hkv.
      destruct Hkv as [Hkv | (r' & Hr' & E)].
      * apply dict_set_values in Hkv. destruct Hkv as [Hkv | ->]; [auto|].
        right. exists r. auto.
      * right. exists r'. auto.
Qed.

(** X1. For every text: the labels of the section map differ pairwise, each is
    'header' or one of the six section names, and every line of every
    block is a line of the text that is no section header, so that a
    header line is in no block and no block holds a line the text does
    not have. *)
Theorem section_map_sound (t : text) :
  NoDup (dict_keys (extract_sections t))
  /\ (forall k, In k (dict_keys (extract_sections t)) ->
                k = py "header" \/ In k (dict_keys section_headers))
  /\ (forall l, In l (block_lines (extract_sections t)) ->
                In l (split_on NL t) /\ header_of l = None).
Proof.
  unfold extract_sections. rewrite segment_as_runs. simpl.
  destruct (@save_runs_keys (saved_runs (py "header") [] (split_on NL t))
                            [] (NoDup_nil _)) as (H1 & H2 & H3).
  split; [exact H1 | split].
  - intros k Hk. apply H2 in Hk. destruct Hk as [[]|Hk].
    apply in_map_iff in Hk. destruct Hk as (r & <- & Hr).
    apply saved_runs_labels in Hr. exact Hr.
  - intros l Hl. unfold block_lines in Hl. apply in_flat_map in Hl.
    destruct Hl as (kv & Hkv & Hl). apply H3 in Hkv.
    destruct Hkv as [[] | (r & Hr & E)]. rewrite E in Hl.
    assert (Hc : Forall (fun r : text * list text =>
                           snd r <> [] /\ Forall (fun l => ~ In NL l) (snd r))
                        (saved_runs (py "header") [] (split_on NL t))).
    { apply saved_runs_clean; [constructor | apply split_on_clean]. }
    rewrite Forall_forall in Hc. destruct (Hc r Hr) as [Hne Hcl].
    rewrite split_join in Hl by assumption.
    assert (Hin : In l (List.concat
                          (map snd (saved_runs (py "header") []
                                               (split_on NL t))))).
    { apply in_concat. exists (snd r). split; [apply in_map; exact Hr|exact Hl]. }
    rewrite saved_runs_content in Hin. simpl in Hin.
    apply filter_In in Hin. destruct Hin as [Hin Ht].
    split; [exact Hin|]. unfold is_trigger in Ht.
    destruct (header_of l); [discriminate | reflexivity].
Qed.

Lemma saved_runs_no_header (lines : list text) (cur : text) (acc : list text) :
  forallb (fun l => negb (is_trigger l)) lines = true ->
  saved_runs cur acc lines = run_of cur (acc ++ lines).
Proof.
  revert acc; induction lines as [|line rest IH]; intros acc H; simpl.
  - rewrite app_nil_r. reflexivity.
  - simpl in H. apply andb_true_iff in H. destruct H as [Hl Hr].
    unfold is_trigger in Hl. destruct (header_of line); [discriminate|].
    rewrite IH by exact Hr. rewrite <- app_assoc. reflexivity.
Qed.

(** X3. A text none of whose lines is a section header is kept whole, as the
    block of the 'header' section. *)
Theorem headerless_text_kept (t : text) :
  forallb (fun l => negb (is_trigger l)) (split_on NL t) = true ->
  extract_sections t = [(py "header", t)].
Proof.
  intros H. unfold extract_sections. rewrite segment_as_runs. simpl.
  rewrite saved_runs_no_header by exact H. simpl.
  pose proof (split_on_nonempty NL t) as Hne.
  pose proof (join_split t) as J.
  destruct (split_on NL t) as [|l ls]; [congruence|].
  cbn [run_of fold_left]. unfold save_run. cbn [dict_set fst snd].
  rewrite J. reflexivity.
Qed.

End SectionMapResults.

Lemma headerless_text_kept_witness :
  forallb (fun l => negb (@is_trigger Ascii7.tables l))
          (split_on NL (unlines ["Jane Doe"; ""; "Builds compilers"]%string))
  = true
  /\ @extract_sections Ascii7.tables
       (unlines ["Jane Doe"; ""; "Builds compilers"]%string)
     = [(py "header", unlines ["Jane Doe"; ""; "Builds compilers"]%string)].
Proof.
  split; [vm_compute; reflexivity|].
  apply (@headerless_text_kept Ascii7.tables). vm_compute. reflexivity.
Defined.

(** X2. When no section is saved twice, nothing is lost: the blocks of the
    section map hold exactly the lines of the text that are no section
    headers, each once and in the order of the text. *)
Theorem blocks_partition_the_text {U : Unicode} (t : text) :
  NoDup (map fst (saved_runs (py "header") [] (split_on NL t))) ->
  block_lines (extract_sections t) = content_lines t.
Proof.
  intros H. unfold extract_sections, content_lines.
  rewrite segment_as_runs. simpl.
  rewrite save_runs_fresh by exact H. simpl.
  pose proof (saved_runs_content (split_on NL t) (py "header") []) as R.
  rewrite app_nil_l in R. rewrite <- R. clear R.
  assert (Hc : Forall (fun r : text * list text =>
                         snd r <> [] /\ Forall (fun l => ~ In NL l) (snd r))
                      (saved_runs (py "header") [] (split_on NL t))).
  { apply saved_runs_clean; [constructor | apply split_on_clean]. }
  unfold block_lines. revert H Hc.
  generalize (saved_runs (py "header") [] (split_on NL t)) as runs.
  induction runs as [|r runs IH]; intros H Hc; simpl; [reflexivity|].
  inversion Hc as [|? ? [Hne Hr] Hrs]; subst.
  inversion H; subst.
  rewrite split_join by assumption. f_equal. apply IH; assumption.
Qed.

Lemma blocks_partition_the_text_witness :
  NoDup (map fst (@saved_runs Ascii7.tables (py "header") []
                              (split_on NL worked_example)))
  /\ @block_lines (@extract_sections Ascii7.tables worked_example)
     = @content_lines Ascii7.tables worked_example.
Proof.
  assert (H : NoDup (map fst (@saved_runs Ascii7.tables (py "header") []
                                          (split_on NL worked_example)))).
  { vm_compute. repeat constructor; simpl; intuition discriminate. }
  split; [exact H|]. apply (@blocks_partition_the_text Ascii7.tables).
  exact H.
Defined.

(** ** Which skills are returned *)


Section SkillMembership.

Context {U : Unicode}.




End SkillMembership.

(** ** The description items *)

Section DescriptionItems.

Context {U : Unicode}.

Lemma nonempty_spec (s : text) : nonempty s = true <-> s <> [].
Proof. destruct s; simpl; split; congruence. Qed.

Lemma describe_step_nonempty (description : list text) (line : text) :
  Forall (fun d => d <> []) description ->
  Forall (fun d => d <> []) (describe_step description line).
Proof.
  intros H. unfold describe_step.
  destruct (nonempty (strip line) && is_bullet (strip line)).
  - destruct (nonempty _) eqn:E; [|exact H].
    apply Forall_app. split; [exact H|]. repeat constructor.
    apply nonempty_spec, E.
  - destruct (nonempty (strip line)) eqn:E; simpl; [|exact H].
    destruct (List.length description <? 5); [|exact H].
    apply Forall_app. split; [exact H|]. repeat constructor.
    apply nonempty_spec, E.
Qed.

(** X6. No description item of an experience entry is the empty string: a
    bullet whose text after the marker is empty, and a blank line, add
    nothing. *)
Theorem description_items_nonempty (t : text) (e : ExperienceEntry)
        (d : text) :
  In e (extract_experience t) -> In d (description e) -> d <> [].
Proof.
  unfold extract_experience. destruct (nonempty (experience_text t));
    [|intros []].
  intros H. apply filter_In in H. destruct H as [H _].
  apply in_map_iff in H. destruct H as (job_text & <- & _).
  unfold experience_entry; cbn [description]. unfold describe.
  assert (G : forall lines acc,
             Forall (fun d => d <> []) acc ->
             Forall (fun d => d <> []) (fold_left describe_step lines acc)).
  { induction lines as [|l lines IH]; intros acc Ha; simpl; [exact Ha|].
    apply IH, describe_step_nonempty, Ha. }
  intros Hd. specialize (G (tl (split_on NL (strip job_text))) []
                           (Forall_nil _)).
  rewrite Forall_forall in G. apply G, Hd.
Qed.

(** An entry is kept only with a position or a company that is a
    non-empty string. *)
Lemma experience_entries_named (t : text) (e : ExperienceEntry) :
  In e (extract_experience t) ->
  truthy (position e) = true \/ truthy (company e) = true.
Proof.
  unfold extract_experience. destruct (nonempty (experience_text t));
    [|intros []].
  intros H. apply filter_In in H. destruct H as [_ H].
  apply orb_true_iff in H. exact H.
Qed.

End DescriptionItems.

Lemma description_items_nonempty_witness :
  In six_bullets_entry (@extract_experience Ascii7.tables six_bullets)
  /\ In (py "three") (description six_bullets_entry)
  /\ py "three" <> [].
Proof.
  assert (H : In six_bullets_entry
                 (@extract_experience Ascii7.tables six_bullets))
    by (vm_compute; left; reflexivity).
  assert (Hd : In (py "three") (description six_bullets_entry))
    by (vm_compute; right; right; left; reflexivity).
  split; [exact H | split; [exact Hd|]].
  exact (@description_items_nonempty Ascii7.tables six_bullets
           six_bullets_entry (py "three") H Hd).
Defined.

(** ** The contact fields *)

Section ContactResults.

Context {U : Unicode}.

Lemma first_phone_valid (pats : list text) (t p : text) :
  first_phone pats t = Some p ->
  valid_phone p = true
  /\ exists pat, In pat pats /\ In p (Re.findall false (pattern pat) t).
Proof.
  induction pats as [|pat pats IH]; simpl; [discriminate|].
  destruct (find valid_phone (Re.findall false (pattern pat) t)) as [q|] eqn:E.
  - intros H; injection H as <-. apply find_some in E. destruct E as [E1 E2].
    split; [exact E2|]. exists pat. auto.
  - intros H. apply IH in H. destruct H as (Hv & pat' & Hp & Hin).
    split; [exact Hv|]. exists pat'. auto.
Qed.

(** X8. A phone number is returned only if it has from 10 to 15 digits, and
    it is one of the matches of one of the three phone patterns in the
    text. *)
Theorem phone_has_10_to_15_digits (t p : text) :
  extract_phone t = Some p ->
  (let digits := Re.remove false (pattern (py "\D")) p in
   10 <= List.length digits <= 15)
  /\ exists pat, In pat phone_patterns
                 /\ In p (Re.findall false (pattern pat) t).
Proof.
  unfold extract_phone. intros H. apply first_phone_valid in H.
  destruct H as [Hv He]. split; [|exact He].
  unfold valid_phone in Hv. cbv zeta in *.
  apply andb_true_iff in Hv. destruct Hv as [H1 H2].
  apply Nat.leb_le in H1, H2. lia.
Qed.

(** X9. The website returned is a URL of the text that mentions none of
    linkedin, github, facebook and twitter, in any case of letters. *)
Theorem website_is_not_social (t url : text) :
  extract_website t = Some url ->
  In url (Re.findall false (pattern url_pattern) t)
  /\ forall domain, In domain social_domains ->
                    contains domain (str_lower url) = false.
Proof.
  unfold extract_website. intros H. apply find_some in H.
  destruct H as [Hin H]. split; [exact Hin|].
  intros domain Hd. apply negb_true_iff in H.
  destruct (contains domain (str_lower url)) eqn:E; [|reflexivity].
  assert (F : existsb (fun domain => contains domain (str_lower url))
                      social_domains = true)
    by (apply existsb_exists; exists domain; auto).
  congruence.
Qed.

(** X7. The name returned is one of the first 15 lines of the text, stripped:
    it is not empty, has from 2 to 4 words, no digit, no '@', no 'http',
    no 'www.', and none of the words resume, cv, curriculum, vitae,
    phone, email, address in any case of letters. *)
Theorem name_is_an_early_line (t n : text) :
  extract_name t = Some n ->
  (exists k line, k < 15 /\ nth_error (split_on NL t) k = Some line
                  /\ n = strip line)
  /\ n <> []
  /\ 2 <= List.length (words n) <= 4
  /\ existsb isdigit n = false
  /\ contains (py "@") n = false
  /\ contains (py "http") n = false
  /\ contains (py "www.") n = false
  /\ forall word, In word skip_words -> contains word (str_lower n) = false.
Proof.
  unfold extract_name. intros H. apply find_some in H.
  destruct H as [Hin H]. apply andb_true_iff in H. destruct H as [Hs Hl].
  unfold skipped_line in Hs. apply negb_true_iff in Hs.
  rewrite !orb_false_iff in Hs.
  destruct Hs as [[[[Hne Hat] Hhttp] Hwww] Hskip].
  unfold looks_like_name in Hl. cbv zeta in Hl.
  rewrite !andb_true_iff in Hl. destruct Hl as [[[H2 H4] _] Hd].
  apply Nat.leb_le in H2, H4. apply negb_true_iff in Hd.
  apply negb_false_iff in Hne. apply nonempty_spec in Hne.
  split.
  - apply in_map_iff in Hin. destruct Hin as (line & <- & Hin).
    apply In_nth_error in Hin. destruct Hin as (k & Hk).
    assert (Hlt : k < 15).
    { assert (k < List.length (firstn 15 (split_on NL t)))
        by (apply nth_error_Some; congruence).
      rewrite length_firstn in H. lia. }
    exists k, line. split; [exact Hlt | split; [|reflexivity]].
    rewrite nth_error_firstn in Hk.
    destruct (k <? 15) eqn:E; [exact Hk|].
    apply Nat.ltb_ge in E. lia.
  - repeat split; try assumption; try lia.
    intros word Hw. destruct (contains word (str_lower n)) eqn:E;
      [|reflexivity].
    assert (F : existsb (fun word => contains word (str_lower n)) skip_words
                = true) by (apply existsb_exists; exists word; auto).
    congruence.
Qed.

End ContactResults.

Lemma phone_has_10_to_15_digits_witness :
  @extract_phone Ascii7.tables worked_example = Some (py "(555) 123-4567")
  /\ 10 <= List.length (@Re.remove Ascii7.tables false (pattern (py "\D"))
                                   (py "(555) 123-4567")) <= 15.
Proof.
  assert (H : @extract_phone Ascii7.tables worked_example
              = Some (py "(555) 123-4567")) by (vm_compute; reflexivity).
  split; [exact H|].
  exact (proj1 (@phone_has_10_to_15_digits Ascii7.tables worked_example
                  (py "(555) 123-4567") H)).
Defined.

Definition with_two_urls : text :=
  unlines ["Jane Doe"; "https://github.com/jane"; "https://jane.dev/cv"]%string.

Lemma website_is_not_social_witness :
  @extract_website Ascii7.tables with_two_urls = Some (py "https://jane.dev/cv")
  /\ contains (py "github")
              (@str_lower Ascii7.tables (py "https://jane.dev/cv")) = false.
Proof.
  assert (H : @extract_website Ascii7.tables with_two_urls
              = Some (py "https://jane.dev/cv")) by (vm_compute; reflexivity).
  split; [exact H|].
  apply (proj2 (@website_is_not_social Ascii7.tables with_two_urls
                  (py "https://jane.dev/cv") H)).
  vm_compute. right; left; reflexivity.
Defined.

Lemma name_is_an_early_line_witness :
  @extract_name Ascii7.tables worked_example = Some (py "Jane Doe")
  /\ 2 <= List.length (@words Ascii7.tables (py "Jane Doe")) <= 4.
Proof.
  assert (H : @extract_name Ascii7.tables worked_example
              = Some (py "Jane Doe")) by (vm_compute; reflexivity).
  split; [exact H|].
  exact (proj1 (proj2 (proj2 (@name_is_an_early_line Ascii7.tables
                                 worked_example (py "Jane Doe") H)))).
Defined.

(** ** The year of an education entry *)

(** X5. No education entry has a year, whatever the text and the current
    year: the year pattern has a group, so [re.findall] returns the two
    digits of the century ("19" or "20"), and no such number lies between
    1950 and ten years from now. *)
Theorem education_entries_have_no_year {U : Unicode} (current_year : Z)
        (t : text) (e : EducationEntry) :
  In e (extract_education current_year t) -> year e = None.
Proof.
  intros H.
  apply extract_education_sub in H.
  unfold education_matches in H. apply in_flat_map in H.
  destruct H as (p & _ & H). apply in_map_iff in H.
  destruct H as (m & <- & _). apply find_year_none.
Qed.

Definition bachelor_entry : EducationEntry :=
  {| degree := py "Bachelor of Science in Computer Science";
     institution := Some (py "State University");
     year := None;
     gpa := Some (py "3.8") |}.

Lemma education_entries_have_no_year_witness :
  In bachelor_entry (@extract_education Ascii7.tables 2026 worked_example)
  /\ contains (py "2015") (@education_text Ascii7.tables worked_example)
     = true
  /\ year bachelor_entry = None.
Proof.
  assert (H : In bachelor_entry
                 (@extract_education Ascii7.tables 2026 worked_example))
    by (vm_compute; left; reflexivity).
  split; [exact H|]. split; [vm_compute; reflexivity|].
  exact (@education_entries_have_no_year Ascii7.tables 2026 worked_example
           bachelor_entry H).
Defined.

(** ** The year and the issuer of a certification *)

Section CertificationResults.

Context {U : Unicode}.

(** A repetition [{2}] of a class takes two characters of the class. *)
Lemma two_rounds (R : Type) (ok : char -> bool)
      (k : Re.cursor -> Re.caps -> option R) (c : Re.cursor) (g : Re.caps)
      (x : R) :
  Re.rounds (fun c g k => Re.eat ok c (fun c' => k c' g)) 2 (Some 2) true k
            (S (List.length (Re.rest c))) 0 c g = Some x ->
  exists a b t,
    Re.rest c = a :: b :: t /\ ok a = true /\ ok b = true
    /\ k {| Re.pos := S (S (Re.pos c)); Re.prev := Some b; Re.rest := t |} g
       = Some x.
Proof.
  destruct c as [p pv rs]. cbn [Re.rest Re.pos].
  destruct rs as [|a [|b t]]; cbn [List.length Re.rounds];
    unfold Re.eat, Re.below;
    cbn [Re.rest Re.pos Re.prev Nat.ltb Nat.leb]; intros H.
  - discriminate.
  - destruct (ok a), (S p =? p); discriminate.
  - assert (E1 : (S p =? p) = false) by (apply Nat.eqb_neq; lia).
    assert (E2 : (S (S p) =? S p) = false) by (apply Nat.eqb_neq; lia).
    rewrite ?E1, ?E2 in H.
    destruct (ok a) eqn:Ea; [|discriminate].
    destruct (ok b) eqn:Eb; [|discriminate].
    destruct (k _ g) as [y|] eqn:Ek; [|discriminate].
    injection H as <-. exists a, b, t. auto.
Qed.

(** A match of the year pattern is four characters long: "19" or "20",
    and two decimal digits. *)
Lemma year_match_shape (c : Re.cursor) (m : Re.rmatch) :
  Re.match_here false (pattern year_pattern) c = Some m ->
  exists x1 x2 a b t,
    Re.rest c = x1 :: x2 :: a :: b :: t
    /\ ([x1; x2] = py "19" \/ [x1; x2] = py "20")
    /\ isdecimal a = true /\ isdecimal b = true
    /\ Re.m_start m = Re.pos c /\ Re.m_end m = 4 + Re.pos c.
Proof.
  rewrite year_pattern_shape. unfold Re.match_here, year_head, year_tail.
  intros H. cbn [Re.run] in H.
  destruct (Re.at_boundary c); [|discriminate].
  destruct c as [p pv rs].
  unfold Re.eat at 1 2 3 4, Re.lit_eq in H;
    cbn [Re.rest Re.pos Re.prev] in H.
  assert (Hd : forall a, Re.in_items false [Re.IDigit] a = isdecimal a).
  { intros a. unfold Re.in_items. simpl. rewrite !orb_false_r. reflexivity. }
  assert (Ht : forall x1 x2 t0 y,
             Re.rounds (Re.run false (Re.RIn false [Re.IDigit])) 2 (Some 2)
               true
               (fun c' g' =>
                  if Re.at_boundary c' then
                    Some {| Re.m_start := p; Re.m_end := Re.pos c';
                            Re.m_caps := g'; Re.m_after := c' |}
                  else None)
               (S (List.length t0)) 0
               {| Re.pos := S (S p); Re.prev := Some x2; Re.rest := t0 |}
               [(1, (p, S (S p)))] = Some y ->
             exists a b t,
               x1 :: x2 :: t0 = x1 :: x2 :: a :: b :: t
               /\ isdecimal a = true /\ isdecimal b = true
               /\ Re.m_start y = p /\ Re.m_end y = 4 + p).
  { intros x1 x2 t0 y Hy.
    apply (@two_rounds Re.rmatch (fun a => xorb false
                                              (Re.in_items false [Re.IDigit] a))
             _ {| Re.pos := S (S p); Re.prev := Some x2; Re.rest := t0 |})
      in Hy.
    destruct Hy as (a & b & t & Er & Ea & Eb & Hk).
    cbn [Re.rest Re.pos] in *. subst t0.
    rewrite xorb_false_l, Hd in Ea, Eb.
    destruct (Re.at_boundary _); [|discriminate].
    injection Hk as <-. exists a, b, t. simpl. auto. }
  destruct rs as [|x1 [|x2 t0]].
  - discriminate.
  - destruct (x1 =? 49)%N, (x1 =? 50)%N; discriminate.
  - cbn [Re.rest Re.pos Re.prev] in H.
    destruct (x1 =? 49)%N eqn:E1.
    + destruct (x2 =? 57)%N eqn:E2.
      * apply N.eqb_eq in E1, E2. subst x1 x2.
        destruct (Re.rounds _ _ _ _ _ _ _ _ _) as [y|] eqn:Ey.
        -- injection H as <-. apply (Ht 49%N) in Ey.
           destruct Ey as (a & b & t & Er & Ea & Eb & Hs & He).
           exists 49%N, 57%N, a, b, t. repeat split; auto.
        -- discriminate H.
      * destruct (x1 =? 50)%N eqn:E3; [|discriminate].
        apply N.eqb_eq in E1, E3. congruence.
    + destruct (x1 =? 50)%N eqn:E3; [|discriminate].
      unfold Re.eat at 1 in H; cbn [Re.rest Re.pos Re.prev] in H.
      destruct (x2 =? 48)%N eqn:E4; [|discriminate].
      apply N.eqb_eq in E3, E4. subst x1 x2.
      apply (Ht 50%N) in H.
      destruct H as (a & b & t & Er & Ea & Eb & Hs & He).
      exists 50%N, 48%N, a, b, t. repeat split; auto.
Qed.

(** What [m.group()] is for a match of the year pattern found by
    [re.search]. *)
Lemma year_search_shape (line : text) (m : Re.rmatch) :
  Re.search false (pattern year_pattern) line = Some m ->
  exists a b,
    (Re.group0 line m = py "19" ++ [a; b]
     \/ Re.group0 line m = py "20" ++ [a; b])
    /\ isdecimal a = true /\ isdecimal b = true.
Proof.
  unfold Re.search, Re.scan_from. intros H.
  apply (@scan_matches U line false (pattern year_pattern)
           (fun m => exists a b,
                (Re.group0 line m = py "19" ++ [a; b]
                 \/ Re.group0 line m = py "20" ++ [a; b])
                /\ isdecimal a = true /\ isdecimal b = true)) in H.
  - destruct H as [H _]. exact H.
  - intros c m' Ha Hm. apply year_match_shape in Hm.
    destruct Hm as (x1 & x2 & a & b & t & Er & Hx & Ea & Eb & Hs & He).
    exists a, b. split; [|auto].
    unfold Re.group0, slice. rewrite Hs, He.
    replace (4 + Re.pos c - Re.pos c) with 4 by lia.
    unfold aligned in Ha. rewrite <- Ha, Er. simpl.
    destruct Hx as [Hx|Hx]; injection Hx as -> ->; auto.
  - apply aligned_start.
Qed.

(** X10. For every certification returned: its year, when it has one, is four
    characters long, "19" or "20" followed by two decimal digits (the
    whole match of the year pattern, unlike the year of an education
    entry); and its issuer, when it has one, is one of the nine names of
    the issuer vocabulary. *)
Theorem certification_year_and_issuer (t : text) (c : CertificationEntry) :
  In c (extract_certifications t) ->
  (forall y, cert_year c = Some y ->
     exists a b,
       (y = py "19" ++ [a; b] \/ y = py "20" ++ [a; b])
       /\ isdecimal a = true /\ isdecimal b = true)
  /\ (forall i, issuer c = Some i -> In i issuers).
Proof.
  unfold extract_certifications. cbv zeta.
  destruct (nonempty (certifications_text t)); [|intros []].
  intros H. apply in_map_iff in H. destruct H as (line & <- & _).
  unfold certification_entry; cbn [cert_year issuer]. split.
  - intros y Hy.
    destruct (Re.search false (pattern year_pattern) line) as [m|] eqn:E;
      [|discriminate].
    simpl in Hy. injection Hy as <-. apply year_search_shape, E.
  - intros i Hi. apply find_some in Hi. exact (proj1 Hi).
Qed.

End CertificationResults.

Definition two_certificates : text :=
  unlines ["CERTIFICATIONS"; "AWS Solutions Architect 2021";
           "Scrum Master"]%string.

Lemma certification_year_and_issuer_witness :
  @extract_certifications Ascii7.tables two_certificates
  = [ {| cert_name := py "AWS Solutions Architect";
         cert_year := Some (py "2021");
         issuer := Some (py "AWS") |};
      {| cert_name := py "Scrum Master";
         cert_year := None;
         issuer := Some (py "Scrum") |} ]
  /\ In (py "AWS") issuers.
Proof.
  assert (E : @extract_certifications Ascii7.tables two_certificates
              = [ {| cert_name := py "AWS Solutions Architect";
                     cert_year := Some (py "2021");
                     issuer := Some (py "AWS") |};
                  {| cert_name := py "Scrum Master";
                     cert_year := None;
                     issuer := Some (py "Scrum") |} ])
    by (vm_compute; reflexivity).
  split; [exact E|].
  apply (proj2 (@certification_year_and_issuer Ascii7.tables two_certificates
                  {| cert_name := py "AWS Solutions Architect";
                     cert_year := Some (py "2021");
                     issuer := Some (py "AWS") |}
                  ltac:(rewrite E; left; reflexivity))).
  reflexivity.
Defined.

(** ** The scores in closed form, and the perfect and the zero score *)

(** Whether a contact field of the parsed data is present with a true
    value, and the length of a field ([0] when the field is missing). *)
Definition contact_has (kv : list (text * pyval)) (field : text) : bool :=
  match dict_get kv (py "contact") with
  | Some (VDict contact) =>
      match dict_get contact field with
      | Some v => py_truth v
      | None => false
      end
  | _ => false
  end.

Definition count_of (kv : list (text * pyval)) (key : text) : Z :=
  match dict_get kv key with
  | Some (VStr s) => Z.of_nat (List.length s)
  | Some (VList l) => Z.of_nat (List.length l)
  | Some (VDict d) => Z.of_nat (List.length d)
  | _ => 0%Z
  end.

Definition contact_count (kv : list (text * pyval)) : Z :=
  Z.of_nat (List.length (filter (contact_has kv) contact_fields)).

Lemma count_present_value (kv : list (text * pyval)) (fields : list text) :
  field_ok kv (py "contact") is_dict = true ->
  count_present (VDict kv) fields
  = Ok (Z.of_nat (List.length (filter (contact_has kv) fields))).
Proof.
  intros Hc. induction fields as [|f fields IH]; [reflexivity|].
  cbn [count_present filter]. rewrite IH. unfold py_get at 1. cbn [bind].
  unfold field_ok in Hc.
  destruct (dict_get kv (py "contact")) as [contact|] eqn:Ec.
  - destruct contact as [| | | | |d]; try discriminate. cbn [py_get bind].
    assert (Hf : contact_has kv f
                 = match dict_get d f with
                   | Some v => py_truth v
                   | None => false
                   end)
      by (unfold contact_has; rewrite Ec; reflexivity).
    rewrite Hf.
    destruct (dict_get d f) as [v|]; cbn [py_truth]; [|reflexivity].
    destruct (py_truth v); cbn [List.length]; f_equal; lia.
  - assert (Hf : contact_has kv f = false)
      by (unfold contact_has; rewrite Ec; reflexivity).
    rewrite Hf. reflexivity.
Qed.

Lemma len_of_field (kv : list (text * pyval)) (key : text) :
  field_ok kv key sized = true ->
  (v <- py_get (VDict kv) key (VList []) ;; py_len v) = Ok (count_of kv key).
Proof.
  unfold field_ok, py_get, count_of. intros H.
  destruct (dict_get kv key) as [v|]; [|reflexivity].
  destruct v; try discriminate; reflexivity.
Qed.

(** The scores of a well-shaped parse result, in terms of its fields. *)
Lemma calculate_score_value (compensated : bool) (kv : list (text * pyval)) :
  well_shaped kv = true ->
  calculate_score compensated (VDict kv)
  = Ok (VDict
          [ (py "contact_info", VFloat (contact_score (contact_count kv)));
            (py "experience", VInt (capped (count_of kv (py "experience")) 25));
            (py "education", VInt (capped (count_of kv (py "education")) 50));
            (py "skills", VInt (capped (count_of kv (py "skills")) 5));
            (py "overall",
              VFloat (weighted_sum compensated
                        (contact_score (contact_count kv))
                        (capped (count_of kv (py "experience")) 25)
                        (capped (count_of kv (py "education")) 50)
                        (capped (count_of kv (py "skills")) 5))) ]).
Proof.
  unfold well_shaped. rewrite !andb_true_iff.
  intros [[[Hc He] Hd] Hs].
  pose proof (len_of_field kv (py "experience") He) as Le.
  pose proof (len_of_field kv (py "education") Hd) as Ld.
  pose proof (len_of_field kv (py "skills") Hs) as Ls.
  unfold calculate_score.
  rewrite (count_present_value kv contact_fields Hc). cbn [bind].
  unfold bind in Le, Ld, Ls.
  destruct (py_get (VDict kv) (py "experience") (VList [])) as [ve|];
    [|discriminate]. cbn [bind]. rewrite Le. cbn [bind].
  destruct (py_get (VDict kv) (py "education") (VList [])) as [vd|];
    [|discriminate]. cbn [bind]. rewrite Ld. cbn [bind].
  destruct (py_get (VDict kv) (py "skills") (VList [])) as [vs|];
    [|discriminate]. cbn [bind]. rewrite Ls. cbn [bind].
  reflexivity.
Qed.

Lemma count_of_nonneg (kv : list (text * pyval)) (key : text) :
  (0 <= count_of kv key)%Z.
Proof.
  unfold count_of. destruct (dict_get kv key) as [v|]; [|lia].
  destruct v; lia.
Qed.

(** What is checked of one combination of sub-scores: the overall score
    is 100 only when the four are at their top, and 0 only when the four
    are 0. *)
Definition extremes_check (compensated : bool) (n e d s : Z) : bool :=
  let o := weighted_sum compensated (contact_score n) e d s in
  Bool.eqb (PrimFloat.eqb o 100)
           ((n =? 3)%Z && (e =? 100)%Z && (d =? 100)%Z && (s =? 100)%Z)
  && Bool.eqb (PrimFloat.eqb o 0)
              ((n =? 0)%Z && (e =? 0)%Z && (d =? 0)%Z && (s =? 0)%Z).

Lemma all_extremes_checked :
  forallb (fun compensated =>
    forallb (fun n =>
      forallb (fun e =>
        forallb (fun d =>
          forallb (fun s => extremes_check compensated n e d s) (steps 5))
          (steps 50))
        (steps 25))
      [0; 1; 2; 3]%Z)
    [false; true] = true.
Proof. vm_compute. reflexivity. Qed.

Lemma contact_count_range (kv : list (text * pyval)) :
  In (contact_count kv) [0; 1; 2; 3]%Z
  /\ (contact_count kv = 3%Z <-> forallb (contact_has kv) contact_fields = true)
  /\ (contact_count kv = 0%Z <-> existsb (contact_has kv) contact_fields = false).
Proof.
  unfold contact_count, contact_fields, texts. cbn [map filter forallb existsb].
  destruct (contact_has kv (py "name")), (contact_has kv (py "email")),
    (contact_has kv (py "phone")); cbn [List.length andb orb];
    (split; [simpl; tauto | split; split; (lia || congruence)]).
Qed.

(** X12. For every well-shaped parse result and either summation: the overall
    score is exactly 100.0 if and only if name, email and phone are all
    present and there are at least 4 experience entries, 2 education
    entries and 20 skills; and it is exactly 0.0 if and only if none of
    the three contact fields is present and the three lists are empty. *)
Theorem perfect_and_zero_score (compensated : bool)
        (kv : list (text * pyval)) :
  well_shaped kv = true ->
  exists scores overall,
    calculate_score compensated (VDict kv) = Ok scores
    /\ item_of scores (py "overall") = Some (VFloat overall)
    /\ (PrimFloat.eqb overall 100 = true
        <-> forallb (contact_has kv) contact_fields = true
            /\ (4 <= count_of kv (py "experience"))%Z
            /\ (2 <= count_of kv (py "education"))%Z
            /\ (20 <= count_of kv (py "skills"))%Z)
    /\ (PrimFloat.eqb overall 0 = true
        <-> existsb (contact_has kv) contact_fields = false
            /\ count_of kv (py "experience") = 0%Z
            /\ count_of kv (py "education") = 0%Z
            /\ count_of kv (py "skills") = 0%Z).
Proof.
  intros Hw. rewrite (calculate_score_value compensated kv Hw).
  eexists; eexists. split; [reflexivity|]. split; [reflexivity|].
  pose proof (count_of_nonneg kv (py "experience")) as Pe.
  pose proof (count_of_nonneg kv (py "education")) as Pd.
  pose proof (count_of_nonneg kv (py "skills")) as Ps.
  destruct (contact_count_range kv) as (Hn & H3 & H0).
  assert (Hcheck : extremes_check compensated (contact_count kv)
                     (capped (count_of kv (py "experience")) 25)
                     (capped (count_of kv (py "education")) 50)
                     (capped (count_of kv (py "skills")) 5) = true).
  { pose proof all_extremes_checked as A.
    rewrite forallb_forall in A.
    assert (Hmode : In compensated [false; true])
      by (destruct compensated; simpl; auto).
    specialize (A compensated Hmode). rewrite forallb_forall in A.
    specialize (A _ Hn). rewrite forallb_forall in A.
    specialize (A _ (@capped_in_steps _ 25 Pe ltac:(lia))).
    rewrite forallb_forall in A.
    specialize (A _ (@capped_in_steps _ 50 Pd ltac:(lia))).
    rewrite forallb_forall in A.
    exact (A _ (@capped_in_steps _ 5 Ps ltac:(lia))). }
  unfold extremes_check in Hcheck. cbv zeta in Hcheck.
  apply andb_true_iff in Hcheck. destruct Hcheck as [T Z0].
  apply Bool.eqb_prop in T, Z0. rewrite T, Z0.
  rewrite !andb_true_iff, !Z.eqb_eq, H3, H0. unfold capped.
  split; split; intros [[[A B] C] D] || intros (A & B & C & D);
    repeat split; try assumption; lia.
Qed.

Lemma perfect_and_zero_score_witness :
  well_shaped five_jobs = true
  /\ exists scores overall,
       calculate_score false (VDict five_jobs) = Ok scores
       /\ item_of scores (py "overall") = Some (VFloat overall)
       /\ PrimFloat.eqb overall 100 = false.
Proof.
  split; [reflexivity|].
  destruct (perfect_and_zero_score false five_jobs eq_refl)
    as (scores & overall & Hs & Ho & H100 & _).
  exists scores, overall. split; [exact Hs | split; [exact Ho|]].
  destruct (PrimFloat.eqb overall 100) eqn:E; [|reflexivity].
  destruct (proj1 H100 eq_refl) as (Hc & _). vm_compute in Hc. discriminate.
Defined.

(** ** What [parse] returns, by cases *)

Section ParseCases.

Context {U : Unicode}.
Variable io : Readers.
Variable clock : Clock.
Variable compensated : bool.

Lemma parsed_fields_shaped (file_path t : text) :
  well_shaped (parsed_fields clock file_path t) = true.
Proof. reflexivity. Qed.

(** The parse result of a text that is not empty: the ten fields, then
    the scores. *)
Lemma parse_of_text (file_path t : text) :
  read_file io file_path = Ok t -> t <> [] ->
  exists scores,
    calculate_score compensated (VDict (parsed_fields clock file_path t))
    = Ok scores
    /\ parse io clock compensated file_path
       = VDict (parsed_fields clock file_path t ++ [(py "scores", scores)]).
Proof.
  intros Hr Ht.
  pose proof (calculate_score_value compensated _
                (parsed_fields_shaped file_path t)) as Hs.
  eexists. split; [exact Hs|].
  unfold parse, parse_body. rewrite Hr. cbn [bind].
  destruct t as [|c t]; [congruence|]. cbn [nonempty negb].
  rewrite Hs. reflexivity.
Qed.

(** X13. [parse] never raises, and its result is tagged as an error exactly
    when the file cannot be read or no text comes out of it.  Otherwise
    the result has the eleven keys of a parse, in the order they are set,
    its [file] is the path given, and its [text_length] is the number of
    characters read. *)
Theorem parse_error_exactly_when_unreadable (file_path : text) :
  let r := parse io clock compensated file_path in
  (has_key r (py "error") = true
   <-> (exists e, read_file io file_path = Raise e)
       \/ read_file io file_path = Ok [])
  /\ (forall t, read_file io file_path = Ok t -> t <> [] ->
        match r with
        | VDict kv =>
            dict_keys kv
            = texts ["file"; "contact"; "skills"; "education"; "experience";
                     "projects"; "certifications"; "sections"; "text_length";
                     "parsed_date"; "scores"]%string
        | _ => False
        end
        /\ item_of r (py "file") = Some (VStr file_path)
        /\ item_of r (py "text_length")
           = Some (VInt (Z.of_nat (List.length t)))).
Proof.
  cbv zeta. split.
  - destruct (read_file io file_path) as [t|e] eqn:Hr.
    + destruct t as [|c t].
      * rewrite (parse_no_text io clock compensated file_path Hr).
        split; [auto | reflexivity].
      * destruct (@parse_of_text file_path (c :: t) Hr ltac:(discriminate))
          as (scores & _ & ->).
        split; [intros H; vm_compute in H; discriminate|].
        intros [(e & He) | He]; discriminate.
    + rewrite (parse_reader_failure io clock compensated file_path Hr).
      split; [intros _; left; exists e; reflexivity | reflexivity].
  - intros t Hr Ht.
    destruct (@parse_of_text file_path t Hr Ht) as (scores & _ & ->).
    repeat split; reflexivity.
Qed.

End ParseCases.

(** ** Saving *)

Lemma replace_space (s : text) :
  replace (py " ") (py "_") s
  = map (fun c => if (c =? 32)%N then 95%N else c) s.
Proof.
  unfold replace. induction s as [|c s IH]; [reflexivity|].
  cbn [replace_from map]. change (py " ") with [32%N].
  cbn [startswith List.length Nat.sub]. rewrite andb_true_r.
  rewrite N.eqb_sym. destruct (c =? 32)%N.
  - change (py "_") with [95%N]. simpl. f_equal. exact IH.
  - f_equal. exact IH.
Qed.

Section SavedFiles.

Variable world : Type.
Variable makedirs : text -> world -> result world.
Variable timestamp : world -> text.
Variable join_path : text -> text -> text.
Variable write_json : text -> pyval -> world -> result world.

(** X16. When the contact name is a string, the directory can be made and the
    file can be written, the parse result is written to the file named by
    the name with each space replaced by an underscore, the time stamp and
    '.json', and that path is returned.  The stem has no space and is as
    long as the name. *)
Theorem saved_under_the_name (parsed_data : pyval)
        (contact : list (text * pyval)) (name output_dir : text)
        (w w1 w2 : world) :
  let stem := replace (py " ") (py "_") name in
  let filepath :=
    join_path output_dir (stem ++ py "_" ++ timestamp w1 ++ py ".json") in
  item_of parsed_data (py "contact") = Some (VDict contact) ->
  dict_get contact (py "name") = Some (VStr name) ->
  makedirs output_dir w = Ok w1 ->
  write_json filepath parsed_data w1 = Ok w2 ->
  save_parsed_resume makedirs timestamp join_path write_json
                     parsed_data output_dir w = Ok (filepath, w2)
  /\ ~ In 32%N stem
  /\ List.length stem = List.length name.
Proof.
  intros stem filepath Hc Hn Hm Hw.
  destruct parsed_data as [| | | | |kv]; try discriminate. simpl in Hc.
  split; [|split].
  - unfold save_parsed_resume. rewrite Hm. cbn [bind].
    unfold py_get at 1. rewrite Hc. cbn [bind].
    unfold py_get. rewrite Hn. cbn [bind name_replace].
    fold stem. fold filepath. rewrite Hw. reflexivity.
  - unfold stem. rewrite replace_space. intros H. apply in_map_iff in H.
    destruct H as (c & H & _). destruct (c =? 32)%N eqn:E; [discriminate|].
    subst c. discriminate.
  - unfold stem. rewrite replace_space. apply length_map.
Qed.

(** X17. A file that cannot be read is still given a saved result in
    single-file mode: the error result of [parse] has no contact, so it
    is written under the name 'unknown', and it is what
    [parse_single_resume] returns. *)
Theorem unreadable_file_saved_as_unknown {U : Unicode} (io : Readers)
        (clock : Clock) (compensated : bool) (file_path : text) (e : exn)
        (w w1 w2 : world) :
  let error_result :=
    VDict [ (py "error", VStr (exn_message e)); (py "file", VStr file_path) ] in
  let filepath :=
    join_path (py "output") (py "unknown_" ++ timestamp w1 ++ py ".json") in
  read_file io file_path = Raise e ->
  makedirs (py "output") w = Ok w1 ->
  write_json filepath error_result w1 = Ok w2 ->
  parse_single_resume makedirs timestamp join_path write_json
                      io clock compensated file_path w
  = Ok (error_result, w2).
Proof.
  intros error_result filepath Hr Hm Hw. unfold parse_single_resume.
  rewrite (parse_reader_failure io clock compensated file_path Hr).
  fold error_result. unfold save_parsed_resume. rewrite Hm. cbn [bind].
  change (py_get error_result (py "contact") (VDict [])) with (Ok (VDict [])).
  cbn [bind py_get dict_get name_replace].
  change (replace (py " ") (py "_") (py "unknown") ++ py "_"
            ++ timestamp w1 ++ py ".json")
    with (py "unknown_" ++ timestamp w1 ++ py ".json").
  fold filepath. rewrite Hw. reflexivity.
Qed.

End SavedFiles.

Definition jane_result : pyval :=
  VDict [ (py "contact", VDict [ (py "name", VStr (py "Jane van Doe")) ]) ].

Lemma saved_under_the_name_witness :
  save_parsed_resume disk_makedirs disk_timestamp disk_join disk_write
                     jane_result (py "out") []
  = Ok (py "out/Jane_van_Doe_20261103_120000.json",
        [(py "out/Jane_van_Doe_20261103_120000.json", jane_result)])
  /\ ~ In 32%N (replace (py " ") (py "_") (py "Jane van Doe")).
Proof.
  destruct (@saved_under_the_name disk disk_makedirs disk_timestamp disk_join
              disk_write jane_result
              [ (py "name", VStr (py "Jane van Doe")) ]
              (py "Jane van Doe") (py "out") [] []
              [(py "out/Jane_van_Doe_20261103_120000.json", jane_result)]
              eq_refl eq_refl eq_refl eq_refl) as (H1 & H2 & _).
  split; [exact H1 | exact H2].
Defined.

Lemma unreadable_file_saved_as_unknown_witness :
  @parse_single_resume disk disk_makedirs disk_timestamp disk_join disk_write
                       Ascii7.tables one_empty_file noon true
                       (py "missing.txt") []
  = Ok (VDict [ (py "error", VStr (py "No such file or directory"));
                (py "file", VStr (py "missing.txt")) ],
        [ (py "output/unknown_20261103_120000.json",
           VDict [ (py "error", VStr (py "No such file or directory"));
                   (py "file", VStr (py "missing.txt")) ]) ]).
Proof.
  assert (Hr : @read_file Ascii7.tables one_empty_file (py "missing.txt")
               = Raise (OSError (py "No such file or directory")))
    by (vm_compute; reflexivity).
  pose proof (@unreadable_file_saved_as_unknown disk disk_makedirs
                disk_timestamp disk_join disk_write Ascii7.tables
                one_empty_file noon true (py "missing.txt")
                (OSError (py "No such file or directory")) [] []
                [ (disk_join (py "output")
                             (py "unknown_" ++ disk_timestamp []
                              ++ py ".json"),
                   VDict [ (py "error",
                             VStr (exn_message
                                     (OSError (py "No such file or directory"))));
                           (py "file", VStr (py "missing.txt")) ]) ]
                Hr eq_refl eq_refl) as E.
  cbv zeta in E. rewrite E. vm_compute. reflexivity.
Defined.

Lemma parse_error_exactly_when_unreadable_witness :
  @read_file Ascii7.tables notes_only (py "notes.txt") = Ok (py "hello world")
  /\ py "hello world" <> []
  /\ item_of (@parse Ascii7.tables notes_only noon true (py "notes.txt"))
             (py "text_length") = Some (VInt 11).
Proof.
  assert (Hr : @read_file Ascii7.tables notes_only (py "notes.txt")
               = Ok (py "hello world")) by reflexivity.
  assert (Ht : py "hello world" <> []) by discriminate.
  split; [exact Hr | split; [exact Ht|]].
  exact (proj2 (proj2 (proj2 (@parse_error_exactly_when_unreadable
                                Ascii7.tables notes_only noon true
                                (py "notes.txt"))
                             (py "hello world") Hr Ht))).
Defined.

Definition experience_cells (entries : list ExperienceEntry)
  : list (text * pyval) :=
  List.concat
    (map (fun ke => [ (py "Experience_" ++ fst ke ++ py "_Position",
                       opt_py (position (snd ke)));
                      (py "Experience_" ++ fst ke ++ py "_Company",
                       opt_py (company (snd ke))) ])
         (combine (texts ["1"; "2"; "3"]%string) entries)).

Definition education_cells (entries : list EducationEntry)
  : list (text * pyval) :=
  List.concat
    (map (fun ke => [ (py "Education_" ++ fst ke ++ py "_Degree",
                       VStr (degree (snd ke)));
                      (py "Education_" ++ fst ke ++ py "_Institution",
                       opt_py (institution (snd ke))) ])
         (combine (texts ["1"; "2"]%string) entries)).

Lemma all_strings_map (l : list text) : all_strings (map VStr l) = Ok l.
Proof.
  induction l as [|s l IH]; [reflexivity|].
  cbn [map all_strings]. rewrite IH. reflexivity.
Qed.

Lemma csv_row_fields (file_path : pyval) (c : ContactInfo) (skills : list text)
      (edus : list EducationEntry) (exps : list ExperienceEntry)
      (projects certifications sections text_length parsed_date : pyval)
      (scores : list (text * pyval)) (overall : pyval) :
  dict_get scores (py "overall") = Some overall ->
  csv_row (VDict [ (py "file", file_path);
                   (py "contact", contact_py c);
                   (py "skills", strs_py skills);
                   (py "education", VList (map education_py edus));
                   (py "experience", VList (map experience_py exps));
                   (py "projects", projects);
                   (py "certifications", certifications);
                   (py "sections", sections);
                   (py "text_length", text_length);
                   (py "parsed_date", parsed_date);
                   (py "scores", VDict scores) ])
  = Ok ([ (py "Name", opt_py (contact_name c));
          (py "Email", opt_py (email c));
          (py "Phone", opt_py (phone c));
          (py "LinkedIn", opt_py (linkedin c));
          (py "Skills", VStr (join (py ", ") skills));
          (py "Experience_Count", VInt (Z.of_nat (List.length exps)));
          (py "Education_Count", VInt (Z.of_nat (List.length edus)));
          (py "Overall_Score", overall) ]
        ++ experience_cells exps ++ education_cells edus).
Proof.
  intros Ho. unfold csv_row, contact_column.
  change (py_get _ (py "contact") (VDict [])) with (Ok (contact_py c)).
  cbn [bind].
  change (py_get (contact_py c) (py "name") (VStr []))
    with (Ok (opt_py (contact_name c))).
  change (py_get (contact_py c) (py "email") (VStr []))
    with (Ok (opt_py (email c))).
  change (py_get (contact_py c) (py "phone") (VStr []))
    with (Ok (opt_py (phone c))).
  change (py_get (contact_py c) (py "linkedin") (VStr []))
    with (Ok (opt_py (linkedin c))).
  cbn [bind].
  change (py_get _ (py "skills") (VList [])) with (Ok (strs_py skills)).
  cbn [bind]. unfold py_join. cbn [strs_py py_iter bind].
  rewrite all_strings_map. cbn [bind].
  change (py_get _ (py "experience") (VList []))
    with (Ok (VList (map experience_py exps))).
  change (py_get _ (py "education") (VList []))
    with (Ok (VList (map education_py edus))).
  change (py_get _ (py "scores") (VDict [])) with (Ok (VDict scores)).
  cbn [bind py_len py_head]. rewrite !length_map.
  unfold py_get at 1. rewrite Ho. cbn [bind].
  destruct exps as [|x1 [|x2 [|x3 exps]]];
    destruct edus as [|e1 [|e2 edus]]; reflexivity.
Qed.

Section ExportResults.

Context {U : Unicode}.

(** The overall score in the result of a parse. *)
Definition overall_of (clock : Clock) (compensated : bool)
           (file_path t : text) : float :=
  let kv := parsed_fields clock file_path t in
  weighted_sum compensated
               (contact_score (contact_count kv))
               (capped (count_of kv (py "experience")) 25)
               (capped (count_of kv (py "education")) 50)
               (capped (count_of kv (py "skills")) 5).

Definition row_of (clock : Clock) (compensated : bool) (file_path t : text)
  : list (text * pyval) :=
  [ (py "Name", opt_py (extract_name t));
    (py "Email", opt_py (extract_email t));
    (py "Phone", opt_py (extract_phone t));
    (py "LinkedIn", opt_py (extract_linkedin t));
    (py "Skills", VStr (join (py ", ") (extract_skills t)));
    (py "Experience_Count",
      VInt (Z.of_nat (List.length (extract_experience t))));
    (py "Education_Count",
      VInt (Z.of_nat (List.length (extract_education (now_year clock) t))));
    (py "Overall_Score", VFloat (overall_of clock compensated file_path t)) ]
  ++ experience_cells (extract_experience t)
  ++ education_cells (extract_education (now_year clock) t).

Lemma parse_value (io : Readers) (clock : Clock) (compensated : bool)
      (file_path t : text) :
  read_file io file_path = Ok t -> t <> [] ->
  parse io clock compensated file_path
  = VDict (parsed_fields clock file_path t
           ++ [ (py "scores",
                  VDict
                    (let kv := parsed_fields clock file_path t in
                     [ (py "contact_info",
                         VFloat (contact_score (contact_count kv)));
                       (py "experience",
                         VInt (capped (count_of kv (py "experience")) 25));
                       (py "education",
                         VInt (capped (count_of kv (py "education")) 50));
                       (py "skills",
                         VInt (capped (count_of kv (py "skills")) 5));
                       (py "overall",
                         VFloat (overall_of clock compensated file_path t))
                     ])) ]).
Proof.
  intros Hr Ht.
  destruct (@parse_of_text U io clock compensated file_path t Hr Ht)
    as (scores & Hs & ->).
  rewrite (calculate_score_value compensated _
             (parsed_fields_shaped clock file_path t)) in Hs.
  injection Hs as <-. reflexivity.
Qed.

(** X18. The row exported for the parse result of a file with text never
    fails to build.  Its cells are the name, email, phone and LinkedIn
    address found (a null cell for one not found), the skills joined by
    ', ', the numbers of experience and education entries, the overall
    score, and then the position and company of the first three
    experience entries and the degree and institution of the first two
    education entries, under columns numbered from 1: entries after
    these are counted but not exported. *)
Theorem csv_row_of_parse (io : Readers) (clock : Clock) (compensated : bool)
        (file_path t : text) :
  read_file io file_path = Ok t -> t <> [] ->
  csv_row (parse io clock compensated file_path)
  = Ok (row_of clock compensated file_path t).
Proof.
  intros Hr Ht. rewrite (@parse_value io clock compensated file_path t Hr Ht).
  apply (@csv_row_fields (VStr file_path) (extract_contact_info t)
           (extract_skills t) (extract_education (now_year clock) t)
           (extract_experience t)).
  reflexivity.
Qed.

End ExportResults.

(** ** The rows of the export *)

Section ExportRows.

Context {U : Unicode}.

(** The results that [parse_single_resume] and the loop of
    [parse_multiple_resumes] produce: a result of [parse], or the entry
    made of an exception. *)
Inductive produced : pyval -> Prop :=
| produced_parse (io : Readers) (clock : Clock) (compensated : bool)
                 (file_path : text) :
    produced (parse io clock compensated file_path)
| produced_failure (e : exn) (file_path : text) :
    produced (VDict [ (py "error", VStr (exn_message e));
                      (py "file", VStr file_path) ]).

Lemma produced_row (r : pyval) :
  produced r ->
  (has_key r (py "error") = true /\ py_contains r (py "error") = Ok true)
  \/ (has_key r (py "error") = false
      /\ py_contains r (py "error") = Ok false
      /\ exists row, csv_row r = Ok row).
Proof.
  intros [io clock compensated file_path | e file_path].
  - destruct (read_file io file_path) as [t|e] eqn:Hr.
    + destruct t as [|c t].
      * rewrite (parse_no_text io clock compensated file_path Hr).
        left. split; reflexivity.
      * right.
        assert (Ht : c :: t <> []) by discriminate.
        rewrite (@parse_value U io clock compensated file_path _ Hr Ht).
        repeat split; try reflexivity. eexists.
        apply (@csv_row_fields (VStr file_path) (extract_contact_info (c :: t))
                 (extract_skills (c :: t))
                 (extract_education (now_year clock) (c :: t))
                 (extract_experience (c :: t))).
        reflexivity.
    + rewrite (parse_reader_failure io clock compensated file_path Hr).
      left. split; reflexivity.
  - left. split; reflexivity.
Qed.

Lemma rows_exist (parsed_results : list pyval) :
  Forall produced parsed_results ->
  exists rows, csv_rows parsed_results = Ok rows.
Proof.
  induction 1 as [|r rest Hr _ (rows & IH)].
  - exists []. reflexivity.
  - cbn [csv_rows].
    destruct (produced_row Hr) as [(_ & ->) | (_ & -> & row & Hrow)];
      cbn [bind].
    + exists rows. exact IH.
    + exists (row :: rows). rewrite Hrow, IH. reflexivity.
Qed.

(** X19. On the results the program produces, building the rows never raises:
    there is one row for each result without an ['error'] key, in the
    order of the results, and none for the others. *)
Theorem one_row_per_parsed_resume (parsed_results : list pyval) :
  Forall produced parsed_results ->
  exists rows,
    csv_rows parsed_results = Ok rows
    /\ Forall2 (fun r row => csv_row r = Ok row)
               (filter (fun r => negb (has_key r (py "error")))
                       parsed_results)
               rows.
Proof.
  induction 1 as [|r rest Hr _ (rows & IH & IH2)].
  - exists []. split; [reflexivity | constructor].
  - cbn [csv_rows filter].
    destruct (produced_row Hr) as [(Hk & ->) | (Hk & -> & row & Hrow)];
      rewrite Hk; cbn [bind negb].
    + exists rows. split; assumption.
    + exists (row :: rows). rewrite Hrow, IH. cbn [bind].
      split; [reflexivity | constructor; assumption].
Qed.

End ExportRows.

(** ** The batch *)

Section BatchResults.

Context {U : Unicode}.

Variable world : Type.
Variable listdir : text -> world -> result (list text).
Variable makedirs : text -> world -> result world.
Variable timestamp : world -> text.
Variable join_path : text -> text -> text.
Variable write_json : text -> pyval -> world -> result world.
Variable to_csv : list (dict pyval) -> text -> world -> result world.
Variable io : world -> Readers.
Variable clock : world -> Clock.
Variable compensated : bool.
Variable after_failure : text -> world -> world.

Let each :=
  parse_each makedirs timestamp join_path write_json io clock compensated
             after_failure.

Let batch :=
  parse_multiple_resumes listdir makedirs timestamp join_path write_json
                         to_csv io clock compensated after_failure.

(** What the loop appends for one file: the result of [parse] when it
    could be saved, and else an entry with the message of the exception
    and the path. *)
Definition entry_of (file_path : text) (r : pyval) : Prop :=
  (exists w, r = parse (io w) (clock w) compensated file_path)
  \/ (exists e, r = VDict [ (py "error", VStr (exn_message e));
                           (py "file", VStr file_path) ]).

Lemma each_appends (P : text -> pyval -> Prop) :
  (forall st file_path,
      exists r, fst (each st file_path) = fst st ++ [r] /\ P file_path r) ->
  forall files st,
  exists entries,
    fst (fold_left each files st) = fst st ++ entries
    /\ Forall2 P files entries.
Proof.
  intros Hstep files. induction files as [|f files IH]; intros st.
  - exists []. rewrite app_nil_r. split; [reflexivity | constructor].
  - cbn [fold_left].
    destruct (Hstep st f) as (r & Hr & Pr).
    destruct (IH (each st f)) as (entries & He & Pe).
    exists (r :: entries). rewrite He, Hr, <- app_assoc.
    split; [reflexivity | constructor; assumption].
Qed.

Lemma each_entry (st : list pyval * world) (file_path : text) :
  exists r, fst (each st file_path) = fst st ++ [r] /\ entry_of file_path r.
Proof.
  unfold each, parse_each, parse_single_resume.
  destruct (save_parsed_resume _ _ _ _ _ _ _) as [[path w']|e];
    cbn [bind fst snd].
  - eexists. split; [reflexivity|]. left. eexists; reflexivity.
  - eexists. split; [reflexivity|]. right. eexists; reflexivity.
Qed.

Lemma entries_produced (files : list text) (entries : list pyval) :
  Forall2 entry_of files entries -> Forall produced entries.
Proof.
  induction 1 as [|f r files entries [(w & ->) | (e & ->)] _ IH];
    constructor; solve [constructor | exact IH].
Qed.

Lemma entries_of_paths (P : text -> pyval -> Prop) (f : text -> text)
      (files : list text) (entries : list pyval) :
  Forall2 P (map f files) entries ->
  Forall2 (fun file r => P (f file) r) files entries.
Proof.
  revert entries. induction files as [|x files IH]; intros entries H;
    inversion H; subst; constructor; auto.
Qed.

(** X20. A batch fails only when the directory cannot be listed or the table
    cannot be written: no resume makes it fail.  When it returns, the
    results are one entry for each file of the directory that ends in
    '.pdf', '.docx' or '.txt', in the order of the listing, and each
    entry is the parse result of the file or an error entry for it. *)
Theorem batch_has_one_entry_per_file (directory : text) (files : list text)
        (w : world) :
  listdir directory w = Ok files ->
  (exists e, batch directory w = Raise e
             /\ exists rows name w1, to_csv rows name w1 = Raise e)
  \/ (exists results w',
        batch directory w = Ok (results, w')
        /\ Forall2 (fun file r => entry_of (join_path directory file) r)
                   (filter is_resume_file files) results).
Proof.
  intros Hl. unfold batch, parse_multiple_resumes. rewrite Hl. cbn [bind].
  destruct (each_appends entry_of each_entry
              (map (join_path directory) (filter is_resume_file files))
              ([], w)) as (entries & He & Pe).
  fold each. cbn [fst app] in He. rewrite He.
  pose proof (@entries_of_paths entry_of (join_path directory) _ _ Pe) as Pf.
  destruct entries as [|r entries].
  - right. eexists _, _. split; [reflexivity | exact Pf].
  - unfold export_to_csv.
    destruct (rows_exist (entries_produced Pe)) as (rows & ->).
    cbn [bind].
    destruct (to_csv rows _ _) as [w2|e] eqn:Ec; cbn [bind snd].
    + right. eexists _, _. split; [reflexivity | exact Pf].
    + left. exists e. split; [reflexivity|]. eexists _, _, _. exact Ec.
Qed.

(** A resume that is read but in which no name is found is not among the
    parse results of a batch: saving it raises, so, when the output
    directory can be made, its entry is the error entry of the
    [AttributeError], and the table has no row for it. *)
Lemma nameless_entry (st : list pyval * world) (file_path t : text)
      (w1 : world) :
  read_file (io (snd st)) file_path = Ok t -> t <> [] ->
  extract_name t = None ->
  makedirs (py "output") (snd st) = Ok w1 ->
  fst (each st file_path)
  = fst st
    ++ [ VDict [ (py "error",
                   VStr (py "'NoneType' object has no attribute 'replace'"));
                 (py "file", VStr file_path) ] ].
Proof.
  intros Hr Ht Hn Hm.
  unfold each, parse_each, parse_single_resume, save_parsed_resume.
  rewrite Hm. cbn [bind].
  rewrite (@parse_value U (io (snd st)) (clock (snd st)) compensated
             file_path t Hr Ht).
  change (py_get _ (py "contact") (VDict []))
    with (Ok (contact_py (extract_contact_info t))).
  cbn [bind].
  change (py_get _ (py "name") (VStr (py "unknown")))
    with (Ok (opt_py (extract_name t))).
  rewrite Hn. reflexivity.
Qed.

(** X21. In a batch, a resume that is read but in which no name is found is
    not among the parse results: saving it raises, so its entry is the
    error entry of the [AttributeError] (and the table has no row for
    it).  Here the files read the same in every state and the output
    directory can be made. *)
Theorem nameless_resume_is_an_error_entry (directory : text)
        (results : list pyval) (w w' : world) :
  (forall w0, exists w1, makedirs (py "output") w0 = Ok w1) ->
  batch directory w = Ok (results, w') ->
  exists files,
    listdir directory w = Ok files
    /\ Forall2
         (fun file r =>
            forall t,
              (forall w0,
                  read_file (io w0) (join_path directory file) = Ok t) ->
              t <> [] -> extract_name t = None ->
              r = VDict [ (py "error",
                            VStr (py "'NoneType' object has no attribute 'replace'"));
                          (py "file", VStr (join_path directory file)) ])
         (filter is_resume_file files) results.
Proof.
  intros Hm Hb. unfold batch, parse_multiple_resumes in Hb.
  destruct (listdir directory w) as [files|e]; [|discriminate].
  exists files. split; [reflexivity|]. cbn [bind] in Hb.
  set (P := fun (file_path : text) (r : pyval) =>
              forall t,
                (forall w0, read_file (io w0) file_path = Ok t) ->
                t <> [] -> extract_name t = None ->
                r = VDict [ (py "error",
                              VStr (py "'NoneType' object has no attribute 'replace'"));
                            (py "file", VStr file_path) ]).
  assert (Hstep : forall st file_path,
             exists r, fst (each st file_path) = fst st ++ [r]
                       /\ P file_path r).
  { intros st file_path.
    destruct (each_entry st file_path) as (r & Hr & _).
    exists r. split; [exact Hr|]. intros t Ht Hne Hn.
    destruct (Hm (snd st)) as (w1 & Hw1).
    rewrite (@nameless_entry st file_path t w1 (Ht (snd st)) Hne Hn Hw1)
      in Hr.
    apply app_inj_tail in Hr. symmetry. exact (proj2 Hr). }
  destruct (each_appends P Hstep
              (map (join_path directory) (filter is_resume_file files))
              ([], w)) as (entries & He & Pe).
  fold each in Hb. cbn [fst app] in He. rewrite He in Hb.
  pose proof (@entries_of_paths P (join_path directory) _ _ Pe) as Pf.
  assert (results = entries) as ->; [|exact Pf].
  destruct entries as [|r entries]; [congruence|].
  destruct (export_to_csv _ _ _ _) as [saved|e]; [|discriminate].
  cbn [bind] in Hb. congruence.
Qed.

End BatchResults.

(** ** The advanced parse *)

Section AdvancedResults.

Context {U : Unicode}.

Variable nlp : text -> result Doc.
Variable stopwords : list text.
Variable set_order : list text -> list text.
Variable io : Readers.
Variable clock : Clock.
Variable compensated : bool.
Variable strptime : text -> option (Z * Z).
Variable now : Z * Z.

Let advanced :=
  parse_advanced nlp stopwords set_order io clock compensated strptime now.

(** X22. [parse_advanced] returns an error result of [parse] as it is.  For a
    file with text it never returns a result with an experience entry:
    when [extract_experience] finds one it raises (the [NameError] for
    [re], unless spaCy raises first), and so every result it returns has
    the experience level "Entry Level" and an empty experience list. *)
Theorem advanced_parse_returns_no_experience (file_path : text) :
  (has_key (parse io clock compensated file_path) (py "error") = true ->
   advanced file_path = Ok (parse io clock compensated file_path))
  /\ (forall t,
        read_file io file_path = Ok t -> t <> [] ->
        (extract_experience t <> [] ->
         (exists e, advanced file_path = Raise e)
         /\ ((forall s, exists doc, nlp s = Ok doc) ->
             advanced file_path = Raise (NameError (py "re"))))
        /\ (forall r,
              advanced file_path = Ok r ->
              extract_experience t = []
              /\ item_of r (py "experience") = Some (VList [])
              /\ exists adv,
                   item_of r (py "advanced") = Some (VDict adv)
                   /\ dict_get adv (py "experience_level")
                      = Some (VStr (py "Entry Level")))).
Proof.
  split.
  - intros He. unfold advanced, parse_advanced. rewrite He. reflexivity.
  - intros t Hr Ht.
    assert (Hadv :
      advanced file_path
      = (name_nlp <- extract_name_nlp nlp t ;;
         entities <- extract_entities nlp t ;;
         key_phrases <- extract_key_phrases nlp stopwords set_order t ;;
         achievements <- extract_achievements nlp t ;;
         experience_level <-
           analyze_experience_level strptime now advanced_parser_globals
             (parse io clock compensated file_path) ;;
         py_set_item (parse io clock compensated file_path) (py "advanced")
           (VDict [ (py "name_nlp", opt_py name_nlp);
                    (py "entities", entities);
                    (py "key_phrases", strs_py key_phrases);
                    (py "achievements", strs_py achievements);
                    (py "experience_level", VStr experience_level) ]))).
    { unfold advanced, parse_advanced.
      rewrite (@parse_value U io clock compensated file_path t Hr Ht) at 1.
      change (has_key _ (py "error")) with false. cbv iota.
      rewrite Hr. reflexivity. }
    assert (Hlevel :
      extract_experience t <> [] ->
      analyze_experience_level strptime now advanced_parser_globals
        (parse io clock compensated file_path)
      = Raise (NameError (py "re"))).
    { intros Hx.
      rewrite (@parse_value U io clock compensated file_path t Hr Ht).
      destruct (extract_experience t) as [|x xs] eqn:Ex; [congruence|].
      eapply (@level_raises_name_error U strptime now _ _
                (map experience_py xs)).
      cbn. rewrite Ex. reflexivity. }
    split.
    + intros Hx. rewrite Hadv, (Hlevel Hx). split.
      * destruct (extract_name_nlp nlp t); [|eexists; reflexivity].
        destruct (extract_entities nlp t); [|eexists; reflexivity].
        destruct (extract_key_phrases nlp stopwords set_order t);
          [|eexists; reflexivity].
        destruct (extract_achievements nlp t); eexists; reflexivity.
      * intros Hn. unfold extract_name_nlp, extract_entities,
          extract_key_phrases, extract_achievements.
        destruct (Hn (join [NL] (firstn 10 (split_on NL t)))) as (d1 & ->).
        destruct (Hn t) as (d2 & ->). cbn [bind].
        destruct (find _ _); reflexivity.
    + intros r Hres.
      destruct (extract_experience t) as [|x xs] eqn:Ex.
      * rewrite Hadv in Hres.
        rewrite (@parse_value U io clock compensated file_path t Hr Ht)
          in Hres.
        destruct (extract_name_nlp nlp t); [|discriminate].
        destruct (extract_entities nlp t); [|discriminate].
        destruct (extract_key_phrases nlp stopwords set_order t);
          [|discriminate].
        destruct (extract_achievements nlp t); [|discriminate].
        cbn [bind] in Hres.
        unfold analyze_experience_level in Hres.
        change (py_get _ (py "experience") (VList []))
          with (Ok (VList (map experience_py (extract_experience t))))
          in Hres.
        rewrite Ex in Hres. cbn [bind map py_truth negb] in Hres.
        cbn [py_set_item] in Hres. injection Hres as <-.
        split; [reflexivity|]. split.
        -- cbn. rewrite Ex. reflexivity.
        -- eexists. split; reflexivity.
      * exfalso. rewrite Hadv, Hlevel in Hres by discriminate.
        destruct (extract_name_nlp nlp t); [|discriminate].
        destruct (extract_entities nlp t); [|discriminate].
        destruct (extract_key_phrases nlp stopwords set_order t);
          [|discriminate].
        destruct (extract_achievements nlp t); discriminate.
Qed.

End AdvancedResults.

(** ** The entities by label *)

(** The texts of the entities that carry one of the labels, in the order
    of the document. *)
Definition labelled (labels : list string) (spans : list Span) : list text :=
  map span_text
      (filter (fun ent => existsb (text_eqb (label_ ent)) (texts labels))
              spans).

Lemma entity_step_labelled (entities : Entities) (ent : Span) :
  entity_step entities ent
  = {| persons := persons entities ++ labelled ["PERSON"%string] [ent];
       organizations := organizations entities ++ labelled ["ORG"%string] [ent];
       locations :=
         locations entities ++ labelled ["GPE"; "LOC"]%string [ent];
       dates := dates entities ++ labelled ["DATE"%string] [ent];
       money := money entities ++ labelled ["MONEY"%string] [ent];
       percentages :=
         percentages entities ++ labelled ["PERCENT"%string] [ent] |}.
Proof.
  unfold entity_step, labelled. cbn [filter texts map existsb].
  rewrite !orb_false_r.
  destruct (text_eqb (label_ ent) (py "PERSON")) eqn:E1.
  { apply text_eqb_spec in E1. rewrite E1. cbn. rewrite !app_nil_r.
    destruct entities; reflexivity. }
  destruct (text_eqb (label_ ent) (py "ORG")) eqn:E2.
  { apply text_eqb_spec in E2. rewrite E2. cbn. rewrite !app_nil_r.
    destruct entities; reflexivity. }
  destruct (text_eqb (label_ ent) (py "GPE")) eqn:E3.
  { apply text_eqb_spec in E3. rewrite E3. cbn. rewrite !app_nil_r.
    destruct entities; reflexivity. }
  destruct (text_eqb (label_ ent) (py "LOC")) eqn:E4.
  { apply text_eqb_spec in E4. rewrite E4. cbn. rewrite !app_nil_r.
    destruct entities; reflexivity. }
  cbn [orb].
  destruct (text_eqb (label_ ent) (py "DATE")) eqn:E5.
  { apply text_eqb_spec in E5. rewrite E5. cbn. rewrite !app_nil_r.
    destruct entities; reflexivity. }
  destruct (text_eqb (label_ ent) (py "MONEY")) eqn:E6.
  { apply text_eqb_spec in E6. rewrite E6. cbn. rewrite !app_nil_r.
    destruct entities; reflexivity. }
  destruct (text_eqb (label_ ent) (py "PERCENT")) eqn:E7.
  { cbn. rewrite !app_nil_r. destruct entities; reflexivity. }
  cbn. rewrite !app_nil_r. destruct entities; reflexivity.
Qed.

Lemma labelled_app (labels : list string) (a b : list Span) :
  labelled labels (a ++ b) = labelled labels a ++ labelled labels b.
Proof. unfold labelled. rewrite filter_app, map_app. reflexivity. Qed.

Lemma entities_fold (spans : list Span) (entities : Entities) :
  fold_left entity_step spans entities
  = {| persons := persons entities ++ labelled ["PERSON"%string] spans;
       organizations := organizations entities ++ labelled ["ORG"%string] spans;
       locations :=
         locations entities ++ labelled ["GPE"; "LOC"]%string spans;
       dates := dates entities ++ labelled ["DATE"%string] spans;
       money := money entities ++ labelled ["MONEY"%string] spans;
       percentages :=
         percentages entities ++ labelled ["PERCENT"%string] spans |}.
Proof.
  revert entities. induction spans as [|ent spans IH]; intros entities.
  - cbn. rewrite !app_nil_r. destruct entities; reflexivity.
  - cbn [fold_left]. rewrite IH, entity_step_labelled.
    cbn [persons organizations locations dates money percentages].
    change (ent :: spans) with ([ent] ++ spans).
    rewrite !labelled_app, !app_assoc. reflexivity.
Qed.

(** X23. [extract_entities] raises only what spaCy raises.  Each of its six
    lists holds the texts of the entities of its label, in the order of
    the document and with repetitions; GPE and LOC entities share
    'locations'; entities of other labels are in no list. *)
Theorem entities_by_label (nlp : text -> result Doc) (t : text) :
  extract_entities nlp t
  = (doc <- nlp t ;;
     Ok (VDict
           [ (py "persons", strs_py (labelled ["PERSON"%string] (ents doc)));
             (py "organizations",
               strs_py (labelled ["ORG"%string] (ents doc)));
             (py "locations",
               strs_py (labelled ["GPE"; "LOC"]%string (ents doc)));
             (py "dates", strs_py (labelled ["DATE"%string] (ents doc)));
             (py "money", strs_py (labelled ["MONEY"%string] (ents doc)));
             (py "percentages",
               strs_py (labelled ["PERCENT"%string] (ents doc))) ])).
Proof.
  unfold extract_entities. destruct (nlp t) as [doc|e]; [|reflexivity].
  cbn [bind]. rewrite entities_fold. reflexivity.
Qed.

(** ** The theorems at work *)

(** A disk whose text files all hold the worked example. *)
Definition one_resume : Readers :=
  {| read_pdf := fun _ => Raise (OSError (py "No such file or directory"));
     read_docx := fun _ => Raise (OSError (py "No such file or directory"));
     read_txt := fun _ => Ok worked_example |}.

Lemma csv_row_of_parse_witness :
  @read_file Ascii7.tables one_resume (py "jane.txt") = Ok worked_example
  /\ worked_example <> []
  /\ exists row,
       csv_row (@parse Ascii7.tables one_resume noon true (py "jane.txt"))
       = Ok row
       /\ dict_get row (py "Name") = Some (VStr (py "Jane Doe"))
       /\ dict_get row (py "Experience_Count") = Some (VInt 1)
       /\ dict_keys row
          = texts ["Name"; "Email"; "Phone"; "LinkedIn"; "Skills";
                   "Experience_Count"; "Education_Count"; "Overall_Score";
                   "Experience_1_Position"; "Experience_1_Company";
                   "Education_1_Degree"; "Education_1_Institution"]%string.
Proof.
  assert (Hr : @read_file Ascii7.tables one_resume (py "jane.txt")
               = Ok worked_example) by reflexivity.
  assert (Ht : worked_example <> []) by discriminate.
  split; [exact Hr | split; [exact Ht|]].
  exists (@row_of Ascii7.tables noon true (py "jane.txt") worked_example).
  split.
  - exact (@csv_row_of_parse Ascii7.tables one_resume noon true
             (py "jane.txt") worked_example Hr Ht).
  - repeat split; vm_compute; reflexivity.
Defined.

Definition two_results : list pyval :=
  [ @parse Ascii7.tables one_resume noon true (py "jane.txt");
    VDict [ (py "error", VStr (exn_message (OSError (py "Disk full"))));
            (py "file", VStr (py "john.txt")) ] ].

Lemma one_row_per_parsed_resume_witness :
  Forall (@produced Ascii7.tables) two_results
  /\ exists row, csv_rows two_results = Ok [row].
Proof.
  assert (H : Forall (@produced Ascii7.tables) two_results)
    by (repeat constructor).
  split; [exact H|].
  destruct (@one_row_per_parsed_resume Ascii7.tables two_results H)
    as (rows & Hrows & Hall).
  assert (Hf : filter (fun r => negb (has_key r (py "error"))) two_results
               = [ @parse Ascii7.tables one_resume noon true (py "jane.txt") ])
    by (vm_compute; reflexivity).
  rewrite Hf in Hall.
  inversion Hall as [|r row rest rows' _ Hrest]; subst.
  inversion Hrest; subst.
  exists row. exact Hrows.
Defined.

(** A directory with a text file of notes and a picture. *)
Definition folder_listdir (directory : text) (w : disk) : result (list text) :=
  Ok (texts ["notes.txt"; "photo.png"]%string).

Definition disk_to_csv (rows : list (dict pyval)) (name : text) (w : disk)
  : result disk :=
  Ok ((name, VList (map (fun row => VDict row) rows)) :: w).

Definition folder_batch : text -> disk -> result (list pyval * disk) :=
  @parse_multiple_resumes Ascii7.tables disk folder_listdir disk_makedirs
    disk_timestamp disk_join disk_write disk_to_csv
    (fun _ => notes_only) (fun _ => noon) true (fun _ w => w).

Lemma batch_has_one_entry_per_file_witness :
  folder_listdir (py "cv") [] = Ok (texts ["notes.txt"; "photo.png"]%string)
  /\ exists results w',
       folder_batch (py "cv") [] = Ok (results, w')
       /\ List.length results = 1.
Proof.
  assert (Hl : folder_listdir (py "cv") []
               = Ok (texts ["notes.txt"; "photo.png"]%string)) by reflexivity.
  split; [exact Hl|].
  destruct (@batch_has_one_entry_per_file Ascii7.tables disk folder_listdir
              disk_makedirs disk_timestamp disk_join disk_write disk_to_csv
              (fun _ => notes_only) (fun _ => noon) true (fun _ w => w)
              (py "cv") _ [] Hl)
    as [(e & _ & rows & name & w1 & He) | (results & w' & Hb & Hall)].
  - discriminate He.
  - exists results, w'. split; [exact Hb|].
    apply Forall2_length in Hall. rewrite <- Hall. reflexivity.
Defined.

Lemma nameless_resume_is_an_error_entry_witness :
  (forall w0 : disk, exists w1, disk_makedirs (py "output") w0 = Ok w1)
  /\ folder_batch (py "cv") []
     = Ok ([ VDict [ (py "error",
                       VStr (py "'NoneType' object has no attribute 'replace'"));
                     (py "file", VStr (py "cv/notes.txt")) ] ],
           [ (py "parsed_resumes.csv", VList []) ])
  /\ @extract_name Ascii7.tables (py "hello world") = None.
Proof.
  assert (Hm : forall w0 : disk,
             exists w1, disk_makedirs (py "output") w0 = Ok w1)
    by (intros w0; exists w0; reflexivity).
  split; [exact Hm|].
  assert (Hn : @extract_name Ascii7.tables (py "hello world") = None)
    by (vm_compute; reflexivity).
  split; [|exact Hn].
  destruct (folder_batch (py "cv") []) as [[results w']|e] eqn:Hb;
    [|vm_compute in Hb; discriminate].
  destruct (@nameless_resume_is_an_error_entry Ascii7.tables disk
              folder_listdir disk_makedirs disk_timestamp disk_join
              disk_write disk_to_csv (fun _ => notes_only) (fun _ => noon)
              true (fun _ w => w) (py "cv") results [] w' Hm Hb)
    as (files & Hl & Hall).
  injection Hl as <-.
  change (filter is_resume_file (texts ["notes.txt"; "photo.png"]%string))
    with [py "notes.txt"] in Hall.
  inversion Hall as [|f r fs rs Hr Hrest]; subst.
  inversion Hrest; subst.
  rewrite (Hr (py "hello world") (fun _ => eq_refl) ltac:(discriminate) Hn).
  vm_compute in Hb. injection Hb as _ <-. reflexivity.
Defined.

(** A spaCy that finds nothing in any text. *)
Definition blank_nlp (t : text) : result Doc :=
  Ok {| ents := []; noun_chunks := []; doc_tokens := []; sents := [] |}.

Lemma advanced_parse_returns_no_experience_witness :
  @read_file Ascii7.tables one_resume (py "jane.txt") = Ok worked_example
  /\ worked_example <> []
  /\ @extract_experience Ascii7.tables worked_example <> []
  /\ @parse_advanced Ascii7.tables blank_nlp [] (fun l => l) one_resume noon
                     true (fun _ => None) (2026, 11)%Z (py "jane.txt")
     = Raise (NameError (py "re")).
Proof.
  assert (Hr : @read_file Ascii7.tables one_resume (py "jane.txt")
               = Ok worked_example) by reflexivity.
  assert (Ht : worked_example <> []) by discriminate.
  assert (Hx : @extract_experience Ascii7.tables worked_example <> [])
    by (vm_compute; discriminate).
  repeat (split; [assumption|]).
  apply (proj1 (proj2 (@advanced_parse_returns_no_experience Ascii7.tables
                         blank_nlp [] (fun l => l) one_resume noon true
                         (fun _ => None) (2026, 11)%Z (py "jane.txt"))
                      worked_example Hr Ht) Hx).
  intros s. eexists. reflexivity.
Defined.

(** ** Documents without text *)

Section DocumentResults.

Context {U : Unicode}.

Lemma grows_empty (A : Type) (f : text -> A -> text) (keep : A -> bool)
      (l : list A) :
  (forall acc a, if keep a then exists c s, f acc a = acc ++ c :: s
                 else f acc a = acc) ->
  forall acc,
    (exists s, fold_left f l acc = acc ++ s
               /\ (s = [] <-> forallb (fun a => negb (keep a)) l = true)).
Proof.
  intros Hf. induction l as [|a l IH]; intros acc.
  - exists []. rewrite app_nil_r. split; [reflexivity | tauto].
  - cbn [fold_left forallb]. specialize (Hf acc a).
    destruct (IH (f acc a)) as (s & Hs & Hiff). rewrite Hs.
    destruct (keep a); cbn [negb andb].
    + destruct Hf as (c & s0 & ->). exists ((c :: s0) ++ s).
      rewrite app_assoc. split; [reflexivity|].
      split; [discriminate | discriminate].
    + rewrite Hf. exists s. split; [reflexivity | exact Hiff].
Qed.

Lemma forallb_negb (A : Type) (keep : A -> bool) (l : list A) :
  forallb (fun a => negb (keep a)) l = negb (existsb keep l).
Proof.
  induction l as [|a l IH]; [reflexivity|].
  cbn [forallb existsb]. rewrite IH, negb_orb. reflexivity.
Qed.

(** A page with text, a paragraph and a cell that are not blank. *)
Definition has_text (page_text : option text) : bool :=
  match page_text with
  | Some s => nonempty s
  | None => false
  end.

Definition not_blank (s : text) : bool := nonempty (strip s).

Lemma row_text_nonempty (row : list text) :
  nonempty (join (py " | ") (map strip (filter not_blank row)))
  = existsb not_blank row.
Proof.
  induction row as [|cell row IH]; [reflexivity|].
  cbn [filter existsb]. destruct (not_blank cell) eqn:E; [|exact IH].
  cbn [map join orb]. unfold not_blank in E.
  destruct (strip cell) as [|c s]; [discriminate|].
  destruct (map strip (filter not_blank row)); reflexivity.
Qed.

Variable open_pdf : text -> result (list (option text)).
Variable open_docx : text -> result (list text * list (list (list text))).
Variable open_txt : text -> result text.

Let io := document_readers open_pdf open_docx open_txt.

Lemma read_pdf_empty (file_path : text) (pages : list (option text)) :
  open_pdf file_path = Ok pages ->
  exists t,
    _read_pdf open_pdf file_path = Ok t
    /\ (t = [] <-> existsb has_text pages = false).
Proof.
  intros Ho. unfold _read_pdf. rewrite Ho. cbn [bind].
  destruct (@grows_empty (option text)
              (fun t page_text =>
                 match page_text with
                 | Some s => if nonempty s then t ++ s ++ [NL] else t
                 | None => t
                 end) has_text pages) with (acc := @nil char)
    as (s & Hs & Hiff).
  - intros acc [[|c s]|]; cbn [has_text nonempty]; try reflexivity.
    exists c, (s ++ [NL]). reflexivity.
  - exists s. split; [f_equal; exact Hs|].
    rewrite Hiff, forallb_negb, negb_true_iff. tauto.
Qed.

Lemma read_docx_empty (file_path : text) (paragraphs : list text)
      (tables : list (list (list text))) :
  open_docx file_path = Ok (paragraphs, tables) ->
  exists t,
    _read_docx open_docx file_path = Ok t
    /\ (t = [] <-> existsb not_blank paragraphs = false
                   /\ existsb (existsb (existsb not_blank)) tables = false).
Proof.
  intros Ho. unfold _read_docx. rewrite Ho. cbn [bind fst snd].
  assert (Hrow : forall acc row,
             if existsb not_blank row
             then exists c s, row_step acc row = acc ++ c :: s
             else row_step acc row = acc).
  { intros acc row. unfold row_step. fold not_blank.
    rewrite row_text_nonempty.
    destruct (existsb not_blank row) eqn:E; [|reflexivity].
    rewrite <- row_text_nonempty in E.
    destruct (join _ _) as [|c s]; [discriminate|].
    exists c, (s ++ [NL]). reflexivity. }
  assert (Htable : forall acc table,
             if existsb (existsb not_blank) table
             then exists c s, fold_left row_step table acc = acc ++ c :: s
             else fold_left row_step table acc = acc).
  { intros acc table.
    destruct (@grows_empty (list text) row_step (existsb not_blank) table
                Hrow acc) as (s & Hs & Hiff).
    rewrite forallb_negb, negb_true_iff in Hiff. rewrite Hs.
    destruct (existsb (existsb not_blank) table).
    - destruct s as [|c s]; [|exists c, s; reflexivity].
      destruct Hiff as [Hiff _]. discriminate (Hiff eq_refl).
    - rewrite (proj2 Hiff eq_refl). apply app_nil_r. }
  destruct (@grows_empty text
              (fun t paragraph =>
                 if nonempty (strip paragraph) then t ++ paragraph ++ [NL]
                 else t) not_blank paragraphs) with (acc := @nil char)
    as (s1 & Hs1 & Hiff1).
  { intros acc paragraph. unfold not_blank.
    destruct (nonempty (strip paragraph)) eqn:E; [|reflexivity].
    destruct paragraph as [|c p].
    - exists NL, []. reflexivity.
    - exists c, (p ++ [NL]). reflexivity. }
  destruct (@grows_empty (list (list text))
              (fun t table => fold_left row_step table t)
              (existsb (existsb not_blank)) tables Htable s1)
    as (s2 & Hs2 & Hiff2).
  exists (s1 ++ s2). split.
  { f_equal. etransitivity; [|exact Hs2]. f_equal. exact Hs1. }
  rewrite forallb_negb, negb_true_iff in Hiff1, Hiff2.
  rewrite <- Hiff1, <- Hiff2. split.
  - intros E. apply app_eq_nil in E. exact E.
  - intros [-> ->]. reflexivity.
Qed.

Variable clock : Clock.
Variable compensated : bool.

Lemma no_text_error (file_path t : text) :
  read_file io file_path = Ok t ->
  (parse io clock compensated file_path
   = VDict [ (py "error",
               VStr (py "No text could be extracted from the file")) ]
   <-> t = []).
Proof.
  intros Hr. split.
  - intros Hp. destruct t as [|c t]; [reflexivity|]. exfalso.
    destruct (@parse_of_text U io clock compensated file_path (c :: t) Hr
                ltac:(discriminate)) as (scores & _ & E).
    rewrite E in Hp.
    apply (f_equal (fun r => has_key r (py "error"))) in Hp.
    discriminate Hp.
  - intros ->. exact (parse_no_text io clock compensated file_path Hr).
Qed.

(** X15. A PDF file that opens is reported as one from which no text could be
    extracted exactly when none of its pages has text, and a Word file
    exactly when its paragraphs and the cells of its tables are all
    blank. *)
Theorem document_without_text_is_an_error (file_path : text) :
  let file_ext := last (split_on (Re.ch ".") (str_lower file_path)) [] in
  let no_text :=
    parse io clock compensated file_path
    = VDict [ (py "error",
                VStr (py "No text could be extracted from the file")) ] in
  (forall pages,
      file_ext = py "pdf" -> open_pdf file_path = Ok pages ->
      no_text <-> existsb has_text pages = false)
  /\ (forall paragraphs tables,
        file_ext = py "docx" \/ file_ext = py "doc" ->
        open_docx file_path = Ok (paragraphs, tables) ->
        no_text <-> existsb not_blank paragraphs = false
                    /\ existsb (existsb (existsb not_blank)) tables = false).
Proof.
  cbv zeta. split.
  - intros pages He Ho.
    destruct (read_pdf_empty Ho) as (t & Hr & Hiff).
    rewrite <- Hiff. apply no_text_error.
    unfold read_file. rewrite He. exact Hr.
  - intros paragraphs tables He Ho.
    destruct (read_docx_empty Ho) as (t & Hr & Hiff).
    rewrite <- Hiff. apply no_text_error.
    unfold read_file. destruct He as [-> | ->]; exact Hr.
Qed.

End DocumentResults.

(** ** Formats that are not read *)

Lemma read_file_unsupported {U : Unicode} (io : Readers) (file_path : text) :
  let file_ext := last (split_on (Re.ch ".") (str_lower file_path)) [] in
  existsb (text_eqb file_ext) (texts ["pdf"; "docx"; "doc"; "txt"]%string)
  = false ->
  read_file io file_path
  = Raise (ValueError (py "Unsupported file format: " ++ file_ext)).
Proof.
  cbv zeta. unfold read_file.
  generalize (last (split_on (Re.ch ".") (str_lower file_path)) []).
  intros ext H.
  change (texts ["pdf"; "docx"; "doc"; "txt"]%string)
    with ([py "pdf"] ++ texts ["docx"; "doc"]%string ++ [py "txt"]) in H.
  rewrite !existsb_app in H. rewrite !orb_false_iff in H.
  destruct H as (H1 & H2 & H3).
  cbn [existsb] in H1, H3. rewrite orb_false_r in H1, H3.
  rewrite H1, H2, H3. reflexivity.
Qed.

Lemma value_error_message (msg : text) : exn_message (ValueError msg) = msg.
Proof. reflexivity. Qed.

(** X14. A path whose last dot-separated part, in lower case, is none of
    'pdf', 'docx', 'doc' and 'txt' is not read at all: whatever the
    readers would do, [parse] returns the error result that names this
    part. *)
Theorem unsupported_format_is_an_error {U : Unicode} (io : Readers)
        (clock : Clock) (compensated : bool) (file_path : text) :
  let file_ext := last (split_on (Re.ch ".") (str_lower file_path)) [] in
  existsb (text_eqb file_ext) (texts ["pdf"; "docx"; "doc"; "txt"]%string)
  = false ->
  parse io clock compensated file_path
  = VDict [ (py "error", VStr (py "Unsupported file format: " ++ file_ext));
            (py "file", VStr file_path) ].
Proof.
  cbv zeta. intros H.
  pose proof (parse_reader_failure io clock compensated file_path
                (read_file_unsupported io file_path H)) as E.
  rewrite value_error_message in E. exact E.
Qed.

Lemma unsupported_format_is_an_error_witness :
  @parse Ascii7.tables one_empty_file noon true (py "Resume.final.RTF")
  = VDict [ (py "error", VStr (py "Unsupported file format: rtf"));
            (py "file", VStr (py "Resume.final.RTF")) ].
Proof.
  exact (@unsupported_format_is_an_error Ascii7.tables one_empty_file noon
           true (py "Resume.final.RTF") eq_refl).
Defined.

(** A scanned document: two pages, neither with text. *)
Definition scanned_pdf (file_path : text) : result (list (option text)) :=
  Ok [None; Some []].

Definition no_docx (file_path : text)
  : result (list text * list (list (list text))) :=
  Raise (OSError (py "Package not found")).

Definition no_txt (file_path : text) : result text :=
  Raise (OSError (py "No such file or directory")).

Lemma document_without_text_is_an_error_witness :
  @parse Ascii7.tables
         (@document_readers Ascii7.tables scanned_pdf no_docx no_txt)
         noon true (py "scan.pdf")
  = VDict [ (py "error",
              VStr (py "No text could be extracted from the file")) ].
Proof.
  apply (proj1 (@document_without_text_is_an_error Ascii7.tables scanned_pdf
                  no_docx no_txt noon true (py "scan.pdf"))
               [None; Some []] eq_refl eq_refl).
  reflexivity.
Defined.

(** ** Projects *)

Section ProjectResults.

Context {U : Unicode}.

Lemma project_loop_descriptions (lines : list text)
      (st : list text * list text) (d : text) :
  In d (fst (fold_left project_step lines st)) ->
  In d (fst st)
  \/ exists line,
       In line lines /\ d = strip line /\ d <> []
       /\ mentions_technologies d = false.
Proof.
  revert st; induction lines as [|line lines IH]; intros st H;
    cbn [fold_left] in H; [left; exact H|].
  apply IH in H. destruct H as [H | (l & Hl & Hd)].
  - unfold project_step in H.
    destruct (nonempty (strip line)) eqn:En; [|left; exact H].
    destruct (mentions_technologies (strip line)) eqn:Em;
      cbn [fst snd] in H; [left; exact H|].
    apply in_app_iff in H. destruct H as [H | [<- | []]]; [left; exact H|].
    right. exists line. repeat split; [left; reflexivity | | exact Em].
    intros E. rewrite E in En. discriminate.
  - right. exists l. split; [right; exact Hl | exact Hd].
Qed.

(** X11. Projects are read from the block of the 'projects' section alone: a
    text without one has no project.  Every project returned has a name
    that is not empty, and each of its description lines is a stripped
    line of its piece of the block, after the first, that is not empty
    and holds none of the four technology markers. *)
Theorem projects_named_and_described (t : text) :
  (dict_get (extract_sections t) (py "projects") = None ->
   extract_projects t = [])
  /\ forall p,
       In p (extract_projects t) ->
       name p <> []
       /\ exists proj,
            In proj (project_entries t) /\ p = project_entry proj
            /\ forall d,
                 In d (proj_description p) ->
                 d <> [] /\ mentions_technologies d = false
                 /\ exists line,
                      In line (tl (split_on NL (strip proj)))
                      /\ d = strip line.
Proof.
  split.
  - intros H. unfold extract_projects, section_or_empty. rewrite H.
    reflexivity.
  - intros p. unfold extract_projects.
    destruct (nonempty (section_or_empty _ _)); [|intros []].
    intros H. apply filter_In in H. destruct H as [H Hn].
    split; [intros E; rewrite E in Hn; discriminate|].
    apply in_map_iff in H. destruct H as (proj & <- & H).
    apply filter_In in H. destruct H as [H _].
    exists proj. split; [exact H|]. split; [reflexivity|].
    intros d Hd. unfold project_entry in Hd. cbn [proj_description] in Hd.
    apply project_loop_descriptions in Hd.
    destruct Hd as [[] | (line & Hl & Hd & Hne & Hm)].
    split; [exact Hne|]. split; [exact Hm|]. exists line. auto.
Qed.

End ProjectResults.

Definition inventory_tool : text :=
  unlines ["PROJECTS"; "Inventory Tool"; "Tracks stock levels";
           "Tech stack: Python"]%string.

Definition inventory_entry : ProjectEntry :=
  {| name := py "Inventory Tool";
     proj_description := [py "Tracks stock levels"];
     technologies := [py "python"] |}.

Lemma projects_named_and_described_witness :
  In inventory_entry (@extract_projects Ascii7.tables inventory_tool)
  /\ name inventory_entry <> []
  /\ @extract_projects Ascii7.tables worked_example = [].
Proof.
  assert (H : In inventory_entry
                 (@extract_projects Ascii7.tables inventory_tool))
    by (vm_compute; left; reflexivity).
  split; [exact H|]. split.
  - exact (proj1 (proj2 (@projects_named_and_described Ascii7.tables
                           inventory_tool) inventory_entry H)).
  - apply (proj1 (@projects_named_and_described Ascii7.tables
                    worked_example)).
    vm_compute. reflexivity.
Defined.

(** ** The name and the achievements of the advanced parser *)

Lemma contains_char (c : char) (s : text) :
  contains [c] s = true <-> In c s.
Proof.
  induction s as [|x s IH]; cbn [contains startswith In].
  - split; [discriminate | intros []].
  - rewrite andb_true_r, orb_true_iff, IH, N.eqb_eq.
    split; intros [H | H]; auto.
Qed.

Lemma in_firstn (A : Type) (n : nat) (l : list A) (a : A) :
  In a (firstn n l) -> In a l.
Proof.
  revert l. induction n as [|n IH]; intros l; [intros []|].
  destruct l as [|x l]; cbn [firstn In]; [auto|].
  intros [H | H]; auto.
Qed.

Section AdvancedExtractors.

Context {U : Unicode}.

Variable nlp : text -> result Doc.

Lemma words_from_nonempty (s cur w : text) :
  In w (words_from cur s) -> w <> [].
Proof.
  assert (Hrev : forall (c : char) cur', rev (c :: cur') <> []).
  { intros c cur' E. apply (f_equal (@List.length char)) in E.
    rewrite length_rev in E. discriminate. }
  revert cur. induction s as [|c s IH]; intros cur; cbn [words_from].
  - destruct cur as [|x cur]; [intros [] | intros [<- | []]; apply Hrev].
  - destruct (isspace c).
    + destruct cur as [|x cur]; [apply IH|].
      intros [<- | H]; [apply Hrev | exact (IH [] H)].
    + apply IH.
Qed.

(** X24. [extract_name_nlp] shows spaCy the first ten lines only, and
    raises only what spaCy raises.  A name it returns is the text of a
    PERSON entity of these lines that has from 2 to 4 words, each
    starting with an upper-case letter, and none of 'university',
    'college' and 'company' in any case of letters; or else it is the
    name [extract_name] returns.  Without such an entity it returns what
    [extract_name] returns, found or not. *)
Theorem nlp_name_is_checked_or_fallback (t : text) (doc : Doc) :
  nlp (join [NL] (firstn 10 (split_on NL t))) = Ok doc ->
  exists r,
    extract_name_nlp nlp t = Ok r
    /\ ((exists ent,
           In ent (ents doc) /\ label_ ent = py "PERSON"
           /\ r = Some (span_text ent)
           /\ 2 <= List.length (words (span_text ent)) <= 4
           /\ (forall w, In w (words (span_text ent)) ->
                         exists c rest, w = c :: rest /\ isupper c = true)
           /\ forall skip,
                In skip (texts ["university"; "college"; "company"]%string) ->
                contains skip (str_lower (span_text ent)) = false)
        \/ (r = extract_name t
            /\ forall ent,
                 In ent (ents doc) -> label_ ent = py "PERSON" ->
                 person_ok (span_text ent) = false)).
Proof.
  intros Hd. unfold extract_name_nlp. rewrite Hd. cbn [bind].
  destruct (find person_ok _) as [person|] eqn:Ef.
  - exists (Some person). split; [reflexivity|]. left.
    apply find_some in Ef. destruct Ef as [Hin Hok].
    apply in_map_iff in Hin. destruct Hin as (ent & <- & Hin).
    apply filter_In in Hin. destruct Hin as [Hin Hl].
    apply text_eqb_spec in Hl.
    exists ent. split; [exact Hin|]. split; [exact Hl|].
    split; [reflexivity|].
    unfold person_ok in Hok. rewrite !andb_true_iff in Hok.
    destruct Hok as [[[H2 H4] Hup] Hskip].
    apply Nat.leb_le in H2. apply Nat.leb_le in H4.
    split; [lia|]. split.
    + intros w Hw. rewrite forallb_forall in Hup.
      destruct w as [|c rest].
      * exfalso. exact (words_from_nonempty _ _ Hw eq_refl).
      * exists c, rest. split; [reflexivity|].
        apply (Hup (c :: rest)). apply filter_In. split; [exact Hw|].
        reflexivity.
    + intros skip Hs. apply negb_true_iff in Hskip.
      destruct (contains skip (str_lower (span_text ent))) eqn:Ec;
        [|reflexivity].
      rewrite <- Hskip. symmetry. apply existsb_exists.
      exists skip. split; assumption.
  - exists (extract_name t). split; [reflexivity|]. right.
    split; [reflexivity|]. intros ent Hin Hl.
    destruct (person_ok (span_text ent)) eqn:Hok; [|reflexivity].
    exfalso. eapply find_none in Ef.
    + rewrite Hok in Ef. discriminate.
    + apply in_map_iff. exists ent. split; [reflexivity|].
      apply filter_In. split; [exact Hin|]. apply text_eqb_spec. exact Hl.
Qed.

(** X25. [extract_achievements] raises only what spaCy raises.  It
    returns at most ten strings, and each is the stripped form of a
    sentence of the document that holds one of the twenty achievement
    keywords, in any case of letters and also inside a longer word, and
    a digit, a '%' or a '$'. *)
Theorem achievements_are_sentences_with_numbers (t : text) (doc : Doc) :
  nlp t = Ok doc ->
  exists achievements,
    extract_achievements nlp t = Ok achievements
    /\ List.length achievements <= 10
    /\ forall a,
         In a achievements ->
         exists sentence,
           In sentence (sents doc) /\ a = strip sentence
           /\ (exists keyword,
                 In keyword achievement_keywords
                 /\ contains keyword (str_lower sentence) = true)
           /\ exists c,
                In c sentence
                /\ (isdigit c = true \/ c = Re.ch "%" \/ c = Re.ch "$").
Proof.
  intros Hd. unfold extract_achievements. rewrite Hd. cbn [bind].
  eexists. split; [reflexivity|]. split; [apply firstn_le_length|].
  intros a Ha. apply in_firstn in Ha. apply in_map_iff in Ha.
  destruct Ha as (sentence & <- & Hs). apply filter_In in Hs.
  destruct Hs as [Hin Hok]. exists sentence.
  split; [exact Hin|]. split; [reflexivity|].
  unfold is_achievement in Hok. apply andb_true_iff in Hok.
  destruct Hok as [Hk Hn]. split.
  - apply existsb_exists in Hk. exact Hk.
  - apply orb_true_iff in Hn. destruct Hn as [Hn | Hn].
    + apply existsb_exists in Hn. destruct Hn as (c & Hc & Hdig).
      exists c. auto.
    + apply existsb_exists in Hn. destruct Hn as (symbol & Hsym & Hc).
      destruct Hsym as [<- | [<- | []]]; apply contains_char in Hc;
        eexists; split; try exact Hc; auto.
Qed.

End AdvancedExtractors.

(** A tagger that takes an institution and a person for persons, and
    cuts the text into three sentences. *)
Definition tagger (t : text) : result Doc :=
  Ok {| ents := [ {| span_text := py "State University";
                     label_ := py "PERSON"; span_tokens := [] |};
                  {| span_text := py "Jane Doe";
                     label_ := py "PERSON"; span_tokens := [] |} ];
        noun_chunks := [];
        doc_tokens := [];
        sents := texts [" Led a team of 5 engineers. "; "Misled nobody.";
                        "Saved time."]%string |}.

Lemma nlp_name_is_checked_or_fallback_witness :
  @extract_name_nlp Ascii7.tables tagger worked_example
  = Ok (Some (py "Jane Doe")).
Proof.
  destruct (@nlp_name_is_checked_or_fallback Ascii7.tables tagger
              worked_example _ eq_refl) as (r & Hr & _).
  rewrite Hr. vm_compute in Hr. injection Hr as <-. reflexivity.
Defined.

Lemma achievements_are_sentences_with_numbers_witness :
  @extract_achievements Ascii7.tables tagger worked_example
  = Ok [py "Led a team of 5 engineers."].
Proof.
  destruct (@achievements_are_sentences_with_numbers Ascii7.tables tagger
              worked_example _ eq_refl) as (l & Hl & _).
  rewrite Hl. vm_compute in Hl. injection Hl as <-. reflexivity.
Defined.
